(** * Local prompt-cache simulation (package [claude]): a shallow embedding

    The development follows the Go source of the prompt-cache engine:
    breakpoint extraction ([ExtractCacheBreakpointsWithTotal]), prefix
    hashing ([CalculatePrefixHash]), the fingerprint store client
    ([GetCacheEntry], [GetFuzzyEntry], [StoreCacheEntry], [StoreFuzzyEntry]),
    the hit resolver ([CheckCacheHits]) and the usage reconciler
    ([applyLocalCacheSimulation]), with the initialisation of the package
    ([InitPCache], [IsPCacheTargetModel]) and the settings of the Claude
    models (package [model_setting]).

    Conventions.
    - Go's [int] is a 64-bit two's complement integer: it is a [Z] and every
      addition and subtraction of the source goes through [GoInt.add] and
      [GoInt.sub], which wrap around.
    - [string] and [[]byte] are [string]; [json.RawMessage] is [RawMessage].
    - Functions of other packages (encoding/json, crypto/sha256, the
      tokenizer [service.CountTextToken], the Redis client of [common]) are
      fields of the record [Externals] or of the store state [Redis].
    - Go enumerates a map in an order of its own at every [range].  For the
      maps handed to [json.Marshal] the order is the parameter [MapOrder].
      For the maps that [json.Unmarshal] builds and [extractTextFromMap]
      ranges over, the order is the order of the members in the value that
      [json_Unmarshal] returns: an environment fixes it for one execution
      (within which the same bytes are decoded alike), and a property that
      spans several executions (a call, its goroutine, a later call) gives
      each of them a decoder of its own ([withDecoder]), so that the same
      bytes may give another text and another token estimate from one
      execution to the next. *)

From Stdlib Require Import ZArith List String Ascii Bool Lia Permutation Sorted DecimalString.
From Stdlib Require OrderedTypeEx.
From stdpp Require Import base list gmap strings sorting.

Local Open Scope string_scope.
Local Open Scope list_scope.
Local Open Scope Z_scope.

(** ** Go's [int] *)

Module GoInt.

Definition min_int : Z := - 2 ^ 63.
Definition max_int : Z := 2 ^ 63 - 1.

Definition InRange (z : Z) : Prop := min_int <= z <= max_int.

Definition wrap (z : Z) : Z := (z + 2 ^ 63) mod 2 ^ 64 - 2 ^ 63.

Definition add (a b : Z) : Z := wrap (a + b).
Definition sub (a b : Z) : Z := wrap (a - b).

#[global] Arguments wrap : simpl never.
#[global] Arguments add : simpl never.
#[global] Arguments sub : simpl never.

End GoInt.

(** ** Constants *)

Definition PCacheKeyPrefix : string := "pcache".
Definition PCacheFuzzyPrefix : string := "pcache_fuzzy".

(** [time.Duration] counts nanoseconds. *)
Definition Duration := Z.
Definition Nanosecond : Duration := 1.
Definition Second : Duration := 1000000000 * Nanosecond.
Definition Minute : Duration := 60 * Second.
Definition Hour : Duration := 60 * Minute.

Definition TTL5m : Duration := 5 * Minute.
Definition TTL1h : Duration := 1 * Hour.
Definition MaxBreakpoints : nat := 4.
Definition LookbackWindow : Z := 20.
Definition MinCacheableTokensDefault : Z := 5.
Definition MinCacheableTokensOpus : Z := 5.
Definition MinCacheableTokensSonnet : Z := 5.
Definition MinCacheableTokensHaiku : Z := 5.

(** ** The strings package, as far as the engine uses it *)

Module strings.

(** [strings.ToLower] on a string of ASCII bytes, the first branch of the
    library function: the letters [A] to [Z] are lower-cased byte by byte.
    [GetMinCacheableTokens] goes through it for every model name; its four
    thresholds are equal, so its result does not depend on the lower-casing.
    The whole function is [ToLowerString] below. *)
Definition lower_ascii (c : ascii) : ascii :=
  let n := nat_of_ascii c in
  if ((65 <=? n) && (n <=? 90))%nat then ascii_of_nat (n + 32) else c.

Fixpoint ToLower (s : string) : string :=
  match s with
  | EmptyString => EmptyString
  | String c s' => String (lower_ascii c) (ToLower s')
  end.

(** No byte of the string reaches [utf8.RuneSelf]. *)
Fixpoint isASCII (s : string) : bool :=
  match s with
  | EmptyString => true
  | String c s' => (nat_of_ascii c <? 128)%nat && isASCII s'
  end.

(** [strings.ToLower] on any string: a string of ASCII bytes is lower-cased
    byte by byte; a string with a byte from [utf8.RuneSelf] on goes through
    [strings.Map(unicode.ToLower, s)], which follows Unicode's case tables
    and is the parameter [mapLower] here. *)
Definition ToLowerString (mapLower : string -> string) (s : string) : string :=
  if isASCII s then ToLower s else mapLower s.

(** [strings.Contains s substr]. *)
Fixpoint Contains (s substr : string) : bool :=
  if String.prefix substr s then true
  else match s with
       | EmptyString => false
       | String _ s' => Contains s' substr
       end.

(** [strings.Split s sep] for a separator of one byte, which is what
    [InitPCache] passes: the pieces of [s] between the occurrences of
    [sep]; one empty piece for the empty string. *)
Fixpoint Split (s : string) (sep : ascii) : list string :=
  match s with
  | EmptyString => [EmptyString]
  | String c rest =>
      if Ascii.eqb c sep then EmptyString :: Split rest sep
      else match Split rest sep with
           | piece :: pieces => String c piece :: pieces
           | [] => [String c EmptyString]
           end
  end.

End strings.

(** ** Configuration

    The two package variables that [InitPCache] sets from the environment,
    as a value handed to [IsPCacheTargetModel]. *)
Record Config := {
  PCacheEnabled : bool;
  PCacheTargetModels : list string;
}.

Definition defaultConfig : Config :=
  {| PCacheEnabled := false;
     PCacheTargetModels := ["claude-sonnet-4-5"; "claude-opus-4-5"] |}.

(** [IsPCacheTargetModel]; [mapLower] is the lower-casing of a string that
    is not made of ASCII bytes (see [strings.ToLowerString]). *)
Section Targets.

Variable mapLower : string -> string.

Definition IsPCacheTargetModel (cfg : Config) (model : string) : bool :=
  if negb (PCacheEnabled cfg) then false
  else
    let modelLower := strings.ToLowerString mapLower model in
    existsb (fun target =>
               strings.Contains modelLower (strings.ToLowerString mapLower target))
            (PCacheTargetModels cfg).

End Targets.

(** [InitPCache]: the configuration after the call.  [Getenv] is
    [os.Getenv] (an unset variable reads as the empty string) and
    [TrimSpace] is [strings.TrimSpace], which follows Unicode's white space
    and is not unfolded here; the two log lines are not modelled. *)
Section Init.

Variable Getenv : string -> string.
Variable TrimSpace : string -> string.

Definition InitPCache (cfg : Config) : Config :=
  let enabled :=
    if String.eqb (Getenv "PCACHE_ENABLED") "true" then true else PCacheEnabled cfg in
  let models := Getenv "PCACHE_TARGET_MODELS" in
  let targets :=
    if negb (String.eqb models "")
    then map TrimSpace (strings.Split models ",")
    else PCacheTargetModels cfg in
  {| PCacheEnabled := enabled; PCacheTargetModels := targets |}.

End Init.

(** ** Data structures *)

Abbreviation RawMessage := string.

(** Modelled from the spec: the request types of package [dto] (the
    "normalized request accessor" of the spec: ordered tool list, string or
    structured system prompt, ordered message list, cache-control annotation
    per content block).  A content that is neither a string nor a list of
    blocks makes [ParseContent] fail, which the engine reads as no block at
    all: it is [ContentBlocks []] here. *)
Module dto.

Record Tool := {
  Name : string;
  Description : string;
  InputSchema : RawMessage;
}.

Record ClaudeMediaMessage := {
  Type_ : string;
  Text : string;
  CacheControl : RawMessage;
}.

Inductive Content :=
| ContentString (s : string)
| ContentBlocks (blocks : list ClaudeMediaMessage).

Record ClaudeMessage := {
  Role : string;
  MessageContent : Content;
}.

Record ClaudeRequest := {
  Tools : option (list Tool);
  System : option Content;
  Messages : list ClaudeMessage;
}.

Definition IsStringContent (msg : ClaudeMessage) : bool :=
  match MessageContent msg with ContentString _ => true | ContentBlocks _ => false end.

Definition ParseContent (msg : ClaudeMessage) : list ClaudeMediaMessage :=
  match MessageContent msg with ContentString _ => [] | ContentBlocks l => l end.

(** The usage record: the reconciler's only write target. *)
Record InputTokenDetails := {
  CachedTokens : Z;
  CachedCreationTokens : Z;
}.

Record Usage := {
  PromptTokens : Z;
  CompletionTokens : Z;
  TotalTokens : Z;
  PromptTokensDetails : InputTokenDetails;
  ClaudeCacheCreation5mTokens : Z;
  ClaudeCacheCreation1hTokens : Z;
}.

End dto.

Record CacheBreakpoint := {
  Location : string;
  Index : Z;
  BlockIndex : Z;
  TTL : string;
  TokenCount : Z;
}.

Record CachePrefix := {
  Tools : list RawMessage;
  System : list RawMessage;
  Messages : list RawMessage;
}.

(** [CreatedAt] and [ExpiresAt] are instants in nanoseconds. *)
Record CacheEntry := {
  Hash : string;
  EntryTokenCount : Z;
  EntryTTL : string;
  CreatedAt : Z;
  ExpiresAt : Z;
  Model : string;
}.

Record CacheResult := {
  Hit : bool;
  CacheReadTokens : Z;
  CacheCreationTokens : Z;
  CacheCreation5m : Z;
  CacheCreation1h : Z;
  InputTokens : Z;
  BreakpointHits : list bool;
}.

(** What [json.Unmarshal] decodes into an [interface{}].  The members of an
    object are listed in the order in which the runtime enumerates the
    resulting [map[string]interface{}]; their keys are distinct. *)
#[local] Set Warnings "-register-all".
Inductive JSON :=
| JNull
| JBool (b : bool)
| JNumber (repr : string)
| JString (s : string)
| JArray (items : list JSON)
| JObject (members : list (string * JSON)).

(** The struct [extractCacheControlTTLFromRaw] decodes an annotation into;
    a field the annotation does not carry keeps Go's zero value, the empty
    string. *)
Record CacheControlFields := {
  cc_Type : string;
  cc_TTL : string;
}.

(** ** Collaborators from other packages

    [None] stands for a non-nil [error]. *)
Record Externals := {
  json_Marshal_Tool : dto.Tool -> string;
  json_Marshal_Media : dto.ClaudeMediaMessage -> string;
  json_Marshal_MediaList : list dto.ClaudeMediaMessage -> string;
  json_Marshal_Message : dto.ClaudeMessage -> string;
  json_Marshal_string : string -> string;
  json_Marshal_bytes : string -> string;
  json_Marshal_int : Z -> string;
  json_Marshal_CacheEntry : CacheEntry -> option string;
  json_Unmarshal_CacheControl : RawMessage -> option CacheControlFields;
  json_Unmarshal_CacheEntry : string -> option CacheEntry;
  (** [json.Unmarshal] into a map followed by [entry["tokens"].(float64)]
      and the conversion to [int]: [Some None] when the text decodes but
      carries no numeric [tokens]. *)
  json_Unmarshal_tokens : string -> option (option Z);
  sha256_hex : string -> string;
  (** [json.Unmarshal] into an [interface{}]; [None] on a syntax error. *)
  json_Unmarshal : string -> option JSON;
  (** [service.CountTextToken text model]. *)
  CountTextToken : string -> string -> Z;
}.

(** The environment of another execution.  The encoders, the decoders into
    structs, the digest and the tokenizer are the same functions; what
    changes from one execution to the next is the order in which the
    runtime enumerates the maps that [json.Unmarshal] builds for
    [extractTextFromMap], hence the text and the token estimate of a block:
    [decode] is [json.Unmarshal] into an [interface{}] for that execution. *)
Definition withDecoder (E : Externals) (decode : string -> option JSON) : Externals :=
  {| json_Marshal_Tool := json_Marshal_Tool E;
     json_Marshal_Media := json_Marshal_Media E;
     json_Marshal_MediaList := json_Marshal_MediaList E;
     json_Marshal_Message := json_Marshal_Message E;
     json_Marshal_string := json_Marshal_string E;
     json_Marshal_bytes := json_Marshal_bytes E;
     json_Marshal_int := json_Marshal_int E;
     json_Marshal_CacheEntry := json_Marshal_CacheEntry E;
     json_Unmarshal_CacheControl := json_Unmarshal_CacheControl E;
     json_Unmarshal_CacheEntry := json_Unmarshal_CacheEntry E;
     json_Unmarshal_tokens := json_Unmarshal_tokens E;
     sha256_hex := sha256_hex E;
     json_Unmarshal := decode;
     CountTextToken := CountTextToken E |}.

(** Go's [error] results, as far as the callers look at them. *)
Inductive GoError := NoError | SomeError.

(** ** The fingerprint store

    Modelled from the spec: the Redis client of package [common]
    ([RedisEnabled], [RedisGet], [RedisSet]), a TTL-scoped key-value store.
    A key that is absent (or expired) makes [RedisGet] return an error. *)
Record RedisItem := {
  item_value : string;
  item_expiry : Duration;
}.

Record Redis := {
  RedisEnabled : bool;
  RDB : gmap string RedisItem;
}.

Definition RedisGet (r : Redis) (key : string) : option string :=
  item_value <$> (RDB r !! key).

Definition RedisSet (r : Redis) (key value : string) (expiry : Duration) : Redis :=
  {| RedisEnabled := RedisEnabled r;
     RDB := <[key := {| item_value := value; item_expiry := expiry |}]> (RDB r) |}.

(** ** Go maps and their JSON encoding

    The hashers and [StoreFuzzyEntry] build a [map[string]interface{}] and
    hand it to [json.Marshal].  The order in which the runtime enumerates a
    map is unspecified: it is a parameter ([MapOrder]) here, and
    [json.Marshal] sorts the entries by key before it writes them. *)
Inductive GoValue :=
| VString (s : string)
| VInt (n : Z)
| VBytes (b : string)
| VRawList (l : list RawMessage).

Definition MapOrder := gmap string GoValue -> list (string * GoValue).

Definition ValidOrder (range : MapOrder) : Prop :=
  forall m, range m ≡ₚ map_to_list m.

Definition key_le (a b : string * GoValue) : Prop := String.leb a.1 b.1 = true.

#[global] Instance key_le_dec : RelDecision key_le :=
  fun a b => decide (String.leb a.1 b.1 = true).

(** ** Text reduction *)

Definition textFields : list string := ["text"; "content"; "description"; "name"; "title"].

(** The keys whose objects [extractTextFromMap] does not descend into. *)
Definition isSchemaKey (key : string) : bool :=
  String.eqb key "input_schema" || String.eqb key "properties" || String.eqb key "required".

(** [extractTextFromMap] on the members of an object value, as the text it
    appends to the builder: first the text fields in their fixed order (a
    string, or the strings and objects of an array), then the nested objects
    in the order of the enumeration. *)
Fixpoint extractTextFromValue (v : JSON) : string :=
  match v with
  | JObject obj =>
      let items :=
        fix items (val : list JSON) : string :=
          match val with
          | [] => ""
          | item :: rest =>
              match item with
              | JString s => s +:+ " "
              | JObject _ => extractTextFromValue item
              | _ => ""
              end +:+ items rest
          end in
      let field :=
        fix field (members : list (string * JSON)) (name : string) : string :=
          match members with
          | [] => ""
          | (key, v') :: rest =>
              if String.eqb key name then
                match v' with
                | JString val => val +:+ " "
                | JArray val => items val
                | _ => ""
                end
              else field rest name
          end in
      let nested :=
        fix nested (members : list (string * JSON)) : string :=
          match members with
          | [] => ""
          | (key, v') :: rest =>
              match v' with
              | JObject _ => if isSchemaKey key then "" else extractTextFromValue v'
              | _ => ""
              end +:+ nested rest
          end in
      String.concat "" (map (field obj) textFields) +:+ nested obj
  | _ => ""
  end.

Definition extractTextFromMap (obj : list (string * JSON)) : string :=
  extractTextFromValue (JObject obj).

Section Engine.

Variable E : Externals.
Variable MapRange : MapOrder.

(** *** JSON encoding of a map *)

Definition json_Marshal_value (v : GoValue) : string :=
  match v with
  | VString s => json_Marshal_string E s
  | VInt n => json_Marshal_int E n
  | VBytes b => json_Marshal_bytes E b
  | VRawList l => "[" +:+ String.concat "," l +:+ "]"
  end.

Definition json_Marshal_entries (sv : list (string * GoValue)) : string :=
  "{" +:+ String.concat ","
            (map (fun kv => json_Marshal_string E kv.1 +:+ ":" +:+ json_Marshal_value kv.2) sv)
      +:+ "}".

Definition json_Marshal_map (data : gmap string GoValue) : string :=
  json_Marshal_entries (merge_sort key_le (MapRange data)).

(** *** Hash calculation *)

Definition CalculatePrefixHash (prefix : CachePrefix) (model : string) : string :=
  let data : gmap string GoValue := {[ "model" := VString model ]} in
  let data := if (0 <? length (Tools prefix))%nat
              then <["tools" := VRawList (Tools prefix)]> data else data in
  let data := if (0 <? length (System prefix))%nat
              then <["system" := VRawList (System prefix)]> data else data in
  let data := if (0 <? length (Messages prefix))%nat
              then <["messages" := VRawList (Messages prefix)]> data else data in
  let jsonBytes := json_Marshal_map data in
  sha256_hex E jsonBytes.

(** *** Token estimation *)

Definition estimateTokens (text model : string) : Z :=
  CountTextToken E text model.

(** [extractTextContent]: the text fields of an object, or of the objects
    of an array; the raw bytes when the data is neither.  Decoding a JSON
    [null] into a map succeeds and leaves the map empty.  The nested objects
    are visited in the order of the members that [json_Unmarshal E] returns,
    which stands for the order the runtime draws in this execution; another
    execution may draw another one ([withDecoder]). *)
Definition extractTextContent (data : string) : string :=
  match json_Unmarshal E data with
  | Some (JObject obj) => extractTextFromMap obj
  | Some JNull => ""
  | Some (JArray arr) =>
      String.concat ""
        (map (fun item => match item with
                          | JObject m => extractTextFromMap m
                          | _ => ""
                          end) arr)
  | _ => data
  end.

Definition estimateContentTokens (data model : string) : Z :=
  let text := extractTextContent data in
  if String.eqb text "" then 0 else CountTextToken E text model.

Definition GetMinCacheableTokens (model : string) : Z :=
  let modelLower := strings.ToLower model in
  if strings.Contains modelLower "opus" then MinCacheableTokensOpus
  else if strings.Contains modelLower "sonnet" then MinCacheableTokensSonnet
  else if strings.Contains modelLower "haiku" then MinCacheableTokensHaiku
  else MinCacheableTokensDefault.

(** *** Cache-control annotations *)

Definition extractCacheControlTTLFromRaw (cacheControl : RawMessage) : string :=
  if (String.length cacheControl =? 0)%nat then ""
  else match json_Unmarshal_CacheControl E cacheControl with
       | None => ""
       | Some cc =>
           if negb (String.eqb (cc_Type cc) "ephemeral") then ""
           else if String.eqb (cc_TTL cc) "" then "5m"
           else cc_TTL cc
       end.

(** The loop of [extractCacheControlFromMessage] over the parsed content. *)
Fixpoint extractCacheControlFromBlocks (content : list dto.ClaudeMediaMessage) : string :=
  match content with
  | [] => ""
  | media :: rest =>
      if (0 <? String.length (dto.CacheControl media))%nat
      then extractCacheControlTTLFromRaw (dto.CacheControl media)
      else extractCacheControlFromBlocks rest
  end.

Definition extractCacheControlFromMessage (msg : dto.ClaudeMessage) : string :=
  if dto.IsStringContent msg then ""
  else extractCacheControlFromBlocks (dto.ParseContent msg).

(** *** Breakpoint extraction *)

(** The local variables of [ExtractCacheBreakpointsWithTotal]. *)
Record Walk := {
  breakpoints : list CacheBreakpoint;
  globalBlockIndex : Z;
  totalTokens : Z;
  toolsTokens : Z;
  cacheableTokens : Z;
}.

(** 1. One iteration of the loop over the tools. *)
Definition toolStep (model : string) (w : Walk) (tool : dto.Tool) : Walk :=
  let toolBytes := json_Marshal_Tool E tool in
  let tokens := estimateContentTokens toolBytes model in
  {| breakpoints := breakpoints w;
     globalBlockIndex := GoInt.add (globalBlockIndex w) 1;
     totalTokens := GoInt.add (totalTokens w) tokens;
     toolsTokens := GoInt.add (toolsTokens w) tokens;
     cacheableTokens := cacheableTokens w |}.

(** 2. The loop over the blocks of a structured system prompt, from
    index [i] on. *)
Fixpoint systemLoop (model : string) (i : nat)
         (systemMedia : list dto.ClaudeMediaMessage) (w : Walk) : Walk :=
  match systemMedia with
  | [] => w
  | media :: rest =>
      let mediaBytes := json_Marshal_Media E media in
      let tokens := estimateContentTokens mediaBytes model in
      let cacheable := GoInt.add (cacheableTokens w) tokens in
      let total := GoInt.add (totalTokens w) tokens in
      let blockIndex := GoInt.add (globalBlockIndex w) 1 in
      let bps :=
        if (0 <? String.length (dto.CacheControl media))%nat then
          let ttl := extractCacheControlTTLFromRaw (dto.CacheControl media) in
          if negb (String.eqb ttl "") then
            breakpoints w ++
              [ {| Location := "system"; Index := Z.of_nat i; BlockIndex := blockIndex;
                   TTL := ttl; TokenCount := cacheable |} ]
          else breakpoints w
        else breakpoints w in
      systemLoop model (S i) rest
        {| breakpoints := bps;
           globalBlockIndex := blockIndex;
           totalTokens := total;
           toolsTokens := toolsTokens w;
           cacheableTokens := cacheable |}
  end.

(** 3. The loop over the messages, from index [i] on. *)
Fixpoint messageLoop (model : string) (i : nat)
         (messages : list dto.ClaudeMessage) (w : Walk) : Walk :=
  match messages with
  | [] => w
  | msg :: rest =>
      let msgBytes := json_Marshal_Message E msg in
      let tokens := estimateContentTokens msgBytes model in
      let cacheable := GoInt.add (cacheableTokens w) tokens in
      let total := GoInt.add (totalTokens w) tokens in
      let blockIndex := GoInt.add (globalBlockIndex w) 1 in
      let ttl := extractCacheControlFromMessage msg in
      let bps :=
        if negb (String.eqb ttl "") then
          breakpoints w ++
            [ {| Location := "message"; Index := Z.of_nat i; BlockIndex := blockIndex;
                 TTL := ttl; TokenCount := cacheable |} ]
        else breakpoints w in
      messageLoop model (S i) rest
        {| breakpoints := bps;
           globalBlockIndex := blockIndex;
           totalTokens := total;
           toolsTokens := toolsTokens w;
           cacheableTokens := cacheable |}
  end.

(** 1. Process tools: tokens only, no breakpoint. *)
Definition walkTools (req : dto.ClaudeRequest) (model : string) (w : Walk) : Walk :=
  match dto.Tools req with
  | Some tools => fold_left (toolStep model) tools w
  | None => w
  end.

(** 2. Process system: a structured prompt block by block, a string
    prompt as one block without breakpoint. *)
Definition walkSystem (req : dto.ClaudeRequest) (model : string) (w : Walk) : Walk :=
  match dto.System req with
  | Some (dto.ContentBlocks systemMedia) => systemLoop model 0 systemMedia w
  | Some (dto.ContentString s) =>
      let tokens := estimateTokens s model in
      {| breakpoints := breakpoints w;
         globalBlockIndex := GoInt.add (globalBlockIndex w) 1;
         totalTokens := GoInt.add (totalTokens w) tokens;
         toolsTokens := toolsTokens w;
         cacheableTokens := GoInt.add (cacheableTokens w) tokens |}
  | None => w
  end.

(** The state after the three passes, before the truncation. *)
Definition walkRequest (req : dto.ClaudeRequest) (model : string) : Walk :=
  let w := {| breakpoints := []; globalBlockIndex := 0; totalTokens := 0;
              toolsTokens := 0; cacheableTokens := 0 |} in
  let w := walkTools req model w in
  let w := walkSystem req model w in
  messageLoop model 0 (dto.Messages req) w.

Definition ExtractCacheBreakpointsWithTotal (req : dto.ClaudeRequest) (model : string)
  : list CacheBreakpoint * Z * Z :=
  let w := walkRequest req model in
  let bps := if (MaxBreakpoints <? length (breakpoints w))%nat
             then take MaxBreakpoints (breakpoints w)
             else breakpoints w in
  (bps, totalTokens w, toolsTokens w).

Definition ExtractCacheBreakpoints (req : dto.ClaudeRequest) (model : string)
  : list CacheBreakpoint :=
  let '(bps, _, _) := ExtractCacheBreakpointsWithTotal req model in bps.

(** *** Prefix building *)

Definition BuildPrefixUpToBreakpoint (req : dto.ClaudeRequest) (bp : CacheBreakpoint)
  : CachePrefix :=
  let prefixTools :=
    match dto.Tools req with
    | Some tools =>
        let limit := if String.eqb (Location bp) "tools"
                     then GoInt.add (Index bp) 1
                     else Z.of_nat (length tools) in
        map (json_Marshal_Tool E) (take (Z.to_nat limit) tools)
    | None => []
    end in
  let prefixSystem :=
    if negb (String.eqb (Location bp) "tools") then
      match dto.System req with
      | Some (dto.ContentString s) => [json_Marshal_string E s]
      | Some (dto.ContentBlocks systemMedia) =>
          let limit := if String.eqb (Location bp) "system"
                       then GoInt.add (Index bp) 1
                       else Z.of_nat (length systemMedia) in
          map (json_Marshal_Media E) (take (Z.to_nat limit) systemMedia)
      | None => []
      end
    else [] in
  let prefixMessages :=
    if String.eqb (Location bp) "message"
    then map (json_Marshal_Message E) (take (Z.to_nat (Index bp + 1)) (dto.Messages req))
    else [] in
  {| Tools := prefixTools; System := prefixSystem; Messages := prefixMessages |}.

(** *** Redis operations *)

Definition GetCacheKey (model hash : string) : string :=
  PCacheKeyPrefix +:+ ":" +:+ model +:+ ":" +:+ hash.

Definition GetFuzzyCacheKey (model systemHash : string) : string :=
  PCacheFuzzyPrefix +:+ ":" +:+ model +:+ ":" +:+ systemHash.

Definition CalculateSystemHash (req : dto.ClaudeRequest) (model : string) : string :=
  match dto.System req with
  | None => ""
  | Some sys =>
      let systemBytes :=
        match sys with
        | dto.ContentString s => json_Marshal_string E s
        | dto.ContentBlocks systemMedia => json_Marshal_MediaList E systemMedia
        end in
      let data : gmap string GoValue :=
        <["system" := VBytes systemBytes]> {[ "model" := VString model ]} in
      let jsonBytes := json_Marshal_map data in
      sha256_hex E jsonBytes
  end.

(** The store after the call; the error of [RedisSet] is not modelled. *)
Definition StoreFuzzyEntry (r : Redis) (model systemHash : string)
           (tokenCount : Z) (ttl : string) : Redis :=
  if negb (RedisEnabled r) || String.eqb systemHash "" then r
  else
    let key := GetFuzzyCacheKey model systemHash in
    let expiry := if String.eqb ttl "1h" then TTL1h else TTL5m in
    let data : gmap string GoValue :=
      <["ttl" := VString ttl]> {[ "tokens" := VInt tokenCount ]} in
    let jsonBytes := json_Marshal_map data in
    RedisSet r key jsonBytes expiry.

Definition GetFuzzyEntry (r : Redis) (model systemHash : string) : Z * bool :=
  if negb (RedisEnabled r) || String.eqb systemHash "" then (0, false)
  else
    let key := GetFuzzyCacheKey model systemHash in
    match RedisGet r key with
    | None => (0, false)
    | Some data =>
        if String.eqb data "" then (0, false)
        else match json_Unmarshal_tokens E data with
             | None => (0, false)
             | Some (Some tokens) => (tokens, true)
             | Some None => (0, false)
             end
    end.

(** [now] is the value of [time.Now()]. *)
Definition StoreCacheEntry (r : Redis) (now : Z) (entry : CacheEntry) : Redis * GoError :=
  if negb (RedisEnabled r) then (r, NoError)
  else
    let key := GetCacheKey (Model entry) (Hash entry) in
    let ttl := if String.eqb (EntryTTL entry) "1h" then TTL1h else TTL5m in
    let entry :=
      {| Hash := Hash entry; EntryTokenCount := EntryTokenCount entry;
         EntryTTL := EntryTTL entry; CreatedAt := now; ExpiresAt := now + ttl;
         Model := Model entry |} in
    match json_Marshal_CacheEntry E entry with
    | None => (r, SomeError)
    | Some data => (RedisSet r key data ttl, NoError)
    end.

Definition GetCacheEntry (r : Redis) (model hash : string) : option CacheEntry * GoError :=
  if negb (RedisEnabled r) then (None, NoError)
  else
    let key := GetCacheKey model hash in
    match RedisGet r key with
    | None => (None, SomeError)
    | Some data =>
        if String.eqb data "" then (None, NoError)
        else match json_Unmarshal_CacheEntry E data with
             | None => (None, SomeError)
             | Some entry => (Some entry, NoError)
             end
    end.

(** *** Cache hit detection *)

(** The test [err == nil && entry != nil] on the fingerprint of the prefix
    that ends at [bp]. *)
Definition exactEntryFound (r : Redis) (req : dto.ClaudeRequest) (model : string)
           (bp : CacheBreakpoint) : bool :=
  let prefix := BuildPrefixUpToBreakpoint req bp in
  let hash := CalculatePrefixHash prefix model in
  match GetCacheEntry r model hash with
  | (Some _, NoError) => true
  | _ => false
  end.

(** The descending loop [for i := len(breakpoints) - 1; i >= 0; i--] of
    [CheckCacheHits] and [applyLocalCacheSimulation], entered with [k = i + 1]:
    the index at which it reaches its [break], if it does. *)
Fixpoint scanExact (r : Redis) (req : dto.ClaudeRequest) (model : string)
         (minTokens : Z) (bps : list CacheBreakpoint) (k : nat) : option nat :=
  match k with
  | O => None
  | S i =>
      match bps !! i with
      | Some bp =>
          if TokenCount bp <? minTokens then scanExact r req model minTokens bps i
          else if exactEntryFound r req model bp then Some i
          else scanExact r req model minTokens bps i
      | None => scanExact r req model minTokens bps i
      end
  end.

(** [for j := 0; j < i; j++ { result.BreakpointHits[j] = true }] *)
Definition markShorter (i : nat) (hits : list bool) : list bool :=
  fold_left (fun hs j => <[j := true]> hs) (seq 0 i) hits.

Definition addCreation (result : CacheResult) (ttl : string) (creationTokens : Z)
  : CacheResult :=
  {| Hit := Hit result;
     CacheReadTokens := CacheReadTokens result;
     CacheCreationTokens := GoInt.add (CacheCreationTokens result) creationTokens;
     CacheCreation5m := if String.eqb ttl "1h" then CacheCreation5m result
                        else GoInt.add (CacheCreation5m result) creationTokens;
     CacheCreation1h := if String.eqb ttl "1h"
                        then GoInt.add (CacheCreation1h result) creationTokens
                        else CacheCreation1h result;
     InputTokens := InputTokens result;
     BreakpointHits := BreakpointHits result |}.

(** The body shared by the two creation loops of [CheckCacheHits]; the
    second component is [lastHitTokens] (after a hit) or [prevTokens]
    (after a miss). *)
Definition creationStep (minTokens : Z) (st : CacheResult * Z) (bp : CacheBreakpoint)
  : CacheResult * Z :=
  let '(result, lastHitTokens) := st in
  if minTokens <=? TokenCount bp then
    let creationTokens := GoInt.sub (TokenCount bp) lastHitTokens in
    (addCreation result (TTL bp) creationTokens, TokenCount bp)
  else st.

(** [result.InputTokens = totalInputTokens - lastBp.TokenCount], floored. *)
Definition remainingInput (result : CacheResult) (breakpoints : list CacheBreakpoint)
           (totalInputTokens : Z) : CacheResult :=
  match last breakpoints with
  | Some lastBp =>
      let input := GoInt.sub totalInputTokens (TokenCount lastBp) in
      {| Hit := Hit result;
         CacheReadTokens := CacheReadTokens result;
         CacheCreationTokens := CacheCreationTokens result;
         CacheCreation5m := CacheCreation5m result;
         CacheCreation1h := CacheCreation1h result;
         InputTokens := if input <? 0 then 0 else input;
         BreakpointHits := BreakpointHits result |}
  | None => result
  end.

Definition CheckCacheHits (r : Redis) (req : dto.ClaudeRequest) (model : string)
           (totalInputTokens : Z) : CacheResult :=
  let breakpoints := ExtractCacheBreakpoints req model in
  let result :=
    {| Hit := false; CacheReadTokens := 0; CacheCreationTokens := 0;
       CacheCreation5m := 0; CacheCreation1h := 0;
       InputTokens := totalInputTokens;
       BreakpointHits := replicate (length breakpoints) false |} in
  if (length breakpoints =? 0)%nat then result
  else
    let minTokens := GetMinCacheableTokens model in
    match scanExact r req model minTokens breakpoints (length breakpoints) with
    | Some i =>
        let lastHitTokens := default 0 (TokenCount <$> breakpoints !! i) in
        let result :=
          {| Hit := true; CacheReadTokens := lastHitTokens; CacheCreationTokens := 0;
             CacheCreation5m := 0; CacheCreation1h := 0;
             InputTokens := totalInputTokens;
             BreakpointHits := markShorter i (<[i := true]> (BreakpointHits result)) |} in
        let '(result, _) :=
          fold_left (creationStep minTokens) (drop (S i) breakpoints)
                    (result, lastHitTokens) in
        remainingInput result breakpoints totalInputTokens
    | None =>
        let '(result, _) :=
          fold_left (creationStep minTokens) breakpoints (result, 0) in
        remainingInput result breakpoints totalInputTokens
    end.

(** [StoreCacheBreakpoints]: the store after every above-threshold
    breakpoint has been written; a failed write is logged and skipped. *)
Definition storeBreakpointStep (req : dto.ClaudeRequest) (model : string) (now : Z)
           (minTokens : Z) (r : Redis) (bp : CacheBreakpoint) : Redis :=
  if TokenCount bp <? minTokens then r
  else
    let prefix := BuildPrefixUpToBreakpoint req bp in
    let hash := CalculatePrefixHash prefix model in
    let entry :=
      {| Hash := hash; EntryTokenCount := TokenCount bp; EntryTTL := TTL bp;
         CreatedAt := 0; ExpiresAt := 0; Model := model |} in
    fst (StoreCacheEntry r now entry).

Definition StoreCacheBreakpoints (r : Redis) (now : Z) (req : dto.ClaudeRequest)
           (model : string) : Redis :=
  let breakpoints := ExtractCacheBreakpoints req model in
  let minTokens := GetMinCacheableTokens model in
  fold_left (storeBreakpointStep req model now minTokens) breakpoints r.

(** *** Main entry point *)

(** A goroutine started with [go]: it runs after the caller has made its
    decision, and the caller never reads its result. *)
Inductive Task :=
| GoStoreFuzzyEntry (model systemHash : string) (tokenCount : Z) (ttl : string)
| GoStoreCacheBreakpoints (req : dto.ClaudeRequest) (model : string).

Definition ProcessPromptCache (r : Redis) (req : dto.ClaudeRequest) (model : string)
           (totalInputTokens : Z) : CacheResult * list Task :=
  let result := CheckCacheHits r req model totalInputTokens in
  (result, [GoStoreCacheBreakpoints req model]).

(** *** The usage reconciler *)

(** The accumulators of [applyLocalCacheSimulation]. *)
Record Tally := {
  cacheReadTokens : Z;
  cacheCreateTokens : Z;
  cacheCreate5m : Z;
  cacheCreate1h : Z;
  lastCacheTokens : Z;
  exactHit : bool;
}.

Definition tallyZero : Tally :=
  {| cacheReadTokens := 0; cacheCreateTokens := 0; cacheCreate5m := 0;
     cacheCreate1h := 0; lastCacheTokens := 0; exactHit := false |}.

(** The statements every creation branch runs: the bucket chosen by the
    TTL class, the creation total, and the new accounted boundary. *)
Definition tallyCreate (t : Tally) (bp : CacheBreakpoint) (createTokens : Z) : Tally :=
  {| cacheReadTokens := cacheReadTokens t;
     cacheCreateTokens := GoInt.add (cacheCreateTokens t) createTokens;
     cacheCreate5m := if String.eqb (TTL bp) "1h" then cacheCreate5m t
                      else GoInt.add (cacheCreate5m t) createTokens;
     cacheCreate1h := if String.eqb (TTL bp) "1h"
                      then GoInt.add (cacheCreate1h t) createTokens
                      else cacheCreate1h t;
     lastCacheTokens := TokenCount bp;
     exactHit := exactHit t |}.

(** Body of the loop [for j := i + 1; ...] after an exact hit. *)
Definition exactStep (minTokens : Z) (t : Tally) (nextBp : CacheBreakpoint) : Tally :=
  if minTokens <=? TokenCount nextBp
  then tallyCreate t nextBp (GoInt.sub (TokenCount nextBp) (lastCacheTokens t))
  else t.

(** Body of the loop after a fuzzy hit. *)
Definition fuzzyStep (minTokens : Z) (t : Tally) (bp : CacheBreakpoint) : Tally :=
  if (lastCacheTokens t <? TokenCount bp) && (minTokens <=? TokenCount bp)
  then tallyCreate t bp (GoInt.sub (TokenCount bp) (lastCacheTokens t))
  else t.

(** Body of the loop of the full miss; the second component is
    [prevTokens]. *)
Definition missStep (minTokens : Z) (st : Tally * Z) (bp : CacheBreakpoint) : Tally * Z :=
  let '(t, prevTokens) := st in
  if minTokens <=? TokenCount bp
  then (tallyCreate t bp (GoInt.sub (TokenCount bp) prevTokens), TokenCount bp)
  else st.

(** 1. Exact match, longest prefix first. *)
Definition phaseExact (r : Redis) (req : dto.ClaudeRequest) (model : string)
           (minTokens : Z) (breakpoints : list CacheBreakpoint) (t : Tally) : Tally :=
  match scanExact r req model minTokens breakpoints (length breakpoints) with
  | Some i =>
      match breakpoints !! i with
      | Some bp =>
          fold_left (exactStep minTokens) (drop (S i) breakpoints)
            {| cacheReadTokens := TokenCount bp;
               cacheCreateTokens := cacheCreateTokens t;
               cacheCreate5m := cacheCreate5m t;
               cacheCreate1h := cacheCreate1h t;
               lastCacheTokens := TokenCount bp;
               exactHit := true |}
      | None => t
      end
  | None => t
  end.

(** 2. Fuzzy match on the system prompt. *)
Definition phaseFuzzy (r : Redis) (req : dto.ClaudeRequest) (model : string)
           (minTokens : Z) (breakpoints : list CacheBreakpoint) (t : Tally) : Tally :=
  if negb (exactHit t) && (0 <? length breakpoints)%nat then
    let systemHash := CalculateSystemHash req model in
    match GetFuzzyEntry r model systemHash with
    | (fuzzyTokens, true) =>
        match breakpoints with
        | bp0 :: _ =>
            if minTokens <=? TokenCount bp0 then
              let read := if TokenCount bp0 <? fuzzyTokens
                          then TokenCount bp0 else fuzzyTokens in
              fold_left (fuzzyStep minTokens) breakpoints
                {| cacheReadTokens := read;
                   cacheCreateTokens := cacheCreateTokens t;
                   cacheCreate5m := cacheCreate5m t;
                   cacheCreate1h := cacheCreate1h t;
                   lastCacheTokens := read;
                   exactHit := exactHit t |}
            else t
        | [] => t
        end
    | (_, false) => t
    end
  else t.

(** 3. Neither: every breakpoint is a creation boundary, and a fuzzy
    entry is scheduled for the first one. *)
Definition phaseMiss (req : dto.ClaudeRequest) (model : string)
           (minTokens : Z) (breakpoints : list CacheBreakpoint) (t : Tally)
  : Tally * list Task :=
  if (cacheReadTokens t =? 0) && (0 <? length breakpoints)%nat then
    let '(t, _) := fold_left (missStep minTokens) breakpoints (t, 0) in
    match breakpoints with
    | bp0 :: _ =>
        let systemHash := CalculateSystemHash req model in
        (t, [GoStoreFuzzyEntry model systemHash (TokenCount bp0) (TTL bp0)])
    | [] => (t, [])
    end
  else (t, []).

(** What the function has computed when it reaches the test
    [cacheReadTokens == 0 && cacheCreateTokens == 0]. *)
Record Resolution := {
  localTotalTokens : Z;
  localToolsTokens : Z;
  resBreakpoints : list CacheBreakpoint;
  tally : Tally;
  nonCacheTokens : Z;
  scheduled : list Task;
}.

(** The resolution phase; [None] is the early return on
    [localTotalTokens == 0]. *)
Definition resolveLocal (r : Redis) (req : dto.ClaudeRequest) (model : string)
  : option Resolution :=
  let '(breakpoints, localTotalTokens, toolsTokens) :=
    ExtractCacheBreakpointsWithTotal req model in
  if localTotalTokens =? 0 then None
  else
    let cacheableTotalTokens := GoInt.sub localTotalTokens toolsTokens in
    let minTokens := GetMinCacheableTokens model in
    let t := phaseExact r req model minTokens breakpoints tallyZero in
    let t := phaseFuzzy r req model minTokens breakpoints t in
    let '(t, tasks) := phaseMiss req model minTokens breakpoints t in
    let nonCacheTokens :=
      GoInt.add toolsTokens (GoInt.sub cacheableTotalTokens (lastCacheTokens t)) in
    let nonCacheTokens := if nonCacheTokens <? 0 then 0 else nonCacheTokens in
    Some {| localTotalTokens := localTotalTokens;
            localToolsTokens := toolsTokens;
            resBreakpoints := breakpoints;
            tally := t;
            nonCacheTokens := nonCacheTokens;
            scheduled := tasks |}.

(** The write phase: the usage record after the call and the goroutines
    it has started.  [req = None] is a nil request; a nil [usage] has no
    record to update. *)
Definition applyLocalCacheSimulation (r : Redis) (req : option dto.ClaudeRequest)
           (model : string) (usage : dto.Usage) : dto.Usage * list Task :=
  match req with
  | None => (usage, [])
  | Some req =>
      match resolveLocal r req model with
      | None => (usage, [])
      | Some res =>
          let t := tally res in
          if (cacheReadTokens t =? 0) && (cacheCreateTokens t =? 0)
          then (usage, scheduled res)
          else
            ({| dto.PromptTokens :=
                  if 0 <? nonCacheTokens res then nonCacheTokens res
                  else dto.PromptTokens usage;
                dto.CompletionTokens := dto.CompletionTokens usage;
                dto.TotalTokens := dto.TotalTokens usage;
                dto.PromptTokensDetails :=
                  {| dto.CachedTokens := cacheReadTokens t;
                     dto.CachedCreationTokens := cacheCreateTokens t |};
                dto.ClaudeCacheCreation5mTokens := cacheCreate5m t;
                dto.ClaudeCacheCreation1hTokens := cacheCreate1h t |},
             scheduled res ++ [GoStoreCacheBreakpoints req model])
      end
  end.

End Engine.

(** ** Package [model_setting]: the settings of the Claude models

    A Go map that may be nil is an [option]: reading a nil map gives the
    zero value, writing to it panics.  A nil slice is the empty list.
    [float64] is kept abstract: no function here reads the field that
    carries one. *)
Module model_setting.

Record CacheControlInjectionPoint := {
  Location : string;
  Role : string;
  Index : option Z;
  Ttl : string;
}.

Record ClaudeSettings (float64 : Type) := {
  HeadersSettings : gmap string (gmap string (list string));
  CacheControlInjectionPoints : option (gmap string (list CacheControlInjectionPoint));
  DefaultMaxTokens : option (gmap string Z);
  ThinkingAdapterEnabled : bool;
  ThinkingAdapterBudgetTokensPercentage : float64;
}.

#[global] Arguments HeadersSettings {float64} _.
#[global] Arguments CacheControlInjectionPoints {float64} _.
#[global] Arguments DefaultMaxTokens {float64} _.
#[global] Arguments ThinkingAdapterEnabled {float64} _.
#[global] Arguments ThinkingAdapterBudgetTokensPercentage {float64} _.

(** [percentage] stands for the constant 0.8. *)
Definition defaultClaudeSettings {float64 : Type} (percentage : float64)
  : ClaudeSettings float64 :=
  {| HeadersSettings := ∅;
     CacheControlInjectionPoints := Some ∅;
     DefaultMaxTokens := Some {[ "default" := 8192 ]};
     ThinkingAdapterEnabled := true;
     ThinkingAdapterBudgetTokensPercentage := percentage |}.

(** [GetClaudeSettings] on the global instance: the instance after the
    call, which is what the returned pointer refers to; [None] is the panic
    of an assignment to an entry of a nil map. *)
Definition GetClaudeSettings {float64 : Type} (claudeSettings : ClaudeSettings float64)
  : option (ClaudeSettings float64) :=
  match DefaultMaxTokens claudeSettings with
  | None => None
  | Some tokens =>
      let tokens := match tokens !! "default" with
                    | Some _ => tokens
                    | None => <["default" := 8192]> tokens
                    end in
      let points := match CacheControlInjectionPoints claudeSettings with
                    | None => Some ∅
                    | Some points => Some points
                    end in
      Some {| HeadersSettings := HeadersSettings claudeSettings;
              CacheControlInjectionPoints := points;
              DefaultMaxTokens := Some tokens;
              ThinkingAdapterEnabled := ThinkingAdapterEnabled claudeSettings;
              ThinkingAdapterBudgetTokensPercentage :=
                ThinkingAdapterBudgetTokensPercentage claudeSettings |}
  end.

Definition GetCacheControlInjectionPoints {float64 : Type} (c : ClaudeSettings float64)
           (model : string) : list CacheControlInjectionPoint :=
  match CacheControlInjectionPoints c with
  | None => []
  | Some all =>
      match all !! model with
      | Some points => points
      | None =>
          match all !! "default" with
          | Some points => points
          | None => []
          end
      end
  end.

Definition GetDefaultMaxTokens {float64 : Type} (c : ClaudeSettings float64)
           (model : string) : Z :=
  let tokens := default ∅ (DefaultMaxTokens c) in
  match tokens !! model with
  | Some maxTokens => maxTokens
  | None => default 0 (tokens !! "default")
  end.

(** [http.Header]: the values of each canonical key, in the order in which
    they were added. *)
Abbreviation Header := (gmap string (list string)).

Section Headers.

(** [textproto.CanonicalMIMEHeaderKey], and the order in which the runtime
    enumerates the configured headers of a model. *)
Variable CanonicalMIMEHeaderKey : string -> string.
Variable HeaderRange : gmap string (list string) -> list (string * list string).

Definition Values (h : Header) (key : string) : list string :=
  default [] (h !! CanonicalMIMEHeaderKey key).

Definition Add (h : Header) (key value : string) : Header :=
  let key := CanonicalMIMEHeaderKey key in
  <[key := default [] (h !! key) ++ [value]]> h.

(** The body of the loop over the configured headers: the values that the
    header did not carry when the iteration started are added. *)
Definition writeHeader (httpHeader : Header) (kv : string * list string) : Header :=
  let '(headerKey, headerValues) := kv in
  let existingValues := Values httpHeader headerKey in
  let existingValuesMap : gmap string bool :=
    fold_left (fun m v => <[v := true]> m) existingValues ∅ in
  fold_left (fun h headerValue =>
               if negb (default false (existingValuesMap !! headerValue))
               then Add h headerKey headerValue
               else h)
            headerValues httpHeader.

Definition WriteHeaders {float64 : Type} (c : ClaudeSettings float64)
           (originModel : string) (httpHeader : Header) : Header :=
  match HeadersSettings c !! originModel with
  | Some headers => fold_left writeHeader (HeaderRange headers) httpHeader
  | None => httpHeader
  end.

End Headers.

End model_setting.

(** ** Definitions used to state the properties *)

#[global] Instance RedisItem_eq_dec : EqDecision RedisItem.
Proof. solve_decision. Defined.

(** A goroutine of the engine run on the store; [now] is the value of
    [time.Now()] that it reads. *)
Definition runTask (E : Externals) (range : MapOrder) (now : Z) (r : Redis) (t : Task)
  : Redis :=
  match t with
  | GoStoreFuzzyEntry model systemHash tokenCount ttl =>
      StoreFuzzyEntry E range r model systemHash tokenCount ttl
  | GoStoreCacheBreakpoints req model => StoreCacheBreakpoints E range r now req model
  end.

(** A breakpoint without its token estimate: where it stands and its TTL
    class. *)
Definition place (bp : CacheBreakpoint) : string * Z * Z * string :=
  (Location bp, Index bp, BlockIndex bp, TTL bp).

(** The blocks of a structured system prompt. *)
Definition systemBlocks (req : dto.ClaudeRequest) : list dto.ClaudeMediaMessage :=
  match dto.System req with
  | Some (dto.ContentBlocks systemMedia) => systemMedia
  | _ => []
  end.

(** An entry as [StoreCacheEntry] encodes it at the instant [now]. *)
Definition stamped (now : Z) (entry : CacheEntry) : CacheEntry :=
  {| Hash := Hash entry; EntryTokenCount := EntryTokenCount entry;
     EntryTTL := EntryTTL entry; CreatedAt := now;
     ExpiresAt := now + (if String.eqb (EntryTTL entry) "1h" then TTL1h else TTL5m);
     Model := Model entry |}.

(** The entry that [StoreCacheBreakpoints] builds for a breakpoint. *)
Definition entryFor (E : Externals) (range : MapOrder) (req : dto.ClaudeRequest)
           (model : string) (bp : CacheBreakpoint) : CacheEntry :=
  {| Hash := CalculatePrefixHash E range (BuildPrefixUpToBreakpoint E req bp) model;
     EntryTokenCount := TokenCount bp; EntryTTL := TTL bp;
     CreatedAt := 0; ExpiresAt := 0; Model := model |}.

(** The encoder accepts the entry and the decoder accepts its output. *)
Definition decodes (E : Externals) (entry : CacheEntry) : bool :=
  match json_Marshal_CacheEntry E entry with
  | Some data =>
      negb (String.eqb data "")
      && match json_Unmarshal_CacheEntry E data with Some _ => true | None => false end
  | None => false
  end.

(** The text that [StoreFuzzyEntry] writes. *)
Definition fuzzyPayload (E : Externals) (range : MapOrder) (tokenCount : Z) (ttl : string)
  : string :=
  json_Marshal_map E range (<["ttl" := VString ttl]> {[ "tokens" := VInt tokenCount ]}).

(** No occurrence of a byte in a string. *)
Fixpoint noByte (b : ascii) (s : string) : bool :=
  match s with
  | EmptyString => true
  | String c rest => negb (Ascii.eqb c b) && noByte b rest
  end.

(** No colon in a string, as in a hexadecimal digest. *)
Definition noColon (s : string) : bool := noByte ":" s.

(** The encoded tools and the encoded system prompt of a request, whole. *)
Definition wholeTools (E : Externals) (req : dto.ClaudeRequest) : list RawMessage :=
  match dto.Tools req with
  | Some tools => map (json_Marshal_Tool E) tools
  | None => []
  end.

Definition wholeSystem (E : Externals) (req : dto.ClaudeRequest) : list RawMessage :=
  match dto.System req with
  | Some (dto.ContentString s) => [json_Marshal_string E s]
  | Some (dto.ContentBlocks systemMedia) => map (json_Marshal_Media E) systemMedia
  | None => []
  end.

(** The test [data != ""] followed by a successful decoding, on the item
    that the store holds under a key, if it holds one. *)
Definition readable (E : Externals) (item : option RedisItem) : bool :=
  match item with
  | Some it =>
      negb (String.eqb (item_value it) "")
      && match json_Unmarshal_CacheEntry E (item_value it) with
         | Some _ => true
         | None => false
         end
  | None => false
  end.

(** The loops of [extractTextFromMap], one by one: the strings and objects
    of an array, the value of one text field, and the nested objects. *)
Fixpoint itemsText (val : list JSON) : string :=
  match val with
  | [] => ""
  | item :: rest =>
      match item with
      | JString s => s +:+ " "
      | JObject _ => extractTextFromValue item
      | _ => ""
      end +:+ itemsText rest
  end.

Fixpoint fieldText (members : list (string * JSON)) (name : string) : string :=
  match members with
  | [] => ""
  | (key, v) :: rest =>
      if String.eqb key name then
        match v with
        | JString val => val +:+ " "
        | JArray val => itemsText val
        | _ => ""
        end
      else fieldText rest name
  end.

Fixpoint nestedText (members : list (string * JSON)) : string :=
  match members with
  | [] => ""
  | (key, v) :: rest =>
      match v with
      | JObject _ => if isSchemaKey key then "" else extractTextFromValue v
      | _ => ""
      end +:+ nestedText rest
  end.

(** The members of an object without those under a schema key. *)
Definition withoutSchema (obj : list (string * JSON)) : list (string * JSON) :=
  List.filter (fun kv => negb (isSchemaKey (fst kv))) obj.

(** No block of the request carries a cache-control annotation. *)
Definition unannotated (req : dto.ClaudeRequest) : Prop :=
  Forall (fun media => dto.CacheControl media = "") (systemBlocks req)
  /\ Forall (fun msg => Forall (fun media => dto.CacheControl media = "")
                               (dto.ParseContent msg))
            (dto.Messages req).

Definition sumZ (l : list Z) : Z := fold_right Z.add 0 l.

Definition le_TokenCount (a b : CacheBreakpoint) : Prop := TokenCount a <= TokenCount b.

(** Document order inside one segment group. *)
Definition lt_Index (a b : CacheBreakpoint) : Prop := Index a < Index b.

(** A content block that carries a cache-control annotation. *)
Definition annotated (media : dto.ClaudeMediaMessage) : bool :=
  (0 <? String.length (dto.CacheControl media))%nat.

Section Estimates.

Variable E : Externals.

(** The token estimates of the three segment groups, in document order. *)
Definition toolEstimates (req : dto.ClaudeRequest) (model : string) : list Z :=
  match dto.Tools req with
  | Some tools => map (fun tool => estimateContentTokens E (json_Marshal_Tool E tool) model) tools
  | None => []
  end.

Definition systemEstimates (req : dto.ClaudeRequest) (model : string) : list Z :=
  match dto.System req with
  | Some (dto.ContentBlocks systemMedia) =>
      map (fun media => estimateContentTokens E (json_Marshal_Media E media) model) systemMedia
  | Some (dto.ContentString s) => [estimateTokens E s model]
  | None => []
  end.

Definition messageEstimates (req : dto.ClaudeRequest) (model : string) : list Z :=
  map (fun msg => estimateContentTokens E (json_Marshal_Message E msg) model) (dto.Messages req).

(** The sum of all estimates, without wrap-around. *)
Definition exactTotal (req : dto.ClaudeRequest) (model : string) : Z :=
  sumZ (toolEstimates req model) + sumZ (systemEstimates req model)
  + sumZ (messageEstimates req model).

(** Both marked-block loops are instances of one scan. *)
Fixpoint scanLoop {A : Type} (loc : string) (tok : A -> Z) (mark : A -> string)
         (i : nat) (l : list A) (w : Walk) : Walk :=
  match l with
  | [] => w
  | x :: rest =>
      let cacheable := GoInt.add (cacheableTokens w) (tok x) in
      let blockIndex := GoInt.add (globalBlockIndex w) 1 in
      scanLoop loc tok mark (S i) rest
        {| breakpoints :=
             if negb (String.eqb (mark x) "") then
               breakpoints w ++
                 [ {| Location := loc; Index := Z.of_nat i; BlockIndex := blockIndex;
                      TTL := mark x; TokenCount := cacheable |} ]
             else breakpoints w;
           globalBlockIndex := blockIndex;
           totalTokens := GoInt.add (totalTokens w) (tok x);
           toolsTokens := toolsTokens w;
           cacheableTokens := cacheable |}
  end.

Definition systemMark (media : dto.ClaudeMediaMessage) : string :=
  if (0 <? String.length (dto.CacheControl media))%nat
  then extractCacheControlTTLFromRaw E (dto.CacheControl media) else "".

Definition docBefore (a b : CacheBreakpoint) : Prop :=
  (Location a = "system" /\ Location b = "message")
  \/ (Location a = Location b /\ Index a < Index b).

End Estimates.

(** The accounting invariant of the reconciler's accumulators against the
    cacheable total [C]: nothing is negative, the two buckets make up the
    creation total, and reads plus creations end at the last accounted
    boundary. *)
Definition Balanced (C : Z) (t : Tally) : Prop :=
  0 <= cacheReadTokens t
  /\ 0 <= cacheCreate5m t
  /\ 0 <= cacheCreate1h t
  /\ cacheCreate5m t + cacheCreate1h t = cacheCreateTokens t
  /\ cacheReadTokens t + cacheCreateTokens t = lastCacheTokens t
  /\ lastCacheTokens t <= C.

(** The accumulators of the reconciler when its three phases are over. *)
Definition finalTally (E : Externals) (range : MapOrder) (r : Redis)
           (req : dto.ClaudeRequest) (model : string) (minTokens : Z)
           (bps : list CacheBreakpoint) : Tally :=
  fst (phaseMiss E range req model minTokens bps
         (phaseFuzzy E range r req model minTokens bps
            (phaseExact E range r req model minTokens bps tallyZero))).

(** The loop state of [CheckCacheHits] read as accumulators of the
    reconciler. *)
Definition tallyOf (st : CacheResult * Z) : Tally :=
  {| cacheReadTokens := CacheReadTokens (fst st);
     cacheCreateTokens := CacheCreationTokens (fst st);
     cacheCreate5m := CacheCreation5m (fst st);
     cacheCreate1h := CacheCreation1h (fst st);
     lastCacheTokens := snd st;
     exactHit := Hit (fst st) |}.

(** ** A concrete environment

    A small JSON printer and parser (no escapes, no white space) stand for
    encoding/json, one token per byte for the tokenizer, and a polynomial
    checksum for the digest. *)
Module Sample.

Definition dq : ascii := ascii_of_nat 34.
Definition quote : string := String dq EmptyString.

Fixpoint print (v : JSON) : string :=
  match v with
  | JNull => "null"
  | JBool b => if b then "true" else "false"
  | JNumber repr => repr
  | JString s => quote +:+ s +:+ quote
  | JArray items => "[" +:+ String.concat "," (map print items) +:+ "]"
  | JObject members =>
      "{" +:+ String.concat ","
                (map (fun '(key, v') => quote +:+ key +:+ quote +:+ ":" +:+ print v') members)
          +:+ "}"
  end.

(** The characters of a string literal up to its closing quote. *)
Fixpoint parseChars (s : string) : option (string * string) :=
  match s with
  | EmptyString => None
  | String c rest =>
      if Ascii.eqb c dq then Some (EmptyString, rest)
      else match parseChars rest with
           | Some (chars, rest') => Some (String c chars, rest')
           | None => None
           end
  end.

Definition isDigit (c : ascii) : bool :=
  let n := nat_of_ascii c in ((48 <=? n) && (n <=? 57))%nat.

Fixpoint parseDigits (s : string) : string * string :=
  match s with
  | String c rest =>
      if isDigit c then let '(digits, rest') := parseDigits rest in (String c digits, rest')
      else (EmptyString, s)
  | EmptyString => (EmptyString, s)
  end.

Definition skip (n : nat) (s : string) : string :=
  String.substring n (String.length s - n) s.

Fixpoint parseValue (fuel : nat) (s : string) : option (JSON * string) :=
  match fuel with
  | O => None
  | S fuel =>
      match s with
      | EmptyString => None
      | String "{" (String "}" rest) => Some (JObject [], rest)
      | String "{" rest => parseMembers fuel rest
      | String "[" (String "]" rest) => Some (JArray [], rest)
      | String "[" rest => parseItems fuel rest
      | String c rest =>
          if Ascii.eqb c dq then
            match parseChars rest with
            | Some (chars, rest') => Some (JString chars, rest')
            | None => None
            end
          else if String.prefix "null" s then Some (JNull, skip 4 s)
          else if String.prefix "true" s then Some (JBool true, skip 4 s)
          else if String.prefix "false" s then Some (JBool false, skip 5 s)
          else if isDigit c
               then let '(digits, rest') := parseDigits s in Some (JNumber digits, rest')
          else None
      end
  end
with parseMembers (fuel : nat) (s : string) : option (JSON * string) :=
  match fuel with
  | O => None
  | S fuel =>
      match s with
      | String c rest =>
          if Ascii.eqb c dq then
            match parseChars rest with
            | Some (key, String ":" rest') =>
                match parseValue fuel rest' with
                | Some (v, String "," rest'') =>
                    match parseMembers fuel rest'' with
                    | Some (JObject members, r) => Some (JObject ((key, v) :: members), r)
                    | _ => None
                    end
                | Some (v, String "}" rest'') => Some (JObject [(key, v)], rest'')
                | _ => None
                end
            | _ => None
            end
          else None
      | EmptyString => None
      end
  end
with parseItems (fuel : nat) (s : string) : option (JSON * string) :=
  match fuel with
  | O => None
  | S fuel =>
      match parseValue fuel s with
      | Some (v, String "," rest) =>
          match parseItems fuel rest with
          | Some (JArray items, r) => Some (JArray (v :: items), r)
          | _ => None
          end
      | Some (v, String "]" rest) => Some (JArray [v], rest)
      | _ => None
      end
  end.

Definition parse (data : string) : option JSON :=
  match parseValue (S (String.length data)) data with
  | Some (v, EmptyString) => Some v
  | _ => None
  end.

Fixpoint member (name : string) (members : list (string * JSON)) : option JSON :=
  match members with
  | [] => None
  | (key, v) :: rest => if String.eqb key name then Some v else member name rest
  end.

(** Decoding into a string field: an absent member or a [null] leaves the
    zero value, any other non-string is a type error. *)
Definition stringField (name : string) (members : list (string * JSON)) : option string :=
  match member name members with
  | None | Some JNull => Some ""
  | Some (JString s) => Some s
  | Some _ => None
  end.

Definition decimal (n : Z) : string := NilZero.string_of_int (Z.to_int n).

Definition intField (name : string) (members : list (string * JSON)) : option Z :=
  match member name members with
  | Some (JNumber repr) => Z.of_int <$> NilZero.int_of_string repr
  | _ => None
  end.

Definition Unmarshal_CacheControl (raw : RawMessage) : option CacheControlFields :=
  match parse raw with
  | Some (JObject members) =>
      match stringField "type" members, stringField "ttl" members with
      | Some type, Some ttl => Some {| cc_Type := type; cc_TTL := ttl |}
      | _, _ => None
      end
  | Some JNull => Some {| cc_Type := ""; cc_TTL := "" |}
  | _ => None
  end.

Definition rawJSON (raw : RawMessage) : JSON := default JNull (parse raw).

Definition toolJSON (tool : dto.Tool) : JSON :=
  JObject [("name", JString (dto.Name tool));
           ("description", JString (dto.Description tool));
           ("input_schema", rawJSON (dto.InputSchema tool))].

Definition mediaJSON (media : dto.ClaudeMediaMessage) : JSON :=
  JObject ([("type", JString (dto.Type_ media)); ("text", JString (dto.Text media))]
           ++ if String.eqb (dto.CacheControl media) "" then []
              else [("cache_control", rawJSON (dto.CacheControl media))]).

Definition messageJSON (msg : dto.ClaudeMessage) : JSON :=
  JObject [("role", JString (dto.Role msg));
           ("content", match dto.MessageContent msg with
                       | dto.ContentString s => JString s
                       | dto.ContentBlocks blocks => JArray (map mediaJSON blocks)
                       end)].

Definition entryJSON (entry : CacheEntry) : JSON :=
  JObject [("hash", JString (Hash entry));
           ("token_count", JNumber (decimal (EntryTokenCount entry)));
           ("ttl", JString (EntryTTL entry));
           ("created_at", JNumber (decimal (CreatedAt entry)));
           ("expires_at", JNumber (decimal (ExpiresAt entry)));
           ("model", JString (Model entry))].

Definition Unmarshal_CacheEntry (data : string) : option CacheEntry :=
  match parse data with
  | Some (JObject members) =>
      match stringField "hash" members, intField "token_count" members,
            stringField "ttl" members, intField "created_at" members,
            intField "expires_at" members, stringField "model" members with
      | Some hash, Some tokens, Some ttl, Some created, Some expires, Some model =>
          Some {| Hash := hash; EntryTokenCount := tokens; EntryTTL := ttl;
                  CreatedAt := created; ExpiresAt := expires; Model := model |}
      | _, _, _, _, _, _ => None
      end
  | _ => None
  end.

Definition Unmarshal_tokens (data : string) : option (option Z) :=
  match parse data with
  | Some (JObject members) => Some (intField "tokens" members)
  | Some JNull => Some None
  | _ => None
  end.

(** A polynomial checksum, written in decimal. *)
Fixpoint checksum (s : string) (h : Z) : Z :=
  match s with
  | EmptyString => h
  | String c rest => checksum rest ((h * 131 + Z.of_nat (nat_of_ascii c)) mod 1000000007)
  end.

Definition env : Externals :=
  {| json_Marshal_Tool := fun tool => print (toolJSON tool);
     json_Marshal_Media := fun media => print (mediaJSON media);
     json_Marshal_MediaList := fun blocks => print (JArray (map mediaJSON blocks));
     json_Marshal_Message := fun msg => print (messageJSON msg);
     json_Marshal_string := fun s => print (JString s);
     json_Marshal_bytes := fun b => print (JString b);
     json_Marshal_int := decimal;
     json_Marshal_CacheEntry := fun entry => Some (print (entryJSON entry));
     json_Unmarshal_CacheControl := Unmarshal_CacheControl;
     json_Unmarshal_CacheEntry := Unmarshal_CacheEntry;
     json_Unmarshal_tokens := Unmarshal_tokens;
     sha256_hex := fun s => decimal (checksum s 7);
     json_Unmarshal := parse;
     CountTextToken := fun text _ => Z.of_nat (String.length text) |}.

Definition range : MapOrder := map_to_list.

(** [json.Unmarshal] of an execution that enumerates the members of every
    object the other way round. *)
Fixpoint reverseMembers (v : JSON) : JSON :=
  match v with
  | JObject members =>
      JObject (reverse (map (fun '(key, v') => (key, reverseMembers v')) members))
  | JArray items => JArray (map reverseMembers items)
  | _ => v
  end.

Definition parseReversed (data : string) : option JSON := reverseMembers <$> parse data.

(** The encoders of blocks that leave out an empty text, as Go's
    [omitempty] does for a block without text (an image). *)
Definition mediaJSONOmit (media : dto.ClaudeMediaMessage) : JSON :=
  JObject ([("type", JString (dto.Type_ media))]
           ++ (if String.eqb (dto.Text media) "" then []
               else [("text", JString (dto.Text media))])
           ++ if String.eqb (dto.CacheControl media) "" then []
              else [("cache_control", rawJSON (dto.CacheControl media))]).

Definition messageJSONOmit (msg : dto.ClaudeMessage) : JSON :=
  JObject [("role", JString (dto.Role msg));
           ("content", match dto.MessageContent msg with
                       | dto.ContentString s => JString s
                       | dto.ContentBlocks blocks => JArray (map mediaJSONOmit blocks)
                       end)].

Definition envOmit : Externals :=
  {| json_Marshal_Tool := json_Marshal_Tool env;
     json_Marshal_Media := fun media => print (mediaJSONOmit media);
     json_Marshal_MediaList := fun blocks => print (JArray (map mediaJSONOmit blocks));
     json_Marshal_Message := fun msg => print (messageJSONOmit msg);
     json_Marshal_string := json_Marshal_string env;
     json_Marshal_bytes := json_Marshal_bytes env;
     json_Marshal_int := json_Marshal_int env;
     json_Marshal_CacheEntry := json_Marshal_CacheEntry env;
     json_Unmarshal_CacheControl := json_Unmarshal_CacheControl env;
     json_Unmarshal_CacheEntry := json_Unmarshal_CacheEntry env;
     json_Unmarshal_tokens := json_Unmarshal_tokens env;
     sha256_hex := sha256_hex env;
     json_Unmarshal := json_Unmarshal env;
     CountTextToken := CountTextToken env |}.

(** Another enumeration of a map. *)
Definition reversed : MapOrder := fun m => reverse (map_to_list m).

Definition model : string := "claude-sonnet-4-5".

(** Cache-control annotations. *)
Definition ephemeral : RawMessage := print (JObject [("type", JString "ephemeral")]).
Definition ephemeral_1h : RawMessage :=
  print (JObject [("type", JString "ephemeral"); ("ttl", JString "1h")]).
Definition ephemeral_30m : RawMessage :=
  print (JObject [("type", JString "ephemeral"); ("ttl", JString "30m")]).
Definition persistent : RawMessage := print (JObject [("type", JString "persistent")]).
Definition malformed : RawMessage := "{" +:+ quote +:+ "type".

Definition text (s : string) : dto.ClaudeMediaMessage :=
  {| dto.Type_ := "text"; dto.Text := s; dto.CacheControl := "" |}.

Definition marked (s : string) (cc : RawMessage) : dto.ClaudeMediaMessage :=
  {| dto.Type_ := "text"; dto.Text := s; dto.CacheControl := cc |}.

Definition user (blocks : list dto.ClaudeMediaMessage) : dto.ClaudeMessage :=
  {| dto.Role := "user"; dto.MessageContent := dto.ContentBlocks blocks |}.

Definition disabled : Redis := {| RedisEnabled := false; RDB := ∅ |}.
Definition empty : Redis := {| RedisEnabled := true; RDB := ∅ |}.

Definition usage0 : dto.Usage :=
  {| dto.PromptTokens := 100; dto.CompletionTokens := 7; dto.TotalTokens := 107;
     dto.PromptTokensDetails := {| dto.CachedTokens := 0; dto.CachedCreationTokens := 0 |};
     dto.ClaudeCacheCreation5mTokens := 0; dto.ClaudeCacheCreation1hTokens := 0 |}.

(** The reduced text of a block or message is its text fields, each followed
    by a space.  A request with one tool (["abc t "], 6 tokens), a marked
    system block (11 tokens) and two messages (6 and 10 tokens), the second
    one marked for one hour. *)
Definition req1 : dto.ClaudeRequest :=
  {| dto.Tools := Some [ {| dto.Name := "t"; dto.Description := "abc";
                            dto.InputSchema := print (JObject [("type", JString "object")]) |} ];
     dto.System := Some (dto.ContentBlocks [marked "0123456789" ephemeral]);
     dto.Messages := [user [text "hello"]; user [marked "worldwide" ephemeral_1h]] |}.

(** A request whose only breakpoint (4 tokens) is below the threshold. *)
Definition reqShort : dto.ClaudeRequest :=
  {| dto.Tools := None;
     dto.System := Some (dto.ContentBlocks [marked "abc" ephemeral]);
     dto.Messages := [] |}.

(** A block without text, and two requests with the same empty system
    prompt: in the first one the first message is an annotated image and the
    text comes after it, so that the first breakpoint stands at 0 tokens of
    11; the second one is a single annotated message of 11 tokens. *)
Definition image (cc : RawMessage) : dto.ClaudeMediaMessage :=
  {| dto.Type_ := "image"; dto.Text := ""; dto.CacheControl := cc |}.

Definition reqImage : dto.ClaudeRequest :=
  {| dto.Tools := None;
     dto.System := Some (dto.ContentString "");
     dto.Messages := [user [image ephemeral]; user [text "0123456789"]] |}.

Definition reqAfterImage : dto.ClaudeRequest :=
  {| dto.Tools := None;
     dto.System := Some (dto.ContentString "");
     dto.Messages := [user [marked "0123456789" ephemeral]] |}.

(** The store after [reqImage] has been served on an empty store and its
    goroutines have run. *)
Definition afterImage : Redis :=
  fold_left (runTask envOmit range 1000)
    (snd (applyLocalCacheSimulation envOmit range empty (Some reqImage) model usage0))
    empty.

(** A tokenizer that takes the bytes [p q] as one token, so that the
    estimate of a text depends on the order of its pieces, and an annotation
    with two nested objects that carry text: the reduced text of a block
    with this annotation ends in [p q] or in [q p], as the enumeration of the
    decoded annotation goes. *)
Definition envMerge : Externals :=
  {| json_Marshal_Tool := json_Marshal_Tool env;
     json_Marshal_Media := json_Marshal_Media env;
     json_Marshal_MediaList := json_Marshal_MediaList env;
     json_Marshal_Message := json_Marshal_Message env;
     json_Marshal_string := json_Marshal_string env;
     json_Marshal_bytes := json_Marshal_bytes env;
     json_Marshal_int := json_Marshal_int env;
     json_Marshal_CacheEntry := json_Marshal_CacheEntry env;
     json_Unmarshal_CacheControl := json_Unmarshal_CacheControl env;
     json_Unmarshal_CacheEntry := json_Unmarshal_CacheEntry env;
     json_Unmarshal_tokens := json_Unmarshal_tokens env;
     sha256_hex := sha256_hex env;
     json_Unmarshal := json_Unmarshal env;
     CountTextToken := fun text _ =>
       Z.of_nat (String.length text) - (if strings.Contains text "p q" then 2 else 0) |}.

Definition ephemeral_nested : RawMessage :=
  print (JObject [("type", JString "ephemeral");
                  ("a", JObject [("name", JString "p")]);
                  ("b", JObject [("name", JString "q")])]).

Definition reqNested : dto.ClaudeRequest :=
  {| dto.Tools := None;
     dto.System := Some (dto.ContentBlocks [marked "0123456789" ephemeral_nested]);
     dto.Messages := [user [text "hello"]] |}.

(** The same annotation on a block of one byte: 4 or 6 tokens, on either
    side of the threshold. *)
Definition reqNestedShort : dto.ClaudeRequest :=
  {| dto.Tools := None;
     dto.System := Some (dto.ContentBlocks [marked "a" ephemeral_nested]);
     dto.Messages := [] |}.

(** A request with five marked blocks. *)
Definition reqFive : dto.ClaudeRequest :=
  {| dto.Tools := None;
     dto.System := Some (dto.ContentBlocks [marked "aaaaaa" ephemeral; marked "bb" ephemeral_1h]);
     dto.Messages := [user [marked "c" ephemeral]; user [text "dd"];
                      user [text "e"; marked "ff" ephemeral_30m];
                      user [marked "g" ephemeral]] |}.

(** A request that is one marked system block of 11 tokens. *)
Definition reqSystem : dto.ClaudeRequest :=
  {| dto.Tools := None;
     dto.System := Some (dto.ContentBlocks [marked "0123456789" ephemeral]);
     dto.Messages := [] |}.

(** A message whose first annotated block is not ephemeral and whose
    second one is. *)
Definition mixed : dto.ClaudeMessage :=
  user [text "a"; marked "b" persistent; marked "c" ephemeral].

(** The store after [req1] has been served once and its exact entries
    written, and a store that holds only a fuzzy entry for the system
    prompt of [req1]. *)
Definition seeded : Redis := StoreCacheBreakpoints env range empty 1000 req1 model.

Definition fuzzyOnly (tokens : Z) : Redis :=
  StoreFuzzyEntry env range empty model (CalculateSystemHash env range req1 model) tokens "5m".

(** The scenario of a first request and its repeat: a system block of 50
    tokens marked for five minutes and two messages of 15 tokens each, the
    second one marked (80 tokens in all); and a request with the same system
    prompt and another marked message. *)
Definition chars (n : nat) : string := String.concat "" (replicate n "x").

Definition ephemeral_5m : RawMessage :=
  print (JObject [("type", JString "ephemeral"); ("ttl", JString "5m")]).

Definition reqFirst : dto.ClaudeRequest :=
  {| dto.Tools := None;
     dto.System := Some (dto.ContentBlocks [marked (chars 49) ephemeral_5m]);
     dto.Messages := [user [text (chars 14)]; user [marked (chars 14) ephemeral]] |}.

Definition reqOther : dto.ClaudeRequest :=
  {| dto.Tools := None;
     dto.System := Some (dto.ContentBlocks [marked (chars 49) ephemeral_5m]);
     dto.Messages := [user [marked (chars 24) ephemeral]] |}.

Definition afterFirst : Redis := StoreCacheBreakpoints env range empty 1000 reqFirst model.

Definition fuzzyAfterFirst : Redis :=
  StoreFuzzyEntry env range empty model (CalculateSystemHash env range reqFirst model) 50 "5m".

(** The two breakpoints of [req1]. *)
Definition bp1 : CacheBreakpoint :=
  {| Location := "system"; Index := 0; BlockIndex := 2; TTL := "5m"; TokenCount := 11 |}.

Definition bp2 : CacheBreakpoint :=
  {| Location := "message"; Index := 1; BlockIndex := 4; TTL := "1h"; TokenCount := 27 |}.

Definition prefix1 : CachePrefix := BuildPrefixUpToBreakpoint env req1 bp2.

(** A request without annotation, with a string message; a request without
    system prompt; and a cache entry. *)
Definition reqPlain : dto.ClaudeRequest :=
  {| dto.Tools := None;
     dto.System := Some (dto.ContentBlocks [text "be brief"]);
     dto.Messages := [user [text "hello"];
                      {| dto.Role := "user"; dto.MessageContent := dto.ContentString "again" |}] |}.

Definition reqNoSystem : dto.ClaudeRequest :=
  {| dto.Tools := None;
     dto.System := None;
     dto.Messages := [user [marked "0123456789" ephemeral]] |}.

Definition entry1 : CacheEntry :=
  {| Hash := "1f"; EntryTokenCount := 11; EntryTTL := "1h"; CreatedAt := 0; ExpiresAt := 0;
     Model := model |}.

(** A tool object as decoded, with its schema. *)
Definition toolObject : list (string * JSON) :=
  [("name", JString "t"); ("description", JString "abc");
   ("input_schema", JObject [("type", JString "object");
                             ("description", JString "not counted")])].

(** Lower-casing on the samples, whose letters are ASCII letters. *)
Definition mapLower : string -> string := strings.ToLower.

(** An environment that enables the simulation and lists one target
    followed by a comma; blanks stand for white space. *)
Definition getenv (name : string) : string :=
  if String.eqb name "PCACHE_ENABLED" then "true"
  else if String.eqb name "PCACHE_TARGET_MODELS" then "claude-opus-4-5,"
  else "".

Fixpoint trimLeft (s : string) : string :=
  match s with
  | String c rest => if Ascii.eqb c " " then trimLeft rest else s
  | EmptyString => s
  end.

Fixpoint trimRight (s : string) : string :=
  match s with
  | String c rest =>
      let rest := trimRight rest in
      if Ascii.eqb c " " && String.eqb rest "" then "" else String c rest
  | EmptyString => s
  end.

Definition trimSpace (s : string) : string := trimRight (trimLeft s).

(** Settings with one configured header and no default entry; header keys
    are canonical when the first letter and the letters after a hyphen are
    upper case and the others lower case. *)
Definition settings : model_setting.ClaudeSettings unit :=
  {| model_setting.HeadersSettings :=
       {[ model := {[ "anthropic-beta" := ["prompt-caching"; "tools"] ]} ]};
     model_setting.CacheControlInjectionPoints := None;
     model_setting.DefaultMaxTokens := Some {[ "claude-opus-4-5" := 4096 ]};
     model_setting.ThinkingAdapterEnabled := true;
     model_setting.ThinkingAdapterBudgetTokensPercentage := tt |}.

Definition upper_ascii (c : ascii) : ascii :=
  let n := nat_of_ascii c in
  if ((97 <=? n) && (n <=? 122))%nat then ascii_of_nat (n - 32) else c.

Fixpoint canonicalFrom (upper : bool) (s : string) : string :=
  match s with
  | EmptyString => EmptyString
  | String c rest =>
      String (if upper then upper_ascii c else strings.lower_ascii c)
             (canonicalFrom (Ascii.eqb c "-") rest)
  end.

Definition canonicalKey (key : string) : string := canonicalFrom true key.

Definition headerRange (headers : gmap string (list string)) : list (string * list string) :=
  map_to_list headers.

Definition header0 : gmap string (list string) := {[ "Anthropic-Beta" := ["tools"] ]}.

End Sample.

(** * Properties *)

(** ** Go's [int]: when the wrap-around does not show *)

Lemma wrap_InRange z : GoInt.InRange (GoInt.wrap z).
Proof.
  unfold GoInt.InRange, GoInt.wrap, GoInt.min_int, GoInt.max_int.
  pose proof (Z.mod_pos_bound (z + 2 ^ 63) (2 ^ 64) ltac:(lia)). lia.
Qed.

Lemma wrap_id z : GoInt.InRange z -> GoInt.wrap z = z.
Proof.
  unfold GoInt.InRange, GoInt.wrap, GoInt.min_int, GoInt.max_int. intros Hz.
  rewrite Z.mod_small by lia. lia.
Qed.

Lemma add_exact a b : GoInt.InRange (a + b) -> GoInt.add a b = a + b.
Proof. apply wrap_id. Qed.

Lemma sub_exact a b : GoInt.InRange (a - b) -> GoInt.sub a b = a - b.
Proof. apply wrap_id. Qed.

Ltac int_range := unfold GoInt.InRange, GoInt.min_int, GoInt.max_int in *; lia.

(** ** Exact token sums and the walk over the request *)

Lemma sumZ_app l1 l2 : sumZ (l1 ++ l2) = sumZ l1 + sumZ l2.
Proof. induction l1 as [|x l1 IH]; simpl; lia. Qed.

Lemma sumZ_nonneg l : Forall (fun x => 0 <= x) l -> 0 <= sumZ l.
Proof. induction 1; simpl; lia. Qed.

Section Walk.

Variable E : Externals.
Hypothesis tokens_nonneg : forall text model, 0 <= CountTextToken E text model.

Lemma estimateContentTokens_nonneg data model : 0 <= estimateContentTokens E data model.
Proof. unfold estimateContentTokens. destruct (String.eqb _ _); [lia | apply tokens_nonneg]. Qed.

Lemma systemLoop_scan model l : forall i w,
  systemLoop E model i l w
  = scanLoop "system"
      (fun media => estimateContentTokens E (json_Marshal_Media E media) model)
      (systemMark E) i l w.
Proof.
  induction l as [|media rest IH]; intros i w; [reflexivity|].
  simpl. rewrite IH. unfold systemMark.
  destruct (0 <? String.length (dto.CacheControl media))%nat; reflexivity.
Qed.

Lemma messageLoop_scan model l : forall i w,
  messageLoop E model i l w
  = scanLoop "message"
      (fun msg => estimateContentTokens E (json_Marshal_Message E msg) model)
      (extractCacheControlFromMessage E) i l w.
Proof.
  induction l as [|msg rest IH]; intros i w; [reflexivity|].
  simpl. rewrite IH. reflexivity.
Qed.

(** What one scan adds to the walk, as long as the exact sums fit. *)
Lemma scanLoop_spec {A : Type} (loc : string) (tok : A -> Z) (mark : A -> string)
      (l : list A) :
  (forall x, 0 <= tok x) ->
  forall i w,
    0 <= cacheableTokens w <= totalTokens w ->
    totalTokens w + sumZ (map tok l) <= GoInt.max_int ->
    let w' := scanLoop loc tok mark i l w in
    totalTokens w' = totalTokens w + sumZ (map tok l)
    /\ cacheableTokens w' = cacheableTokens w + sumZ (map tok l)
    /\ toolsTokens w' = toolsTokens w
    /\ exists new,
        breakpoints w' = breakpoints w ++ new
        /\ Forall (fun bp => cacheableTokens w <= TokenCount bp <= cacheableTokens w'
                             /\ Location bp = loc
                             /\ Z.of_nat i <= Index bp
                             /\ TTL bp <> "") new
        /\ StronglySorted le_TokenCount new
        /\ StronglySorted lt_Index new.
Proof.
  intros Htok. induction l as [|x rest IH]; intros i w Hw Hfit; simpl in *.
  - repeat split; try lia. exists []. rewrite app_nil_r.
    repeat split; constructor.
  - pose proof (Htok x) as Hx.
    assert (Hrest : 0 <= sumZ (map tok rest)).
    { apply sumZ_nonneg, Forall_forall. intros y Hy.
      apply list_elem_of_In, in_map_iff in Hy as (z & <- & _). apply Htok. }
    rewrite (add_exact (cacheableTokens w) (tok x)),
      (add_exact (totalTokens w) (tok x)) by int_range.
    set (w1 := {| breakpoints := _ |}).
    specialize (IH (S i) w1).
    destruct IH as (Ht & Hc & Hto & new & Hb & Hall & Hs1 & Hs2);
      [simpl; lia | simpl; lia |].
    simpl in *. repeat split; try lia.
    destruct (negb (String.eqb (mark x) "")) eqn:Hm.
    + eexists (_ :: new). split; [rewrite Hb, <- app_assoc; reflexivity|].
      split; [|split].
      * constructor.
        -- simpl. repeat split; try lia.
           intros Heq. rewrite Heq in Hm. discriminate.
        -- eapply Forall_impl; [exact Hall|]. simpl.
           intros bp (? & ? & ? & ?). repeat split; (lia || assumption).
      * constructor; [exact Hs1|].
        eapply Forall_impl; [exact Hall|]. unfold le_TokenCount. simpl.
        intros bp (? & _). lia.
      * constructor; [exact Hs2|].
        eapply Forall_impl; [exact Hall|]. unfold lt_Index. simpl.
        intros bp (_ & _ & ? & _). lia.
    + exists new. split; [exact Hb|]. split; [|split; assumption].
      eapply Forall_impl; [exact Hall|]. simpl.
      intros bp (? & ? & ? & ?). repeat split; (lia || assumption).
Qed.

Lemma toolStep_fields model w tool :
  let x := estimateContentTokens E (json_Marshal_Tool E tool) model in
  0 <= toolsTokens w <= totalTokens w ->
  totalTokens w + x <= GoInt.max_int ->
  totalTokens (toolStep E model w tool) = totalTokens w + x
  /\ toolsTokens (toolStep E model w tool) = toolsTokens w + x
  /\ cacheableTokens (toolStep E model w tool) = cacheableTokens w
  /\ breakpoints (toolStep E model w tool) = breakpoints w.
Proof.
  intros x Hw Hfit.
  pose proof (estimateContentTokens_nonneg (json_Marshal_Tool E tool) model) as Hx.
  fold x in Hx. unfold toolStep. simpl. fold x.
  rewrite !add_exact by int_range. repeat split; reflexivity.
Qed.

Lemma toolLoop_spec model tools : forall w,
  let s := sumZ (map (fun tool => estimateContentTokens E (json_Marshal_Tool E tool) model) tools) in
  0 <= toolsTokens w <= totalTokens w ->
  totalTokens w + s <= GoInt.max_int ->
  let w' := fold_left (toolStep E model) tools w in
  totalTokens w' = totalTokens w + s
  /\ toolsTokens w' = toolsTokens w + s
  /\ cacheableTokens w' = cacheableTokens w
  /\ breakpoints w' = breakpoints w.
Proof.
  induction tools as [|tool rest IH]; intros w s Hw Hfit; subst s; simpl in *.
  - repeat split; lia.
  - pose proof (estimateContentTokens_nonneg (json_Marshal_Tool E tool) model) as Hx.
    assert (Hrest : 0 <= sumZ (map (fun tool => estimateContentTokens E (json_Marshal_Tool E tool) model) rest)).
    { apply sumZ_nonneg, Forall_forall. intros y Hy.
      apply list_elem_of_In, in_map_iff in Hy as (z & <- & _).
      apply estimateContentTokens_nonneg. }
    destruct (toolStep_fields model w tool) as (Et & Eto & Ec & Eb); [lia | lia |].
    destruct (IH (toolStep E model w tool)) as (Ht & Hto & Hc & Hb);
      [rewrite Et, Eto; lia | rewrite Et; lia |].
    rewrite Ht, Hto, Hc, Hb, Et, Eto, Ec, Eb. repeat split; lia.
Qed.

Lemma estimates_nonneg {A : Type} (f : A -> string) model (l : list A) :
  0 <= sumZ (map (fun x => estimateContentTokens E (f x) model) l).
Proof.
  apply sumZ_nonneg, Forall_forall. intros y Hy.
  apply list_elem_of_In, in_map_iff in Hy as (z & <- & _).
  apply estimateContentTokens_nonneg.
Qed.

Lemma toolEstimates_nonneg req model : 0 <= sumZ (toolEstimates E req model).
Proof.
  unfold toolEstimates. destruct (dto.Tools req); [apply estimates_nonneg | simpl; lia].
Qed.

Lemma systemEstimates_nonneg req model : 0 <= sumZ (systemEstimates E req model).
Proof.
  unfold systemEstimates. destruct (dto.System req) as [[s|l]|].
  - simpl. pose proof (tokens_nonneg s model). unfold estimateTokens. lia.
  - apply estimates_nonneg.
  - simpl. lia.
Qed.

Lemma messageEstimates_nonneg req model : 0 <= sumZ (messageEstimates E req model).
Proof. apply estimates_nonneg. Qed.

Lemma walkTools_spec req model w :
  0 <= toolsTokens w <= totalTokens w ->
  totalTokens w + sumZ (toolEstimates E req model) <= GoInt.max_int ->
  let w' := walkTools E req model w in
  totalTokens w' = totalTokens w + sumZ (toolEstimates E req model)
  /\ toolsTokens w' = toolsTokens w + sumZ (toolEstimates E req model)
  /\ cacheableTokens w' = cacheableTokens w
  /\ breakpoints w' = breakpoints w.
Proof.
  unfold walkTools, toolEstimates. destruct (dto.Tools req) as [tools|]; intros Hw Hfit.
  - apply toolLoop_spec; assumption.
  - simpl. repeat split; lia.
Qed.

Lemma walkSystem_spec req model w :
  0 <= cacheableTokens w <= totalTokens w ->
  totalTokens w + sumZ (systemEstimates E req model) <= GoInt.max_int ->
  let w' := walkSystem E req model w in
  totalTokens w' = totalTokens w + sumZ (systemEstimates E req model)
  /\ cacheableTokens w' = cacheableTokens w + sumZ (systemEstimates E req model)
  /\ toolsTokens w' = toolsTokens w
  /\ exists new,
      breakpoints w' = breakpoints w ++ new
      /\ Forall (fun bp => cacheableTokens w <= TokenCount bp <= cacheableTokens w'
                           /\ Location bp = "system"
                           /\ Z.of_nat 0 <= Index bp
                           /\ TTL bp <> "") new
      /\ StronglySorted le_TokenCount new
      /\ StronglySorted lt_Index new.
Proof.
  unfold walkSystem, systemEstimates. destruct (dto.System req) as [[s|l]|]; intros Hw Hfit.
  - pose proof (tokens_nonneg s model) as Hs. unfold estimateTokens in *. simpl in *.
    rewrite !add_exact by int_range.
    repeat split; try lia. exists []. rewrite app_nil_r. repeat split; constructor.
  - rewrite systemLoop_scan. apply scanLoop_spec; try assumption.
    intros x. apply estimateContentTokens_nonneg.
  - simpl. repeat split; try lia. exists []. rewrite app_nil_r. repeat split; constructor.
Qed.

Lemma sorted_in_segment loc l :
  Forall (fun bp => Location bp = loc) l ->
  StronglySorted lt_Index l -> StronglySorted docBefore l.
Proof.
  intros Hloc Hs. induction Hs as [|a l Hl IH Ha]; [constructor|].
  inversion Hloc as [|? ? Hla Hll]; subst. constructor; [auto|].
  rewrite Forall_forall in *. intros b Hb. right. split.
  - rewrite (Hll b Hb). reflexivity.
  - apply Ha, Hb.
Qed.

(** The walk computes the exact sums, and its breakpoints carry
    non-decreasing prefix sums of the cacheable part in document order. *)
Lemma walkRequest_spec req model :
  exactTotal E req model <= GoInt.max_int ->
  let w := walkRequest E req model in
  totalTokens w = exactTotal E req model
  /\ toolsTokens w = sumZ (toolEstimates E req model)
  /\ cacheableTokens w = sumZ (systemEstimates E req model) + sumZ (messageEstimates E req model)
  /\ 0 <= toolsTokens w
  /\ Forall (fun bp => 0 <= TokenCount bp <= cacheableTokens w /\ TTL bp <> "") (breakpoints w)
  /\ StronglySorted le_TokenCount (breakpoints w)
  /\ StronglySorted docBefore (breakpoints w).
Proof.
  intros Hfit. unfold walkRequest, exactTotal in *.
  pose proof (toolEstimates_nonneg req model) as Htn.
  pose proof (systemEstimates_nonneg req model) as Hsn.
  pose proof (messageEstimates_nonneg req model) as Hmn.
  set (w0 := {| breakpoints := [] |}).
  destruct (walkTools_spec req model w0) as (H1t & H1to & H1c & H1b);
    [simpl; lia | simpl; lia |].
  simpl in H1t, H1to, H1c, H1b.
  set (w1 := walkTools E req model w0) in *.
  destruct (walkSystem_spec req model w1)
    as (H2t & H2c & H2to & new2 & H2b & H2all & H2s & H2i); [lia | lia |].
  set (w2 := walkSystem E req model w1) in *.
  rewrite messageLoop_scan.
  edestruct (scanLoop_spec "message"
               (fun msg => estimateContentTokens E (json_Marshal_Message E msg) model)
               (extractCacheControlFromMessage E) (dto.Messages req))
    as (Ht & Hc & Hto & new & Hb & Hall & Hs1 & Hs2).
  { intros x. apply estimateContentTokens_nonneg. }
  { split; [|]; [rewrite H2c, H1c; lia | rewrite H2c, H2t, H1c, H1t; lia]. }
  { unfold messageEstimates in Hfit. rewrite H2t, H1t. lia. }
  fold (messageEstimates E req model) in Ht, Hc.
  rewrite H1b in H2b. simpl in H2b.
  rewrite Ht, Hc, Hto, Hb, H2t, H2to, H2c, H1t, H1to, H1c, H2b.
  rewrite Hc, H2c, H1c in Hall. rewrite H2c, H1c in H2all.
  repeat split; try lia.
  - apply Forall_app. split.
    + eapply Forall_impl; [exact H2all|]. simpl.
      intros bp (? & ? & ? & ?). split; [lia | assumption].
    + eapply Forall_impl; [exact Hall|]. simpl.
      intros bp (? & ? & ? & ?). split; [lia | assumption].
  - apply StronglySorted_app. split; [|split; [exact H2s | exact Hs1]].
    intros a b Ha Hb'. rewrite Forall_forall in H2all, Hall.
    destruct (H2all a Ha) as (? & _). destruct (Hall b Hb') as (? & _).
    unfold le_TokenCount. lia.
  - apply StronglySorted_app. split; [|split].
    + intros a b Ha Hb'. rewrite Forall_forall in H2all, Hall. left.
      destruct (H2all a Ha) as (_ & ? & _). destruct (Hall b Hb') as (_ & ? & _).
      split; assumption.
    + apply sorted_in_segment with (loc := "system"); [|exact H2i].
      eapply Forall_impl; [exact H2all|]. simpl. tauto.
    + apply sorted_in_segment with (loc := "message"); [|exact Hs2].
      eapply Forall_impl; [exact Hall|]. simpl. tauto.
Qed.

End Walk.

Lemma StronglySorted_take {A : Type} (R : A -> A -> Prop) (n : nat) (l : list A) :
  StronglySorted R l -> StronglySorted R (take n l).
Proof.
  intros Hs. rewrite <- (take_drop n l) in Hs.
  apply StronglySorted_app in Hs. tauto.
Qed.

Lemma Extract_take (E : Externals) req model :
  ExtractCacheBreakpoints E req model
  = take MaxBreakpoints (breakpoints (walkRequest E req model)).
Proof.
  unfold ExtractCacheBreakpoints, ExtractCacheBreakpointsWithTotal.
  destruct (MaxBreakpoints <? length (breakpoints (walkRequest E req model)))%nat eqn:Hlen;
    [reflexivity|].
  apply Nat.ltb_ge in Hlen. symmetry. apply take_ge. exact Hlen.
Qed.

Lemma ExtractWithTotal_eq (E : Externals) req model :
  ExtractCacheBreakpointsWithTotal E req model
  = (ExtractCacheBreakpoints E req model,
     totalTokens (walkRequest E req model), toolsTokens (walkRequest E req model)).
Proof. reflexivity. Qed.

(** What the resolver may rely on: the totals are the exact sums and the
    retained breakpoints are non-decreasing prefix sums of the cacheable
    part. *)
Lemma Extract_spec (E : Externals) req model :
  (forall text model, 0 <= CountTextToken E text model) ->
  exactTotal E req model <= GoInt.max_int ->
  let w := walkRequest E req model in
  totalTokens w = exactTotal E req model
  /\ 0 <= toolsTokens w <= totalTokens w
  /\ totalTokens w <= GoInt.max_int
  /\ StronglySorted le_TokenCount (ExtractCacheBreakpoints E req model)
  /\ Forall (fun bp => 0 <= TokenCount bp <= totalTokens w - toolsTokens w)
            (ExtractCacheBreakpoints E req model).
Proof.
  intros Hnn Hfit.
  destruct (walkRequest_spec E Hnn req model Hfit) as (Ht & Hto & Hc & Hton & Hall & Hs & _).
  pose proof (systemEstimates_nonneg E Hnn req model).
  pose proof (messageEstimates_nonneg E Hnn req model).
  simpl. rewrite Extract_take. unfold exactTotal in *.
  repeat split; try lia.
  - apply StronglySorted_take, Hs.
  - apply Forall_take. eapply Forall_impl; [exact Hall|]. simpl.
    intros bp ((? & ?) & _). lia.
Qed.

(** C7 (monotonic breakpoints).  For a request whose token estimates are
    non-negative and whose exact total fits Go's [int], the breakpoints
    returned by the extractor have non-decreasing token counts, are in
    document order, number at most 4, and are the first 4 (in document
    order) of the candidates found by the walk. *)
Theorem ExtractCacheBreakpoints_monotone_first_four (E : Externals) req model :
  (forall text model, 0 <= CountTextToken E text model) ->
  exactTotal E req model <= GoInt.max_int ->
  let candidates := breakpoints (walkRequest E req model) in
  let bps := ExtractCacheBreakpoints E req model in
  StronglySorted le_TokenCount bps
  /\ StronglySorted docBefore candidates
  /\ (length bps <= 4)%nat
  /\ bps = take 4 candidates
  /\ ((4 < length candidates)%nat -> length bps = 4%nat).
Proof.
  intros Hnn Hfit candidates bps.
  destruct (walkRequest_spec E Hnn req model Hfit) as (_ & _ & _ & _ & _ & Hs & Hd).
  subst bps candidates. rewrite Extract_take. change MaxBreakpoints with 4%nat.
  repeat split.
  - apply StronglySorted_take, Hs.
  - exact Hd.
  - rewrite length_take. lia.
  - intros Hlen. rewrite length_take. lia.
Qed.

(** ** The JSON encoding of a map does not depend on the enumeration *)

Lemma leb_cases (a b : string) :
  String.leb a b = true <-> a = b \/ OrderedTypeEx.String_as_OT.lt a b.
Proof.
  unfold String.leb. split.
  - destruct (String.compare a b) eqn:Hc; intros H; try discriminate.
    + left. apply String.compare_eq_iff, Hc.
    + right. apply OrderedTypeEx.String_as_OT.cmp_lt, Hc.
  - intros [-> | Hlt].
    + assert (Heq : String.compare b b = Eq)
        by (apply OrderedTypeEx.String_as_OT.cmp_eq; reflexivity).
      rewrite Heq. reflexivity.
    + apply OrderedTypeEx.String_as_OT.cmp_lt in Hlt.
      unfold OrderedTypeEx.String_as_OT.cmp in Hlt. rewrite Hlt. reflexivity.
Qed.

#[global] Instance key_le_trans : Transitive key_le.
Proof.
  intros a b c. unfold key_le. rewrite !leb_cases.
  intros [Hab | Hab] [Hbc | Hbc].
  - left. congruence.
  - right. rewrite Hab. exact Hbc.
  - right. rewrite <- Hbc. exact Hab.
  - right. eapply OrderedTypeEx.String_as_OT.lt_trans; eassumption.
Qed.

#[global] Instance key_le_total : Total key_le.
Proof. intros a b. unfold key_le. apply String.leb_total. Qed.

Lemma sorted_entries_unique (range1 range2 : MapOrder) (data : gmap string GoValue) :
  ValidOrder range1 -> ValidOrder range2 ->
  merge_sort key_le (range1 data) = merge_sort key_le (range2 data).
Proof.
  intros H1 H2.
  assert (Hin : forall (range : MapOrder), ValidOrder range ->
            forall kv, kv ∈ merge_sort key_le (range data) -> data !! kv.1 = Some kv.2).
  { intros range Hr [k v] Hkv. rewrite merge_sort_Permutation, (Hr data) in Hkv.
    apply elem_of_map_to_list in Hkv. exact Hkv. }
  apply (Sorted_unique_strong key_le).
  - intros [k1 v1] [k2 v2] Hx1 Hx2 Hle1 Hle2.
    apply (Hin _ H1) in Hx1. apply (Hin _ H2) in Hx2. simpl in *.
    assert (k1 = k2) by (apply String.leb_antisym; assumption).
    subst k2. congruence.
  - apply Sorted_merge_sort; apply _.
  - apply Sorted_merge_sort; apply _.
  - rewrite !merge_sort_Permutation, (H1 data), (H2 data). reflexivity.
Qed.

Lemma json_Marshal_map_order (E : Externals) (range1 range2 : MapOrder) data :
  ValidOrder range1 -> ValidOrder range2 ->
  json_Marshal_map E range1 data = json_Marshal_map E range2 data.
Proof.
  intros H1 H2. unfold json_Marshal_map.
  rewrite (sorted_entries_unique range1 range2 data H1 H2). reflexivity.
Qed.

(** C9 (determinism).  The digest of a prefix is a function of the prefix
    content and the model alone: two calls on equal inputs return the same
    digest whatever order the runtime enumerates the fields of the canonical
    form in, because the encoder sorts them by key. *)
Theorem CalculatePrefixHash_deterministic (E : Externals) (range1 range2 : MapOrder)
        (prefix1 prefix2 : CachePrefix) (model1 model2 : string) :
  ValidOrder range1 -> ValidOrder range2 ->
  prefix1 = prefix2 -> model1 = model2 ->
  CalculatePrefixHash E range1 prefix1 model1 = CalculatePrefixHash E range2 prefix2 model2.
Proof.
  intros H1 H2 -> ->. unfold CalculatePrefixHash.
  f_equal. apply json_Marshal_map_order; assumption.
Qed.

(** ** TTL classes and expiry *)

Lemma RedisSet_lookup r key value expiry :
  RDB (RedisSet r key value expiry) !! key
  = Some {| item_value := value; item_expiry := expiry |}.
Proof. unfold RedisSet. simpl. apply lookup_insert_eq. Qed.

(** C4, as the code has it.  On an enabled store, an exact entry and a fuzzy
    entry are written with an expiry fixed by the TTL class: one hour for the
    class ["1h"], five minutes for every other value (which is treated as
    ["5m"]). *)
Theorem ttl_class_expiry (E : Externals) (range : MapOrder) (r : Redis) :
  RedisEnabled r = true ->
  (forall model systemHash tokenCount ttl,
      systemHash <> "" ->
      item_expiry <$> (RDB (StoreFuzzyEntry E range r model systemHash tokenCount ttl)
                         !! GetFuzzyCacheKey model systemHash)
      = Some (if String.eqb ttl "1h" then 1 * Hour else 5 * Minute))
  /\ (forall now entry,
         snd (StoreCacheEntry E r now entry) = NoError ->
         item_expiry <$> (RDB (fst (StoreCacheEntry E r now entry))
                            !! GetCacheKey (Model entry) (Hash entry))
         = Some (if String.eqb (EntryTTL entry) "1h" then 1 * Hour else 5 * Minute)).
Proof.
  intros Hen. split.
  - intros model systemHash tokenCount ttl Hh. unfold StoreFuzzyEntry.
    rewrite Hen. apply String.eqb_neq in Hh. rewrite Hh. cbn [negb orb].
    rewrite RedisSet_lookup. cbn [fmap option_fmap option_map item_expiry].
    destruct (String.eqb ttl "1h"); reflexivity.
  - intros now entry. unfold StoreCacheEntry. rewrite Hen. cbn [negb].
    destruct (json_Marshal_CacheEntry E _) as [data|]; cbn [fst snd]; [|discriminate].
    intros _. cbn [Model Hash]. rewrite RedisSet_lookup.
    cbn [fmap option_fmap option_map item_expiry].
    destruct (String.eqb (EntryTTL entry) "1h"); reflexivity.
Qed.

(** ** Cache-control annotations and the breakpoints they yield *)

Lemma extractCacheControlFromBlocks_find (E : Externals) content :
  extractCacheControlFromBlocks E content
  = match List.find annotated content with
    | Some media => extractCacheControlTTLFromRaw E (dto.CacheControl media)
    | None => ""
    end.
Proof.
  induction content as [|media rest IH]; [reflexivity|].
  simpl. unfold annotated at 1.
  destruct (0 <? String.length (dto.CacheControl media))%nat; [reflexivity | exact IH].
Qed.

Lemma extractCacheControlFromMessage_find (E : Externals) msg :
  extractCacheControlFromMessage E msg
  = match List.find annotated (dto.ParseContent msg) with
    | Some media => extractCacheControlTTLFromRaw E (dto.CacheControl media)
    | None => ""
    end.
Proof.
  unfold extractCacheControlFromMessage, dto.IsStringContent, dto.ParseContent.
  destruct (dto.MessageContent msg); [reflexivity|].
  apply extractCacheControlFromBlocks_find.
Qed.

Lemma messageLoop_one (E : Externals) model i msg w :
  let ttl := extractCacheControlFromMessage E msg in
  breakpoints (messageLoop E model i [msg] w)
  = breakpoints w
    ++ if String.eqb ttl "" then []
       else [ {| Location := "message"; Index := Z.of_nat i;
                 BlockIndex := GoInt.add (globalBlockIndex w) 1;
                 TTL := ttl;
                 TokenCount := GoInt.add (cacheableTokens w)
                                 (estimateContentTokens E (json_Marshal_Message E msg) model) |} ].
Proof.
  intros ttl. simpl. fold ttl.
  destruct (String.eqb ttl ""); simpl; [rewrite app_nil_r|]; reflexivity.
Qed.

(** C10 (annotations).  (1) An annotation of type ["ephemeral"] without ttl
    gives the TTL class ["5m"]; a system block that carries it yields a
    breakpoint of that class, and so does a message whose first annotated
    content block carries it.  (2) An annotation that does not decode, or
    whose type is not ["ephemeral"], gives no class; a system block that
    carries it yields no breakpoint, and neither does a message whose first
    annotated content block carries it.  (3) A message yields at most one
    breakpoint: none when the annotation of its first annotated content
    block gives no class (or no block is annotated), and otherwise exactly
    one, at the message's index, whose class is the one of that
    annotation. *)
Theorem cache_control_annotations (E : Externals) :
  (forall raw cc,
      (0 < String.length raw)%nat ->
      json_Unmarshal_CacheControl E raw = Some cc ->
      cc_Type cc = "ephemeral" -> cc_TTL cc = "" ->
      extractCacheControlTTLFromRaw E raw = "5m"
      /\ (forall model i media w,
          dto.CacheControl media = raw ->
          exists bp, breakpoints (systemLoop E model i [media] w) = breakpoints w ++ [bp]
                     /\ TTL bp = "5m")
      /\ (forall model i msg media w,
          List.find annotated (dto.ParseContent msg) = Some media ->
          dto.CacheControl media = raw ->
          exists bp, breakpoints (messageLoop E model i [msg] w) = breakpoints w ++ [bp]
                     /\ TTL bp = "5m"))
  /\ (forall raw,
         json_Unmarshal_CacheControl E raw = None
         \/ (exists cc, json_Unmarshal_CacheControl E raw = Some cc /\ cc_Type cc <> "ephemeral") ->
         extractCacheControlTTLFromRaw E raw = ""
         /\ (forall model i media w,
             dto.CacheControl media = raw ->
             breakpoints (systemLoop E model i [media] w) = breakpoints w)
         /\ (forall model i msg media w,
             List.find annotated (dto.ParseContent msg) = Some media ->
             dto.CacheControl media = raw ->
             breakpoints (messageLoop E model i [msg] w) = breakpoints w))
  /\ (forall msg,
         let ttl := match List.find annotated (dto.ParseContent msg) with
                    | Some media => extractCacheControlTTLFromRaw E (dto.CacheControl media)
                    | None => ""
                    end in
         forall model i w,
           exists new,
             breakpoints (messageLoop E model i [msg] w) = breakpoints w ++ new
             /\ (length new <= 1)%nat
             /\ Forall (fun bp => TTL bp = ttl) new
             /\ (ttl = "" -> new = [])
             /\ (ttl <> "" ->
                 exists bp, new = [bp] /\ Location bp = "message" /\ Index bp = Z.of_nat i
                            /\ TTL bp = ttl)).
Proof.
  split; [|split].
  - intros raw cc Hlen Hdec Hty Httl.
    assert (Hex : extractCacheControlTTLFromRaw E raw = "5m").
    { unfold extractCacheControlTTLFromRaw.
      destruct (String.length raw =? 0)%nat eqn:Hz; [apply Nat.eqb_eq in Hz; lia|].
      rewrite Hdec, Hty, Httl. reflexivity. }
    split; [exact Hex|]. split.
    + intros model i media w Hraw. simpl. rewrite Hraw.
      destruct (0 <? String.length raw)%nat eqn:Hpos; [|apply Nat.ltb_ge in Hpos; lia].
      rewrite Hex. simpl. eexists. split; reflexivity.
    + intros model i msg media w Hfind Hraw.
      rewrite messageLoop_one, extractCacheControlFromMessage_find, Hfind, Hraw, Hex.
      simpl. eexists. split; reflexivity.
  - intros raw Hbad.
    assert (Hex : extractCacheControlTTLFromRaw E raw = "").
    { unfold extractCacheControlTTLFromRaw.
      destruct (String.length raw =? 0)%nat; [reflexivity|].
      destruct Hbad as [-> | (cc & -> & Hty)]; [reflexivity|].
      apply String.eqb_neq in Hty. rewrite Hty. reflexivity. }
    split; [exact Hex|]. split.
    + intros model i media w Hraw. simpl. rewrite Hraw, Hex.
      destruct (0 <? String.length raw)%nat; reflexivity.
    + intros model i msg media w Hfind Hraw.
      rewrite messageLoop_one, extractCacheControlFromMessage_find, Hfind, Hraw, Hex.
      simpl. apply app_nil_r.
  - intros msg ttl model i w.
    rewrite messageLoop_one, extractCacheControlFromMessage_find. fold ttl.
    destruct (String.eqb ttl "") eqn:Ht.
    + apply String.eqb_eq in Ht.
      exists []. repeat split; auto. intros Hne. contradiction.
    + eexists [_]. split; [reflexivity|]. split; [simpl; lia|]. split.
      * repeat constructor.
      * split; [intros ->; discriminate|].
        intros _. eexists. repeat split; reflexivity.
Qed.

(** ** The descending scan for an exact entry *)

Lemma scanExact_Some (E : Externals) range r req model minTokens bps k i :
  scanExact E range r req model minTokens bps k = Some i ->
  (i < k)%nat
  /\ exists bp, bps !! i = Some bp
                /\ minTokens <= TokenCount bp
                /\ exactEntryFound E range r req model bp = true.
Proof.
  induction k as [|k IH]; simpl; [discriminate|].
  destruct (bps !! k) as [bp|] eqn:Hk.
  - destruct (TokenCount bp <? minTokens) eqn:Hlt.
    + intros H. destruct (IH H) as (? & ?). split; [lia | assumption].
    + destruct (exactEntryFound E range r req model bp) eqn:Hf.
      * intros [= <-]. split; [lia|]. exists bp. apply Z.ltb_ge in Hlt. auto.
      * intros H. destruct (IH H) as (? & ?). split; [lia | assumption].
  - intros H. destruct (IH H) as (? & ?). split; [lia | assumption].
Qed.

Lemma exactEntryFound_disabled (E : Externals) range r req model bp :
  RedisEnabled r = false -> exactEntryFound E range r req model bp = false.
Proof.
  intros Hd. unfold exactEntryFound, GetCacheEntry. rewrite Hd. reflexivity.
Qed.

Lemma scanExact_disabled (E : Externals) range r req model minTokens bps k :
  RedisEnabled r = false ->
  scanExact E range r req model minTokens bps k = None.
Proof.
  intros Hd. induction k as [|k IH]; simpl; [reflexivity|].
  destruct (bps !! k) as [bp|]; [|exact IH].
  rewrite (exactEntryFound_disabled E range r req model bp Hd), IH.
  destruct (TokenCount bp <? minTokens); reflexivity.
Qed.

(** ** Hit flags *)

Lemma markShorter_S i hits : markShorter (S i) hits = <[i := true]> (markShorter i hits).
Proof. unfold markShorter. rewrite seq_S, fold_left_app. reflexivity. Qed.

Lemma markShorter_length i hits : length (markShorter i hits) = length hits.
Proof.
  induction i as [|i IH]; [reflexivity|].
  rewrite markShorter_S, length_insert. exact IH.
Qed.

Lemma markShorter_below i hits j :
  (j < i)%nat -> (j < length hits)%nat -> markShorter i hits !! j = Some true.
Proof.
  induction i as [|i IH]; intros Hj Hlen; [lia|].
  rewrite markShorter_S. destruct (decide (j = i)) as [->|Hne].
  - apply list_lookup_insert_eq. rewrite markShorter_length. exact Hlen.
  - rewrite list_lookup_insert_ne by congruence. apply IH; lia.
Qed.

Lemma markShorter_above i hits j :
  (i <= j)%nat -> markShorter i hits !! j = hits !! j.
Proof.
  induction i as [|i IH]; intros Hj; [reflexivity|].
  rewrite markShorter_S, list_lookup_insert_ne by lia. apply IH. lia.
Qed.

Lemma creationStep_frame minTokens l : forall result lastHitTokens,
  let result' := fst (fold_left (creationStep minTokens) l (result, lastHitTokens)) in
  BreakpointHits result' = BreakpointHits result
  /\ Hit result' = Hit result
  /\ CacheReadTokens result' = CacheReadTokens result
  /\ InputTokens result' = InputTokens result.
Proof.
  induction l as [|bp l IH]; intros result lastHitTokens; simpl; [auto|].
  destruct (minTokens <=? TokenCount bp).
  - destruct (IH (addCreation result (TTL bp) (GoInt.sub (TokenCount bp) lastHitTokens))
                 (TokenCount bp)) as (-> & -> & -> & ->).
    auto.
  - apply IH.
Qed.

Lemma remainingInput_frame result bps total :
  BreakpointHits (remainingInput result bps total) = BreakpointHits result
  /\ Hit (remainingInput result bps total) = Hit result
  /\ CacheReadTokens (remainingInput result bps total) = CacheReadTokens result
  /\ CacheCreationTokens (remainingInput result bps total) = CacheCreationTokens result.
Proof. unfold remainingInput. destruct (last bps); auto. Qed.

(** The flags of a result: everything up to the exact hit, nothing else. *)
Lemma CheckCacheHits_flags (E : Externals) range r req model totalInputTokens :
  let bps := ExtractCacheBreakpoints E req model in
  let hits := BreakpointHits (CheckCacheHits E range r req model totalInputTokens) in
  match scanExact E range r req model (GetMinCacheableTokens model) bps (length bps) with
  | Some i => hits = markShorter i (<[i := true]> (replicate (length bps) false))
  | None => hits = replicate (length bps) false
  end.
Proof.
  intros bps hits. subst hits. unfold CheckCacheHits. fold bps.
  destruct (length bps =? 0)%nat eqn:Hlen.
  - apply Nat.eqb_eq in Hlen. rewrite Hlen. reflexivity.
  - destruct (scanExact _ _ _ _ _ _ _ _) as [i|].
    + match goal with
      | |- context [fold_left ?f ?l (?res, ?z)] =>
          pose proof (creationStep_frame (GetMinCacheableTokens model) l res z) as Hf;
          destruct (fold_left f l (res, z)) as [result' last']
      end.
      simpl in Hf. destruct Hf as (Hf & _).
      destruct (remainingInput_frame result' bps totalInputTokens) as (-> & _).
      exact Hf.
    + match goal with
      | |- context [fold_left ?f ?l (?res, ?z)] =>
          pose proof (creationStep_frame (GetMinCacheableTokens model) l res z) as Hf;
          destruct (fold_left f l (res, z)) as [result' last']
      end.
      simpl in Hf. destruct Hf as (Hf & _).
      destruct (remainingInput_frame result' bps totalInputTokens) as (-> & _).
      exact Hf.
Qed.

(** C8 (hit monotonicity).  In the result of [CheckCacheHits], if breakpoint
    [i] is marked a hit then every breakpoint [j < i] is marked a hit. *)
Theorem CheckCacheHits_hits_downward_closed (E : Externals) range r req model
        totalInputTokens (i j : nat) :
  (j < i)%nat ->
  BreakpointHits (CheckCacheHits E range r req model totalInputTokens) !! i = Some true ->
  BreakpointHits (CheckCacheHits E range r req model totalInputTokens) !! j = Some true.
Proof.
  intros Hji. pose proof (CheckCacheHits_flags E range r req model totalInputTokens) as Hflags.
  simpl in Hflags.
  destruct (scanExact _ _ _ _ _ _ _ _) as [i0|] eqn:Hscan; rewrite Hflags.
  - apply scanExact_Some in Hscan as (Hi0 & _).
    destruct (decide (i0 < i)%nat) as [Hlt|Hge].
    + rewrite markShorter_above by lia.
      rewrite list_lookup_insert_ne by lia.
      intros Hi. apply lookup_replicate in Hi as (? & _). discriminate.
    + intros _. destruct (decide (j < i0)%nat) as [Hj|Hj].
      * apply markShorter_below; [exact Hj|]. rewrite length_insert, length_replicate. lia.
      * lia.
  - intros Hi. apply lookup_replicate in Hi as (? & _). discriminate.
Qed.

(** ** The reconciler, phase by phase *)

Lemma resolveLocal_eq (E : Externals) range r req model :
  resolveLocal E range r req model
  = let bps := ExtractCacheBreakpoints E req model in
    let w := walkRequest E req model in
    if totalTokens w =? 0 then None
    else
      let minTokens := GetMinCacheableTokens model in
      let t1 := phaseExact E range r req model minTokens bps tallyZero in
      let t2 := phaseFuzzy E range r req model minTokens bps t1 in
      let mt := phaseMiss E range req model minTokens bps t2 in
      let n := GoInt.add (toolsTokens w)
                 (GoInt.sub (GoInt.sub (totalTokens w) (toolsTokens w))
                            (lastCacheTokens (fst mt))) in
      Some {| localTotalTokens := totalTokens w;
              localToolsTokens := toolsTokens w;
              resBreakpoints := bps;
              tally := fst mt;
              nonCacheTokens := if n <? 0 then 0 else n;
              scheduled := snd mt |}.
Proof.
  unfold resolveLocal. rewrite ExtractWithTotal_eq. cbv zeta.
  destruct (totalTokens (walkRequest E req model) =? 0); [reflexivity|].
  destruct (phaseMiss _ _ _ _ _ _ _). reflexivity.
Qed.

Lemma nonCacheTokens_nonneg (E : Externals) range r req model res :
  resolveLocal E range r req model = Some res -> 0 <= nonCacheTokens res.
Proof.
  rewrite resolveLocal_eq. cbv zeta.
  destruct (totalTokens _ =? 0); [discriminate|].
  intros [= <-]. simpl.
  match goal with |- context [if ?n <? 0 then _ else _] => destruct (n <? 0) eqn:Hn end;
    [lia | apply Z.ltb_ge in Hn; exact Hn].
Qed.

(** C6 (fresh-input clamp).  The reconciler either leaves the prompt-token
    field as the upstream reported it or writes the locally computed
    fresh-input figure, and it writes only a positive figure: a negative
    figure is never written, and when the computed figure is zero the
    upstream value stays.  The completion and total tokens are never
    touched. *)
Theorem applyLocalCacheSimulation_prompt_tokens (E : Externals) range r req model usage :
  let out := fst (applyLocalCacheSimulation E range r req model usage) in
  (dto.PromptTokens out = dto.PromptTokens usage \/ 0 < dto.PromptTokens out)
  /\ dto.CompletionTokens out = dto.CompletionTokens usage
  /\ dto.TotalTokens out = dto.TotalTokens usage
  /\ forall rq res,
      req = Some rq -> resolveLocal E range r rq model = Some res ->
      0 <= nonCacheTokens res
      /\ (dto.PromptTokens out = dto.PromptTokens usage
          \/ (dto.PromptTokens out = nonCacheTokens res /\ 0 < nonCacheTokens res))
      /\ (nonCacheTokens res = 0 -> dto.PromptTokens out = dto.PromptTokens usage).
Proof.
  intros out. subst out. unfold applyLocalCacheSimulation.
  destruct req as [rq|].
  2:{ simpl. split; [left; reflexivity|]. split; [reflexivity|]. split; [reflexivity|].
      intros rq res Hrq. discriminate Hrq. }
  destruct (resolveLocal E range r rq model) as [res|] eqn:Hres.
  2:{ simpl. split; [left; reflexivity|]. split; [reflexivity|]. split; [reflexivity|].
      intros rq' res [= <-] Hnone. rewrite Hres in Hnone. discriminate Hnone. }
  pose proof (nonCacheTokens_nonneg E range r rq model res Hres) as Hnn.
  assert (Hcases :
    let out := fst (if (cacheReadTokens (tally res) =? 0) && (cacheCreateTokens (tally res) =? 0)
                    then (usage, scheduled res)
                    else ({| dto.PromptTokens :=
                               if 0 <? nonCacheTokens res then nonCacheTokens res
                               else dto.PromptTokens usage;
                             dto.CompletionTokens := dto.CompletionTokens usage;
                             dto.TotalTokens := dto.TotalTokens usage;
                             dto.PromptTokensDetails :=
                               {| dto.CachedTokens := cacheReadTokens (tally res);
                                  dto.CachedCreationTokens := cacheCreateTokens (tally res) |};
                             dto.ClaudeCacheCreation5mTokens := cacheCreate5m (tally res);
                             dto.ClaudeCacheCreation1hTokens := cacheCreate1h (tally res) |},
                          scheduled res ++ [GoStoreCacheBreakpoints rq model])) in
    (dto.PromptTokens out = dto.PromptTokens usage
     \/ (dto.PromptTokens out = nonCacheTokens res /\ 0 < nonCacheTokens res))
    /\ dto.CompletionTokens out = dto.CompletionTokens usage
    /\ dto.TotalTokens out = dto.TotalTokens usage).
  { destruct ((cacheReadTokens (tally res) =? 0) && (cacheCreateTokens (tally res) =? 0));
      simpl; [auto|].
    destruct (0 <? nonCacheTokens res) eqn:Hpos; [apply Z.ltb_lt in Hpos|]; auto. }
  cbv zeta in Hcases. destruct Hcases as (Hp & Hc & Ht).
  split; [destruct Hp as [Hp | (Hp & Hpos)]; [left; exact Hp | right; rewrite Hp; exact Hpos]|].
  split; [exact Hc|]. split; [exact Ht|].
  intros rq' res' [= <-] Hres'. rewrite Hres in Hres'. injection Hres' as <-.
  split; [exact Hnn|]. split; [exact Hp|].
  intros Hz. destruct Hp as [Hp | (_ & Hpos)]; [exact Hp | lia].
Qed.

(** ** Store disabled *)

Lemma GetFuzzyEntry_disabled (E : Externals) r model systemHash :
  RedisEnabled r = false -> GetFuzzyEntry E r model systemHash = (0, false).
Proof. intros Hd. unfold GetFuzzyEntry. rewrite Hd. reflexivity. Qed.

Lemma phaseExact_disabled (E : Externals) range r req model minTokens bps t :
  RedisEnabled r = false -> phaseExact E range r req model minTokens bps t = t.
Proof. intros Hd. unfold phaseExact. rewrite scanExact_disabled by exact Hd. reflexivity. Qed.

Lemma phaseFuzzy_disabled (E : Externals) range r req model minTokens bps t :
  RedisEnabled r = false -> phaseFuzzy E range r req model minTokens bps t = t.
Proof.
  intros Hd. unfold phaseFuzzy. rewrite GetFuzzyEntry_disabled by exact Hd.
  destruct (negb (exactHit t) && (0 <? length bps)%nat); reflexivity.
Qed.

Lemma missStep_read minTokens l : forall t prev,
  cacheReadTokens (fst (fold_left (missStep minTokens) l (t, prev))) = cacheReadTokens t
  /\ exactHit (fst (fold_left (missStep minTokens) l (t, prev))) = exactHit t.
Proof.
  induction l as [|bp l IH]; intros t prev; simpl; [auto|].
  destruct (minTokens <=? TokenCount bp); [|apply IH].
  destruct (IH (tallyCreate t bp (GoInt.sub (TokenCount bp) prev)) (TokenCount bp)) as (-> & ->).
  auto.
Qed.

Lemma phaseMiss_read (E : Externals) range req model minTokens bps t :
  cacheReadTokens (fst (phaseMiss E range req model minTokens bps t)) = cacheReadTokens t.
Proof.
  unfold phaseMiss.
  destruct ((cacheReadTokens t =? 0) && (0 <? length bps)%nat); [|reflexivity].
  pose proof (missStep_read minTokens bps t 0) as (Hr & _).
  destruct (fold_left _ _ _) as [t' prev']. simpl in Hr.
  destruct bps; exact Hr.
Qed.

Lemma missStep_below minTokens l st :
  Forall (fun bp => TokenCount bp < minTokens) l ->
  fold_left (missStep minTokens) l st = st.
Proof.
  intros Hall. revert st. induction Hall as [|bp l Hbp _ IH]; intros [t prev]; [reflexivity|].
  simpl. destruct (minTokens <=? TokenCount bp) eqn:Hle; [apply Z.leb_le in Hle; lia|].
  apply IH.
Qed.

Lemma creationStep_below minTokens l st :
  Forall (fun bp => TokenCount bp < minTokens) l ->
  fold_left (creationStep minTokens) l st = st.
Proof.
  intros Hall. revert st. induction Hall as [|bp l Hbp _ IH]; intros [t prev]; [reflexivity|].
  simpl. destruct (minTokens <=? TokenCount bp) eqn:Hle; [apply Z.leb_le in Hle; lia|].
  apply IH.
Qed.

Lemma phaseMiss_below (E : Externals) range req model minTokens bps t :
  Forall (fun bp => TokenCount bp < minTokens) bps ->
  fst (phaseMiss E range req model minTokens bps t) = t.
Proof.
  intros Hall. unfold phaseMiss.
  destruct ((cacheReadTokens t =? 0) && (0 <? length bps)%nat); [|reflexivity].
  rewrite missStep_below by exact Hall. destruct bps; reflexivity.
Qed.

(** ** Accounting of the creation loops *)

Lemma GetMinCacheableTokens_eq model : GetMinCacheableTokens model = 5.
Proof.
  unfold GetMinCacheableTokens.
  repeat match goal with |- context [if ?b then _ else _] => destruct b end; reflexivity.
Qed.

Lemma tallyCreate_Balanced C t bp :
  C <= GoInt.max_int -> Balanced C t ->
  lastCacheTokens t <= TokenCount bp <= C ->
  Balanced C (tallyCreate t bp (GoInt.sub (TokenCount bp) (lastCacheTokens t))).
Proof.
  intros HC (Hr & H5 & H1 & Hsum & Hlast & HlC) Hbp.
  unfold Balanced, tallyCreate. simpl.
  rewrite sub_exact by int_range.
  destruct (String.eqb (TTL bp) "1h"); rewrite !add_exact by int_range; lia.
Qed.

Lemma exactStep_fold minTokens C l :
  C <= GoInt.max_int -> StronglySorted le_TokenCount l ->
  forall t, Balanced C t ->
    Forall (fun bp => lastCacheTokens t <= TokenCount bp <= C) l ->
    let t' := fold_left (exactStep minTokens) l t in
    Balanced C t'
    /\ cacheReadTokens t' = cacheReadTokens t
    /\ exactHit t' = exactHit t
    /\ lastCacheTokens t <= lastCacheTokens t'.
Proof.
  intros HC Hs. induction Hs as [|bp l Hs IH Hbp]; intros t Hb Hall; simpl.
  - split; [exact Hb|]. repeat split; lia.
  - inversion Hall as [|? ? Hhd Htl]; subst.
    change (exactStep minTokens t bp)
      with (if minTokens <=? TokenCount bp
            then tallyCreate t bp (GoInt.sub (TokenCount bp) (lastCacheTokens t)) else t).
    destruct (minTokens <=? TokenCount bp).
    + destruct (IH (tallyCreate t bp (GoInt.sub (TokenCount bp) (lastCacheTokens t))))
        as (Hb' & Hr' & He' & Hl').
      * apply tallyCreate_Balanced; assumption.
      * simpl. rewrite Forall_forall in *. intros b Hin.
        specialize (Hbp b Hin). specialize (Htl b Hin). unfold le_TokenCount in Hbp. lia.
      * simpl in *. split; [exact Hb'|]. repeat split; (assumption || lia).
    + apply IH; assumption.
Qed.

Lemma fuzzyStep_fold minTokens C l :
  C <= GoInt.max_int ->
  forall t, Balanced C t ->
    Forall (fun bp => 0 <= TokenCount bp <= C) l ->
    let t' := fold_left (fuzzyStep minTokens) l t in
    Balanced C t'
    /\ cacheReadTokens t' = cacheReadTokens t
    /\ exactHit t' = exactHit t.
Proof.
  intros HC. induction l as [|bp l IH]; intros t Hb Hall; simpl; [auto|].
  inversion Hall as [|? ? Hhd Htl]; subst.
  change (fuzzyStep minTokens t bp)
    with (if (lastCacheTokens t <? TokenCount bp) && (minTokens <=? TokenCount bp)
          then tallyCreate t bp (GoInt.sub (TokenCount bp) (lastCacheTokens t)) else t).
  destruct (lastCacheTokens t <? TokenCount bp) eqn:Hlt; simpl.
  - destruct (minTokens <=? TokenCount bp).
    + apply Z.ltb_lt in Hlt.
      destruct (IH (tallyCreate t bp (GoInt.sub (TokenCount bp) (lastCacheTokens t))))
        as (Hb' & Hr' & He'); [|assumption|].
      * apply tallyCreate_Balanced; [assumption | assumption | lia].
      * simpl in *. auto.
    + apply IH; assumption.
  - apply IH; assumption.
Qed.

(** From [prevTokens = lastCacheTokens] on, the loop of the full miss is
    the creation loop of the exact hit. *)
Lemma missStep_as_exactStep minTokens l : forall t,
  fold_left (missStep minTokens) l (t, lastCacheTokens t)
  = (fold_left (exactStep minTokens) l t,
     lastCacheTokens (fold_left (exactStep minTokens) l t)).
Proof.
  induction l as [|bp l IH]; intros t; simpl; [reflexivity|].
  change (exactStep minTokens t bp)
    with (if minTokens <=? TokenCount bp
          then tallyCreate t bp (GoInt.sub (TokenCount bp) (lastCacheTokens t)) else t).
  destruct (minTokens <=? TokenCount bp); [|apply IH].
  rewrite <- IH. reflexivity.
Qed.

Lemma creationStep_as_exactStep minTokens l : forall st,
  tallyOf (fold_left (creationStep minTokens) l st)
  = fold_left (exactStep minTokens) l (tallyOf st).
Proof.
  induction l as [|bp l IH]; intros [result lastHitTokens]; simpl; [reflexivity|].
  change (exactStep minTokens (tallyOf (result, lastHitTokens)) bp)
    with (if minTokens <=? TokenCount bp
          then tallyCreate (tallyOf (result, lastHitTokens)) bp
                 (GoInt.sub (TokenCount bp) lastHitTokens)
          else tallyOf (result, lastHitTokens)).
  destruct (minTokens <=? TokenCount bp); rewrite IH; reflexivity.
Qed.


Lemma fuzzyStep_last_inv (P : Z -> Prop) minTokens l : forall t,
  Forall (fun bp => P (TokenCount bp)) l ->
  P (lastCacheTokens t) ->
  P (lastCacheTokens (fold_left (fuzzyStep minTokens) l t)).
Proof.
  induction l as [|bp l IH]; intros t Hall Ht; simpl; [exact Ht|].
  inversion Hall; subst. apply IH; [assumption|].
  unfold fuzzyStep.
  destruct ((lastCacheTokens t <? TokenCount bp) && (minTokens <=? TokenCount bp));
    simpl; assumption.
Qed.

Lemma missStep_last_inv (P : Z -> Prop) minTokens l : forall t prev,
  Forall (fun bp => P (TokenCount bp)) l ->
  P (lastCacheTokens t) ->
  P (lastCacheTokens (fst (fold_left (missStep minTokens) l (t, prev)))).
Proof.
  induction l as [|bp l IH]; intros t prev Hall Ht; simpl; [exact Ht|].
  inversion Hall; subst.
  destruct (minTokens <=? TokenCount bp); apply IH; simpl; assumption.
Qed.






Lemma exactStep_fold_last minTokens l t b :
  last l = Some b -> minTokens <= TokenCount b ->
  lastCacheTokens (fold_left (exactStep minTokens) l t) = TokenCount b.
Proof.
  intros Hl Hb. apply last_Some in Hl as (l' & ->).
  rewrite fold_left_app. simpl. unfold exactStep at 1.
  apply Z.leb_le in Hb. rewrite Hb. reflexivity.
Qed.

Lemma sorted_last {A : Type} (R : A -> A -> Prop) (l : list A) (x b : A) :
  StronglySorted R l -> x ∈ l -> last l = Some b -> x = b \/ R x b.
Proof.
  intros Hs Hx Hl. apply last_Some in Hl as (l' & ->).
  apply StronglySorted_app in Hs as (Hab & _ & _).
  apply elem_of_app in Hx as [Hx | Hx].
  - right. apply Hab; [exact Hx | apply list_elem_of_singleton; reflexivity].
  - left. apply list_elem_of_singleton in Hx. exact Hx.
Qed.

Lemma sorted_after {A : Type} (R : A -> A -> Prop) (l : list A) (i : nat) (x : A) :
  StronglySorted R l -> l !! i = Some x -> Forall (R x) (drop (S i) l).
Proof.
  intros Hs. revert i. induction Hs as [|a l Hs IH Ha]; intros i Hi; [discriminate|].
  destruct i as [|i]; simpl in *.
  - injection Hi as ->. rewrite drop_0. exact Ha.
  - apply IH, Hi.
Qed.

Lemma phaseMiss_zero_last (E : Externals) range req model minTokens bps b :
  last bps = Some b -> minTokens <= TokenCount b ->
  lastCacheTokens (fst (phaseMiss E range req model minTokens bps tallyZero)) = TokenCount b.
Proof.
  intros Hl Hb. unfold phaseMiss. simpl.
  destruct (0 <? length bps)%nat eqn:Hlen.
  - change (tallyZero, 0) with (tallyZero, lastCacheTokens tallyZero).
    rewrite missStep_as_exactStep.
    pose proof (exactStep_fold_last minTokens bps tallyZero b Hl Hb) as Hlast.
    destruct bps; [discriminate | exact Hlast].
  - apply Nat.ltb_ge in Hlen. destruct bps; [discriminate | simpl in Hlen; lia].
Qed.

(** ** The three phases on well-formed breakpoints *)

Section Phases.

Variable E : Externals.
Variable range : MapOrder.
Variable r : Redis.
Variable req : dto.ClaudeRequest.
Variable model : string.
Variable minTokens : Z.
Variable bps : list CacheBreakpoint.
Variable C : Z.

Hypothesis minTokens_pos : 0 < minTokens.
Hypothesis C_nonneg : 0 <= C.
Hypothesis C_fits : C <= GoInt.max_int.
Hypothesis bps_sorted : StronglySorted le_TokenCount bps.
Hypothesis bps_bounded : Forall (fun bp => 0 <= TokenCount bp <= C) bps.

Lemma Balanced_zero : Balanced C tallyZero.
Proof. unfold Balanced, tallyZero. simpl. repeat split; lia. Qed.

Lemma phaseExact_cases :
  let t := phaseExact E range r req model minTokens bps tallyZero in
  (scanExact E range r req model minTokens bps (length bps) = None /\ t = tallyZero)
  \/ (Balanced C t /\ exactHit t = true /\ minTokens <= cacheReadTokens t
      /\ scanExact E range r req model minTokens bps (length bps) <> None).
Proof.
  intros t. subst t. unfold phaseExact.
  destruct (scanExact _ _ _ _ _ _ _ _) as [i|] eqn:Hscan; [right | left; auto].
  assert (Hsome : Some i <> None) by discriminate.
  apply scanExact_Some in Hscan as (Hi & bp & Hbp & Hmin & _). rewrite Hbp.
  pose proof bps_bounded as Hall. rewrite Forall_forall in Hall.
  assert (Hin : bp ∈ bps) by (eapply list_elem_of_lookup_2; exact Hbp).
  pose proof (Hall bp Hin) as Hbnd.
  assert (Hdrop : StronglySorted le_TokenCount (drop (S i) bps)).
  { pose proof bps_sorted as Hs. rewrite <- (take_drop (S i) bps) in Hs.
    apply StronglySorted_app in Hs. tauto. }
  set (t0 := {| cacheReadTokens := TokenCount bp;
                cacheCreateTokens := cacheCreateTokens tallyZero;
                cacheCreate5m := cacheCreate5m tallyZero;
                cacheCreate1h := cacheCreate1h tallyZero;
                lastCacheTokens := TokenCount bp;
                exactHit := true |}).
  destruct (exactStep_fold minTokens C (drop (S i) bps) C_fits Hdrop t0)
    as (Hb & Hr & He & _).
  - unfold Balanced. simpl. repeat split; lia.
  - simpl. pose proof (sorted_after le_TokenCount bps i bp bps_sorted Hbp) as Hafter.
    rewrite Forall_forall in *. intros b Hb. unfold le_TokenCount in Hafter.
    specialize (Hafter b Hb).
    assert (Hbin : b ∈ bps)
      by (rewrite <- (take_drop (S i) bps); apply elem_of_app; right; exact Hb).
    specialize (Hall b Hbin). lia.
  - simpl in *. split; [exact Hb|]. split; [exact He|].
    split; [rewrite Hr; exact Hmin | exact Hsome].
Qed.

Lemma fuzzyStep_frame : forall l t,
  cacheReadTokens (fold_left (fuzzyStep minTokens) l t) = cacheReadTokens t
  /\ exactHit (fold_left (fuzzyStep minTokens) l t) = exactHit t.
Proof.
  induction l as [|bp l IH]; intros t; simpl; [auto|].
  destruct (IH (fuzzyStep minTokens t bp)) as (-> & ->).
  unfold fuzzyStep.
  destruct ((lastCacheTokens t <? TokenCount bp) && (minTokens <=? TokenCount bp)); auto.
Qed.

Lemma phaseFuzzy_skip t :
  exactHit t = true -> phaseFuzzy E range r req model minTokens bps t = t.
Proof. intros He. unfold phaseFuzzy. rewrite He. reflexivity. Qed.

(** After a fuzzy hit the read is the smaller of the stored count and the
    first breakpoint's count; the books balance when it is positive. *)
Lemma phaseFuzzy_cases :
  let t := phaseFuzzy E range r req model minTokens bps tallyZero in
  t = tallyZero
  \/ exists f bp0 rest,
      GetFuzzyEntry E r model (CalculateSystemHash E range req model) = (f, true)
      /\ bps = bp0 :: rest
      /\ minTokens <= TokenCount bp0
      /\ cacheReadTokens t = Z.min f (TokenCount bp0)
      /\ exactHit t = false
      /\ 0 <= lastCacheTokens t <= C
      /\ (0 < f -> Balanced C t).
Proof.
  intros t. subst t. unfold phaseFuzzy. simpl.
  destruct (0 <? length bps)%nat; [|left; reflexivity].
  destruct (GetFuzzyEntry _ _ _ _) as [f [|]]; [|left; reflexivity].
  destruct bps as [|bp0 rest] eqn:Hbps; [left; reflexivity|].
  destruct (minTokens <=? TokenCount bp0) eqn:Hmin; [|left; reflexivity].
  apply Z.leb_le in Hmin. right. exists f, bp0, rest.
  inversion bps_bounded as [|? ? Hbp0 Hrest]; subst.
  set (rd := if TokenCount bp0 <? f then TokenCount bp0 else f).
  assert (Hrd : rd = Z.min f (TokenCount bp0)).
  { unfold rd. destruct (TokenCount bp0 <? f) eqn:Hlt;
      [apply Z.ltb_lt in Hlt | apply Z.ltb_ge in Hlt]; lia. }
  set (t0 := {| cacheReadTokens := rd |}).
  destruct (fuzzyStep_frame (bp0 :: rest) t0) as (Hr & He).
  assert (Hlast : 0 <= lastCacheTokens (fold_left (fuzzyStep minTokens) (bp0 :: rest) t0) <= C).
  { simpl. apply (fuzzyStep_last_inv (fun z => 0 <= z <= C)); [exact Hrest|].
    unfold fuzzyStep. simpl.
    destruct (rd <? TokenCount bp0) eqn:Hlt; simpl.
    - apply Z.leb_le in Hmin. rewrite Hmin. simpl. lia.
    - apply Z.ltb_ge in Hlt. lia. }
  split; [reflexivity|]. split; [reflexivity|]. split; [exact Hmin|].
  split; [rewrite Hr; exact Hrd|]. split; [rewrite He; reflexivity|].
  split; [exact Hlast|].
  intros Hf. apply (fuzzyStep_fold minTokens C (bp0 :: rest) C_fits t0).
  - unfold Balanced. simpl. repeat split; lia.
  - exact bps_bounded.
Qed.

Lemma phaseMiss_skip t :
  cacheReadTokens t <> 0 -> fst (phaseMiss E range req model minTokens bps t) = t.
Proof.
  intros Hr. unfold phaseMiss. apply Z.eqb_neq in Hr. rewrite Hr. reflexivity.
Qed.

Lemma phaseMiss_zero :
  let t := fst (phaseMiss E range req model minTokens bps tallyZero) in
  Balanced C t /\ cacheReadTokens t = 0 /\ exactHit t = false.
Proof.
  intros t. subst t. unfold phaseMiss. simpl.
  destruct (0 <? length bps)%nat;
    [|split; [apply Balanced_zero | split; reflexivity]].
  change (tallyZero, 0) with (tallyZero, lastCacheTokens tallyZero).
  rewrite missStep_as_exactStep.
  destruct (exactStep_fold minTokens C bps C_fits bps_sorted tallyZero Balanced_zero)
    as (Hb & Hr & He & _).
  { simpl. exact bps_bounded. }
  destruct bps; simpl in *; auto.
Qed.

Lemma phaseMiss_last_bounded t :
  0 <= lastCacheTokens t <= C ->
  0 <= lastCacheTokens (fst (phaseMiss E range req model minTokens bps t)) <= C.
Proof.
  intros Ht. unfold phaseMiss.
  destruct ((cacheReadTokens t =? 0) && (0 <? length bps)%nat); [|exact Ht].
  pose proof (missStep_last_inv (fun z => 0 <= z <= C) minTokens bps t 0 bps_bounded Ht) as Hl.
  destruct (fold_left _ _ _) as [t' prev']. destruct bps; exact Hl.
Qed.

Lemma Balanced_last t : Balanced C t -> 0 <= lastCacheTokens t <= C.
Proof. unfold Balanced. lia. Qed.

Local Abbreviation fin := (finalTally E range r req model minTokens bps).

Lemma finalTally_cases :
  (Balanced C fin /\ exactHit fin = true
   /\ minTokens <= cacheReadTokens fin
   /\ scanExact E range r req model minTokens bps (length bps) <> None)
  \/ (scanExact E range r req model minTokens bps (length bps) = None
      /\ exists f bp0 rest,
          GetFuzzyEntry E r model (CalculateSystemHash E range req model) = (f, true)
          /\ bps = bp0 :: rest
          /\ minTokens <= TokenCount bp0
          /\ cacheReadTokens fin = Z.min f (TokenCount bp0)
          /\ 0 <= lastCacheTokens fin <= C
          /\ (0 < f -> Balanced C fin))
  \/ (scanExact E range r req model minTokens bps (length bps) = None
      /\ Balanced C fin /\ cacheReadTokens fin = 0
      /\ exactHit fin = false).
Proof.
  unfold finalTally.
  destruct phaseExact_cases as [(Hscan & ->) | (Hb & He & Hmin & Hsome)].
  - right. destruct phaseFuzzy_cases as [-> | (f & bp0 & rest & Hf & Hbps & Hm & Hr & He & Hl & Hb)].
    + right. split; [exact Hscan | apply phaseMiss_zero].
    + left. split; [exact Hscan|]. exists f, bp0, rest.
      split; [exact Hf|]. split; [exact Hbps|]. split; [exact Hm|].
      split; [rewrite phaseMiss_read; exact Hr|].
      split; [apply phaseMiss_last_bounded; exact Hl|].
      intros Hpos. rewrite phaseMiss_skip; [apply Hb, Hpos|].
      rewrite Hr. lia.
  - left. rewrite phaseFuzzy_skip by exact He.
    rewrite phaseMiss_skip by lia. auto.
Qed.

Lemma finalTally_last_bounded : 0 <= lastCacheTokens fin <= C.
Proof.
  destruct finalTally_cases
    as [(Hb & _) | [(_ & f & bp0 & rest & _ & _ & _ & _ & Hl & _) | (_ & Hb & _)]];
    [apply Balanced_last, Hb | exact Hl | apply Balanced_last, Hb].
Qed.

Lemma finalTally_Balanced :
  (forall f, GetFuzzyEntry E r model (CalculateSystemHash E range req model) = (f, true) ->
             0 < f) ->
  Balanced C fin.
Proof.
  intros Hpos.
  destruct finalTally_cases
    as [(Hb & _) | [(_ & f & bp0 & rest & Hf & _ & _ & _ & _ & Hb) | (_ & Hb & _)]];
    [exact Hb | apply Hb, (Hpos f Hf) | exact Hb].
Qed.

End Phases.

(** ** The resolution of a request *)

Lemma resolveLocal_fields (E : Externals) range r req model res :
  resolveLocal E range r req model = Some res ->
  let w := walkRequest E req model in
  let n := GoInt.add (toolsTokens w)
             (GoInt.sub (GoInt.sub (totalTokens w) (toolsTokens w))
                        (lastCacheTokens (tally res))) in
  localTotalTokens res = totalTokens w
  /\ localToolsTokens res = toolsTokens w
  /\ resBreakpoints res = ExtractCacheBreakpoints E req model
  /\ tally res = finalTally E range r req model (GetMinCacheableTokens model)
                   (ExtractCacheBreakpoints E req model)
  /\ nonCacheTokens res = (if n <? 0 then 0 else n).
Proof.
  rewrite resolveLocal_eq. cbv zeta.
  destruct (totalTokens _ =? 0); [discriminate|].
  intros [= <-]. simpl. repeat split; reflexivity.
Qed.

(** The fresh-input figure is the local total minus the last accounted
    boundary: the floor at zero never applies. *)
Lemma nonCacheTokens_exact (E : Externals) range r req model res :
  (forall text model, 0 <= CountTextToken E text model) ->
  exactTotal E req model <= GoInt.max_int ->
  resolveLocal E range r req model = Some res ->
  0 <= localToolsTokens res <= localTotalTokens res
  /\ localTotalTokens res <= GoInt.max_int
  /\ 0 <= lastCacheTokens (tally res) <= localTotalTokens res - localToolsTokens res
  /\ nonCacheTokens res = localTotalTokens res - lastCacheTokens (tally res).
Proof.
  intros Hnn Hfit Hres.
  destruct (Extract_spec E req model Hnn Hfit) as (_ & Htools & Hmax & Hs & Hall).
  destruct (resolveLocal_fields E range r req model res Hres) as (Ht & Hto & _ & Htally & Hn).
  pose proof (finalTally_last_bounded E range r req model (GetMinCacheableTokens model)
                (ExtractCacheBreakpoints E req model)
                (totalTokens (walkRequest E req model) - toolsTokens (walkRequest E req model))
                ltac:(rewrite GetMinCacheableTokens_eq; lia) ltac:(lia) ltac:(lia) Hs Hall)
    as Hlast.
  rewrite <- Htally in Hlast. rewrite Ht, Hto.
  split; [exact Htools|]. split; [exact Hmax|]. split; [exact Hlast|].
  rewrite Hn.
  rewrite (sub_exact (totalTokens _) (toolsTokens _)) by int_range.
  rewrite sub_exact by int_range. rewrite add_exact by int_range.
  match goal with |- context [if ?n <? 0 then _ else _] => destruct (n <? 0) eqn:Hneg end;
    [apply Z.ltb_lt in Hneg; lia | lia].
Qed.


Lemma scanExact_None_of_no_entry (E : Externals) range r req model minTokens bps :
  Forall (fun bp => exactEntryFound E range r req model bp = false) bps ->
  forall k, scanExact E range r req model minTokens bps k = None.
Proof.
  intros Hall k. destruct (scanExact E range r req model minTokens bps k) as [i|] eqn:Hscan;
    [|reflexivity].
  apply scanExact_Some in Hscan as (_ & bp & Hbp & _ & Hfound).
  rewrite Forall_forall in Hall.
  rewrite (Hall bp) in Hfound; [discriminate|].
  eapply list_elem_of_lookup_2. exact Hbp.
Qed.

(** The count that the reconciler schedules for a fuzzy entry is the token
    count of a breakpoint: it is not negative. *)
Lemma scheduled_fuzzy_count_nonneg (E : Externals) range r req model res :
  (forall text model, 0 <= CountTextToken E text model) ->
  exactTotal E req model <= GoInt.max_int ->
  resolveLocal E range r req model = Some res ->
  forall m h n ttl, GoStoreFuzzyEntry m h n ttl ∈ scheduled res -> 0 <= n.
Proof.
  intros Hnn Hfit Hres m h n ttl Hin.
  destruct (Extract_spec E req model Hnn Hfit) as (_ & _ & _ & _ & Hall).
  revert Hres Hin. rewrite resolveLocal_eq. cbv zeta.
  destruct (totalTokens _ =? 0); [discriminate|]. intros [= <-]. simpl.
  unfold phaseMiss.
  destruct (_ && _); [|intros Hin; inversion Hin].
  destruct (fold_left _ _ _) as [t' prev'].
  destruct (ExtractCacheBreakpoints E req model) as [|bp0 rest]; simpl;
    [intros Hin; inversion Hin|].
  intros Hin. apply list_elem_of_singleton in Hin. injection Hin as -> -> -> ->.
  inversion Hall; subst. lia.
Qed.

(** C5 (fuzzy fallback bound).  When no breakpoint of the request has an
    exact entry and the store holds a fuzzy entry for the system prompt, the
    credited cache-read tokens are at most the smaller of the stored count
    and the first breakpoint's count; so is the figure written into the
    record whenever the record is overwritten.  The stored count is a token
    count that an earlier request wrote, so it is not negative. *)
Theorem fuzzy_read_bound (E : Externals) range r req model usage res f bp0 rest :
  (forall text model, 0 <= CountTextToken E text model) ->
  exactTotal E req model <= GoInt.max_int ->
  resolveLocal E range r req model = Some res ->
  Forall (fun bp => exactEntryFound E range r req model bp = false)
         (ExtractCacheBreakpoints E req model) ->
  GetFuzzyEntry E r model (CalculateSystemHash E range req model) = (f, true) ->
  0 <= f ->
  ExtractCacheBreakpoints E req model = bp0 :: rest ->
  let out := fst (applyLocalCacheSimulation E range r (Some req) model usage) in
  cacheReadTokens (tally res) <= Z.min f (TokenCount bp0)
  /\ (out = usage
      \/ dto.CachedTokens (dto.PromptTokensDetails out) <= Z.min f (TokenCount bp0)).
Proof.
  intros Hnn Hfit Hres Hno Hf Hf0 Hbps out.
  destruct (Extract_spec E req model Hnn Hfit) as (_ & Htools & Hmax & Hs & Hall).
  destruct (resolveLocal_fields E range r req model res Hres) as (_ & _ & _ & Htally & _).
  assert (Hread : cacheReadTokens (tally res) <= Z.min f (TokenCount bp0)).
  { rewrite Htally.
    destruct (finalTally_cases E range r req model (GetMinCacheableTokens model)
                (ExtractCacheBreakpoints E req model)
                (totalTokens (walkRequest E req model) - toolsTokens (walkRequest E req model))
                ltac:(rewrite GetMinCacheableTokens_eq; lia) ltac:(lia) ltac:(lia) Hs Hall)
      as [(_ & _ & _ & Hsome) | [(_ & f' & bp0' & rest' & Hf' & Hbps' & _ & Hr & _) | (_ & _ & Hr & _)]].
    - exfalso. apply Hsome. apply scanExact_None_of_no_entry. exact Hno.
    - rewrite Hr. rewrite Hf in Hf'. injection Hf' as <-.
      rewrite Hbps in Hbps'. injection Hbps' as <- <-. lia.
    - rewrite Hr. rewrite Hbps in Hall. inversion Hall; subst. lia. }
  split; [exact Hread|].
  subst out. unfold applyLocalCacheSimulation. rewrite Hres.
  destruct ((cacheReadTokens (tally res) =? 0) && (cacheCreateTokens (tally res) =? 0));
    [left; reflexivity | right; exact Hread].
Qed.

(** ** Accounting of [CheckCacheHits] *)

Lemma creationStep_fold_Balanced minTokens C l result last0 :
  C <= GoInt.max_int -> StronglySorted le_TokenCount l ->
  Forall (fun bp => last0 <= TokenCount bp <= C) l ->
  Balanced C (tallyOf (result, last0)) ->
  let st := fold_left (creationStep minTokens) l (result, last0) in
  Balanced C (tallyOf st)
  /\ CacheReadTokens (fst st) = CacheReadTokens result
  /\ (forall b, last l = Some b -> minTokens <= TokenCount b -> snd st = TokenCount b)
  /\ (l = [] -> snd st = last0).
Proof.
  intros HC Hs Hall Hb st.
  pose proof (creationStep_as_exactStep minTokens l (result, last0)) as Heq. fold st in Heq.
  destruct (exactStep_fold minTokens C l HC Hs (tallyOf (result, last0)) Hb Hall)
    as (Hb' & Hr' & _ & _).
  rewrite <- Heq in Hb', Hr'. split; [exact Hb'|]. split; [exact Hr'|]. split.
  - intros b Hl Hmin.
    change (snd st) with (lastCacheTokens (tallyOf st)). rewrite Heq.
    apply exactStep_fold_last; assumption.
  - intros ->. reflexivity.
Qed.

Lemma CheckCacheHits_eq (E : Externals) range r req model totalInputTokens :
  let bps := ExtractCacheBreakpoints E req model in
  let minTokens := GetMinCacheableTokens model in
  let miss :=
    {| Hit := false; CacheReadTokens := 0; CacheCreationTokens := 0;
       CacheCreation5m := 0; CacheCreation1h := 0; InputTokens := totalInputTokens;
       BreakpointHits := replicate (length bps) false |} in
  CheckCacheHits E range r req model totalInputTokens
  = if (length bps =? 0)%nat then miss
    else
      let st :=
        match scanExact E range r req model minTokens bps (length bps) with
        | Some i =>
            let lastHitTokens := default 0 (TokenCount <$> bps !! i) in
            fold_left (creationStep minTokens) (drop (S i) bps)
              ({| Hit := true; CacheReadTokens := lastHitTokens; CacheCreationTokens := 0;
                  CacheCreation5m := 0; CacheCreation1h := 0;
                  InputTokens := totalInputTokens;
                  BreakpointHits := markShorter i (<[i := true]> (BreakpointHits miss)) |},
               lastHitTokens)
        | None => fold_left (creationStep minTokens) bps (miss, 0)
        end in
      remainingInput (fst st) bps totalInputTokens.
Proof.
  intros bps minTokens miss. unfold CheckCacheHits. fold bps. fold minTokens. fold miss.
  destruct (length bps =? 0)%nat; [reflexivity|].
  destruct (scanExact _ _ _ _ _ _ _ _); cbv zeta;
    destruct (fold_left _ _ _); reflexivity.
Qed.

(** Where the three figures do add up.  (a) In the resolution phase of
    [applyLocalCacheSimulation], when a fuzzy entry that is found stores a
    positive count, the cache-read, cache-creation and fresh-input figures
    (the last one including the tools tokens) add up to the local total, the
    5m and 1h buckets add up to the creation total, and nothing is
    negative.  (b) In [CheckCacheHits], whose total is the input total it is
    given, nothing is negative, and the three figures add up to that total
    when the last breakpoint clears the minimum threshold and does not
    exceed the total.  The two conditions are needed: a fuzzy entry of 0
    tokens and a last breakpoint below the threshold are the inputs on which
    the figures do not add up. *)
Lemma accounting_adds_up (E : Externals) range r req model totalInputTokens :
  (forall text model, 0 <= CountTextToken E text model) ->
  exactTotal E req model <= GoInt.max_int ->
  (forall res,
      resolveLocal E range r req model = Some res ->
      (forall f, GetFuzzyEntry E r model (CalculateSystemHash E range req model) = (f, true) ->
                 0 < f) ->
      let t := tally res in
      cacheReadTokens t + cacheCreateTokens t + nonCacheTokens res = localTotalTokens res
      /\ cacheCreate5m t + cacheCreate1h t = cacheCreateTokens t
      /\ 0 <= cacheReadTokens t /\ 0 <= cacheCreateTokens t /\ 0 <= nonCacheTokens res)
  /\ (0 <= totalInputTokens <= GoInt.max_int ->
      let result := CheckCacheHits E range r req model totalInputTokens in
      0 <= CacheReadTokens result /\ 0 <= CacheCreationTokens result
      /\ 0 <= InputTokens result
      /\ CacheCreation5m result + CacheCreation1h result = CacheCreationTokens result
      /\ (match last (ExtractCacheBreakpoints E req model) with
          | Some lastBp =>
              GetMinCacheableTokens model <= TokenCount lastBp <= totalInputTokens
          | None => True
          end ->
          CacheReadTokens result + CacheCreationTokens result + InputTokens result
          = totalInputTokens)).
Proof.
  intros Hnn Hfit.
  destruct (Extract_spec E req model Hnn Hfit) as (_ & Htools & Hmax & Hs & Hall).
  set (bps := ExtractCacheBreakpoints E req model) in *.
  set (C := totalTokens (walkRequest E req model) - toolsTokens (walkRequest E req model)) in *.
  assert (HC0 : 0 <= C) by (unfold C; lia).
  assert (HCmax : C <= GoInt.max_int) by (unfold C; lia).
  assert (Hmin : 0 < GetMinCacheableTokens model) by (rewrite GetMinCacheableTokens_eq; lia).
  split.
  - intros res Hres Hpos t.
    destruct (nonCacheTokens_exact E range r req model res Hnn Hfit Hres)
      as (Hto & _ & Hlast & Hn).
    destruct (resolveLocal_fields E range r req model res Hres) as (Ht & Hto' & _ & Htally & _).
    pose proof (finalTally_Balanced E range r req model (GetMinCacheableTokens model)
                  bps C Hmin HC0 HCmax Hs Hall Hpos) as Hb.
    fold bps in Htally. rewrite <- Htally in Hb. fold t in Hb, Hlast, Hn.
    destruct Hb as (Hr & H5 & H1 & Hsum & Hrc & HlC).
    rewrite Ht, Hto' in *. fold C in Hlast. lia.
  - intros Htot result. subst result. rewrite CheckCacheHits_eq. cbv zeta. fold bps.
    destruct (length bps =? 0)%nat eqn:Hlen.
    { apply Nat.eqb_eq in Hlen. destruct bps; [|discriminate]. simpl. lia. }
    set (miss := {| Hit := false |}).
    set (st := match scanExact _ _ _ _ _ _ _ _ with Some _ => _ | None => _ end).
    assert (Hst : Balanced C (tallyOf st)
                  /\ forall b, last bps = Some b ->
                               GetMinCacheableTokens model <= TokenCount b ->
                               snd st = TokenCount b).
    { subst st. destruct (scanExact _ _ _ _ _ _ _ _) as [i|] eqn:Hscan.
      - apply scanExact_Some in Hscan as (Hi & bp & Hbp & Hbmin & _).
        rewrite Hbp. simpl default.
        pose proof Hall as Hall'. rewrite Forall_forall in Hall'.
        assert (Hin : bp ∈ bps) by (eapply list_elem_of_lookup_2; exact Hbp).
        pose proof (Hall' bp Hin) as Hbnd.
        assert (Hdrop : StronglySorted le_TokenCount (drop (S i) bps)).
        { pose proof Hs as Hs'. rewrite <- (take_drop (S i) bps) in Hs'.
          apply StronglySorted_app in Hs'. tauto. }
        edestruct (creationStep_fold_Balanced (GetMinCacheableTokens model) C
                     (drop (S i) bps)) as (Hb & _ & Hl & Hnil);
          [exact HCmax | exact Hdrop | | | split; [exact Hb|]].
        + pose proof (sorted_after le_TokenCount bps i bp Hs Hbp) as Hafter.
          rewrite Forall_forall in *. intros b Hb. unfold le_TokenCount in Hafter.
          specialize (Hafter b Hb).
          assert (Hbin : b ∈ bps)
            by (rewrite <- (take_drop (S i) bps); apply elem_of_app; right; exact Hb).
          specialize (Hall' b Hbin). lia.
        + unfold Balanced, tallyOf. simpl. repeat split; lia.
        + intros b Hlast Hbm.
          destruct (drop (S i) bps) as [|d ds] eqn:Hd.
          * rewrite (Hnil eq_refl).
            apply drop_nil_inv in Hd. rewrite last_lookup in Hlast.
            replace (pred (length bps)) with i in Hlast by lia. congruence.
          * apply Hl; [|exact Hbm].
            rewrite <- (take_drop (S i) bps), Hd, last_app in Hlast.
            rewrite <- Hd in Hlast |- *.
            destruct (last (drop (S i) bps)) eqn:Hld; [exact Hlast|].
            apply last_None in Hld. rewrite Hd in Hld. discriminate.
      - edestruct (creationStep_fold_Balanced (GetMinCacheableTokens model) C bps)
          as (Hb & _ & Hl & _);
          [exact HCmax | exact Hs | | | split; [exact Hb | exact Hl]].
        + exact Hall.
        + unfold Balanced, tallyOf. simpl. repeat split; lia. }
    destruct Hst as ((Hr & H5 & H1 & Hsum & Hrc & HlC) & Hl).
    unfold tallyOf in *. simpl in *.
    unfold remainingInput.
    destruct (last bps) as [lastBp|] eqn:Hlast; simpl.
    + assert (Hin : lastBp ∈ bps) by (apply last_Some_elem_of; exact Hlast).
      rewrite Forall_forall in Hall. pose proof (Hall lastBp Hin) as Hbnd.
      rewrite sub_exact by int_range.
      split; [exact Hr|]. split; [lia|]. split.
      { destruct (totalInputTokens - TokenCount lastBp <? 0) eqn:Hneg;
          [lia | apply Z.ltb_ge in Hneg; lia]. }
      split; [exact Hsum|].
      intros (Hm & Hle). rewrite (Hl lastBp eq_refl Hm) in Hrc.
      destruct (totalInputTokens - TokenCount lastBp <? 0) eqn:Hneg;
        [apply Z.ltb_lt in Hneg; lia | lia].
    + apply last_None in Hlast. rewrite Hlast in Hlen. discriminate.
Qed.

(** ** Store disabled: the request is a full miss *)

(** C2, as the code has it.  With the store disabled no breakpoint is an
    exact or a fuzzy hit, so the cache-read tokens are zero and the request
    is resolved as a full miss.  The cache-creation tokens are zero and the
    usage record stays as the upstream reported it when no retained
    breakpoint reaches the minimum cacheable threshold; when one does, the
    creation tokens are the (positive) token count of the last breakpoint
    and they are written into the record. *)
Theorem store_disabled_is_full_miss (E : Externals) range r req model usage totalInputTokens :
  RedisEnabled r = false ->
  let bps := ExtractCacheBreakpoints E req model in
  let result := CheckCacheHits E range r req model totalInputTokens in
  let out := fst (applyLocalCacheSimulation E range r (Some req) model usage) in
  (Hit result = false /\ CacheReadTokens result = 0)
  /\ (forall res, resolveLocal E range r req model = Some res ->
                  exactHit (tally res) = false /\ cacheReadTokens (tally res) = 0)
  /\ (Forall (fun bp => TokenCount bp < GetMinCacheableTokens model) bps ->
      CacheCreationTokens result = 0
      /\ (forall res, resolveLocal E range r req model = Some res ->
                      cacheCreateTokens (tally res) = 0)
      /\ out = usage)
  /\ ((forall text model, 0 <= CountTextToken E text model) ->
      exactTotal E req model <= GoInt.max_int ->
      Exists (fun bp => GetMinCacheableTokens model <= TokenCount bp) bps ->
      forall res, resolveLocal E range r req model = Some res ->
        exists lastBp,
          last bps = Some lastBp
          /\ 0 < TokenCount lastBp
          /\ cacheCreateTokens (tally res) = TokenCount lastBp
          /\ dto.CachedCreationTokens (dto.PromptTokensDetails out) = TokenCount lastBp).
Proof.
  intros Hd bps result out.
  assert (Htally : forall res, resolveLocal E range r req model = Some res ->
            tally res = fst (phaseMiss E range req model (GetMinCacheableTokens model) bps
                               tallyZero)).
  { intros res Hres.
    destruct (resolveLocal_fields E range r req model res Hres) as (_ & _ & _ & -> & _).
    unfold finalTally. rewrite phaseExact_disabled, phaseFuzzy_disabled by exact Hd.
    reflexivity. }
  assert (Hread : forall res, resolveLocal E range r req model = Some res ->
            exactHit (tally res) = false /\ cacheReadTokens (tally res) = 0).
  { intros res Hres. rewrite (Htally res Hres). split.
    - unfold phaseMiss. simpl. destruct (0 <? length bps)%nat; [|reflexivity].
      pose proof (missStep_read (GetMinCacheableTokens model) bps tallyZero 0) as (_ & He).
      destruct (fold_left _ _ _) as [t' prev']. simpl in He. destruct bps; exact He.
    - rewrite phaseMiss_read. reflexivity. }
  split; [|split; [exact Hread|split]].
  - subst result. unfold CheckCacheHits. fold bps.
    destruct (length bps =? 0)%nat; [split; reflexivity|].
    rewrite scanExact_disabled by exact Hd.
    match goal with
    | |- context [fold_left ?f ?l (?res, ?z)] =>
        pose proof (creationStep_frame (GetMinCacheableTokens model) l res z) as Hf;
        destruct (fold_left f l (res, z)) as [result' last']
    end.
    simpl in Hf. destruct Hf as (_ & Hh & Hr & _).
    destruct (remainingInput_frame result' bps totalInputTokens) as (_ & -> & -> & _).
    auto.
  - intros Hb. split; [|split].
    + subst result. unfold CheckCacheHits. fold bps.
      destruct (length bps =? 0)%nat; [reflexivity|].
      rewrite scanExact_disabled by exact Hd.
      rewrite creationStep_below by exact Hb.
      match goal with
      | |- CacheCreationTokens (remainingInput ?res _ _) = _ =>
          destruct (remainingInput_frame res bps totalInputTokens) as (_ & _ & _ & ->)
      end.
      reflexivity.
    + intros res Hres. rewrite (Htally res Hres), phaseMiss_below by exact Hb. reflexivity.
    + subst out. unfold applyLocalCacheSimulation.
      destruct (resolveLocal E range r req model) as [res|] eqn:Hres; [|reflexivity].
      destruct (Hread res eq_refl) as (_ & ->).
      rewrite (Htally res eq_refl), phaseMiss_below by exact Hb. reflexivity.
  - intros Hnn Hfit Hex res Hres.
    destruct (Extract_spec E req model Hnn Hfit) as (_ & Htools & Hmax & Hs & Hall).
    fold bps in Hs, Hall.
    apply Exists_exists in Hex as (bp & Hbp & Hmin).
    destruct (last bps) as [lastBp|] eqn:Hlast;
      [|apply last_None in Hlast; rewrite Hlast in Hbp; inversion Hbp].
    assert (Hge : GetMinCacheableTokens model <= TokenCount lastBp).
    { destruct (sorted_last le_TokenCount bps bp lastBp Hs Hbp Hlast) as [<- | Hle];
        [exact Hmin | unfold le_TokenCount in Hle; lia]. }
    pose proof (GetMinCacheableTokens_eq model) as H5.
    set (C := totalTokens (walkRequest E req model) - toolsTokens (walkRequest E req model)) in *.
    destruct (phaseMiss_zero E range req model (GetMinCacheableTokens model) bps C
                ltac:(lia) ltac:(lia) Hs Hall) as ((_ & _ & _ & _ & Hrc & _) & Hr0 & _).
    pose proof (phaseMiss_zero_last E range req model (GetMinCacheableTokens model) bps
                  lastBp Hlast Hge) as Hl.
    rewrite <- (Htally res Hres) in Hrc, Hr0, Hl.
    exists lastBp. split; [reflexivity|]. split; [lia|]. split; [lia|].
    subst out. unfold applyLocalCacheSimulation. rewrite Hres.
    destruct ((cacheReadTokens (tally res) =? 0) && (cacheCreateTokens (tally res) =? 0)) eqn:Hz.
    + apply andb_true_iff in Hz as (_ & Hz). apply Z.eqb_eq in Hz. lia.
    + simpl. lia.
Qed.

(** * The properties on the concrete environment *)

Lemma Sample_tokens_nonneg : forall text model, 0 <= CountTextToken Sample.env text model.
Proof. intros text model. simpl. lia. Qed.

Lemma ExtractCacheBreakpoints_monotone_first_four_witness :
  (forall text model, 0 <= CountTextToken Sample.env text model)
  /\ exactTotal Sample.env Sample.reqFive Sample.model <= GoInt.max_int
  /\ let candidates := breakpoints (walkRequest Sample.env Sample.reqFive Sample.model) in
     let bps := ExtractCacheBreakpoints Sample.env Sample.reqFive Sample.model in
     StronglySorted le_TokenCount bps
     /\ StronglySorted docBefore candidates
     /\ (length bps <= 4)%nat
     /\ bps = take 4 candidates
     /\ ((4 < length candidates)%nat -> length bps = 4%nat).
Proof.
  assert (Hnn : forall text model, 0 <= CountTextToken Sample.env text model)
    by (intros text model; simpl; lia).
  assert (Hfit : exactTotal Sample.env Sample.reqFive Sample.model <= GoInt.max_int)
    by (vm_compute; discriminate).
  split; [exact Hnn|]. split; [exact Hfit|].
  exact (ExtractCacheBreakpoints_monotone_first_four
           Sample.env Sample.reqFive Sample.model Hnn Hfit).
Defined.

(** Five candidates, the first four kept. *)
Example reqFive_breakpoints :
  map TokenCount (breakpoints (walkRequest Sample.env Sample.reqFive Sample.model))
  = [7; 10; 12; 20; 22]
  /\ map TokenCount (ExtractCacheBreakpoints Sample.env Sample.reqFive Sample.model)
     = [7; 10; 12; 20].
Proof. split; vm_compute; reflexivity. Qed.

Lemma CalculatePrefixHash_deterministic_witness :
  ValidOrder Sample.range
  /\ ValidOrder Sample.reversed
  /\ CalculatePrefixHash Sample.env Sample.range Sample.prefix1 Sample.model
     = CalculatePrefixHash Sample.env Sample.reversed Sample.prefix1 Sample.model.
Proof.
  assert (H1 : ValidOrder Sample.range) by (intros m; reflexivity).
  assert (H2 : ValidOrder Sample.reversed)
    by (intros m; unfold Sample.reversed; apply reverse_Permutation).
  split; [exact H1|]. split; [exact H2|].
  exact (CalculatePrefixHash_deterministic Sample.env Sample.range Sample.reversed
           Sample.prefix1 Sample.prefix1 Sample.model Sample.model H1 H2 eq_refl eq_refl).
Defined.

(** Without the sort the two enumerations would give two encodings. *)
Example enumeration_order_shows_without_sort :
  let data : gmap string GoValue :=
    <["tools" := VRawList ["t"]]> {[ "model" := VString "m" ]} in
  json_Marshal_entries Sample.env (Sample.range data)
  <> json_Marshal_entries Sample.env (Sample.reversed data)
  /\ json_Marshal_map Sample.env Sample.range data
     = json_Marshal_map Sample.env Sample.reversed data.
Proof. split; [vm_compute; discriminate | vm_compute; reflexivity]. Qed.

(** C4 as the spec states it fails: the class ["30m"] is not ["5m"], and
    its entry expires after five minutes, not after one hour. *)
Lemma ttl_30m_expires_after_five_minutes :
  let r := StoreFuzzyEntry Sample.env Sample.range Sample.empty "m" "h" 10 "30m" in
  "30m" <> "5m"
  /\ item_expiry <$> (RDB r !! GetFuzzyCacheKey "m" "h") = Some (5 * Minute)
  /\ 5 * Minute <> 1 * Hour.
Proof. split; [discriminate|]. split; [vm_compute; reflexivity | vm_compute; discriminate]. Qed.

Lemma ttl_class_expiry_witness :
  RedisEnabled Sample.empty = true
  /\ "h" <> ""
  /\ item_expiry <$> (RDB (StoreFuzzyEntry Sample.env Sample.range Sample.empty "m" "h" 10 "1h")
                        !! GetFuzzyCacheKey "m" "h")
     = Some (1 * Hour).
Proof.
  assert (Hen : RedisEnabled Sample.empty = true) by reflexivity.
  assert (Hh : "h" <> "") by discriminate.
  split; [exact Hen|]. split; [exact Hh|].
  exact (proj1 (ttl_class_expiry Sample.env Sample.range Sample.empty Hen) "m" "h" 10 "1h" Hh).
Defined.

Lemma cache_control_annotations_witness :
  (0 < String.length Sample.ephemeral)%nat
  /\ json_Unmarshal_CacheControl Sample.env Sample.ephemeral
     = Some {| cc_Type := "ephemeral"; cc_TTL := "" |}
  /\ List.find annotated (dto.ParseContent (Sample.user [Sample.text "a"; Sample.marked "b" Sample.ephemeral]))
     = Some (Sample.marked "b" Sample.ephemeral)
  /\ extractCacheControlTTLFromRaw Sample.env Sample.ephemeral = "5m"
  /\ exists bp,
       breakpoints (messageLoop Sample.env Sample.model 0
                      [Sample.user [Sample.text "a"; Sample.marked "b" Sample.ephemeral]]
                      (walkRequest Sample.env Sample.reqShort Sample.model))
       = breakpoints (walkRequest Sample.env Sample.reqShort Sample.model) ++ [bp]
       /\ TTL bp = "5m".
Proof.
  assert (Hlen : (0 < String.length Sample.ephemeral)%nat) by (vm_compute; lia).
  assert (Hdec : json_Unmarshal_CacheControl Sample.env Sample.ephemeral
                 = Some {| cc_Type := "ephemeral"; cc_TTL := "" |}) by reflexivity.
  assert (Hfind : List.find annotated
                    (dto.ParseContent (Sample.user [Sample.text "a";
                                                    Sample.marked "b" Sample.ephemeral]))
                  = Some (Sample.marked "b" Sample.ephemeral)) by reflexivity.
  split; [exact Hlen|]. split; [exact Hdec|]. split; [exact Hfind|].
  pose proof (proj1 (cache_control_annotations Sample.env)
                Sample.ephemeral _ Hlen Hdec eq_refl eq_refl) as (H5m & _ & Hmsg).
  split; [exact H5m|].
  exact (Hmsg Sample.model 0%nat _ _ (walkRequest Sample.env Sample.reqShort Sample.model)
           Hfind eq_refl).
Defined.

(** The first annotated block of a message decides alone. *)
Example first_annotated_block_decides :
  extractCacheControlFromMessage Sample.env Sample.mixed = ""
  /\ breakpoints (messageLoop Sample.env Sample.model 0 [Sample.mixed]
                    (walkRequest Sample.env Sample.reqShort Sample.model))
     = breakpoints (walkRequest Sample.env Sample.reqShort Sample.model).
Proof. split; vm_compute; reflexivity. Qed.

Lemma CheckCacheHits_hits_downward_closed_witness :
  (0 < 1)%nat
  /\ BreakpointHits (CheckCacheHits Sample.env Sample.range Sample.seeded Sample.req1
                       Sample.model 33) !! 1%nat = Some true
  /\ BreakpointHits (CheckCacheHits Sample.env Sample.range Sample.seeded Sample.req1
                       Sample.model 33) !! 0%nat = Some true.
Proof.
  assert (Hlt : (0 < 1)%nat) by lia.
  assert (Hi : BreakpointHits (CheckCacheHits Sample.env Sample.range Sample.seeded
                                 Sample.req1 Sample.model 33) !! 1%nat = Some true)
    by (vm_compute; reflexivity).
  split; [exact Hlt|]. split; [exact Hi|].
  exact (CheckCacheHits_hits_downward_closed Sample.env Sample.range Sample.seeded
           Sample.req1 Sample.model 33 1%nat 0%nat Hlt Hi).
Defined.

Lemma applyLocalCacheSimulation_prompt_tokens_witness :
  (exists res,
     resolveLocal Sample.env Sample.range Sample.empty Sample.req1 Sample.model = Some res
     /\ let out := fst (applyLocalCacheSimulation Sample.env Sample.range Sample.empty
                          (Some Sample.req1) Sample.model Sample.usage0) in
        0 <= nonCacheTokens res
        /\ (dto.PromptTokens out = dto.PromptTokens Sample.usage0
            \/ (dto.PromptTokens out = nonCacheTokens res /\ 0 < nonCacheTokens res)))
  /\ (exists res,
       resolveLocal Sample.env Sample.range Sample.afterFirst Sample.reqFirst Sample.model
       = Some res
       /\ nonCacheTokens res = 0
       /\ dto.PromptTokens
            (fst (applyLocalCacheSimulation Sample.env Sample.range Sample.afterFirst
                    (Some Sample.reqFirst) Sample.model Sample.usage0))
          = dto.PromptTokens Sample.usage0).
Proof.
  assert (Hn : nonCacheTokens <$> resolveLocal Sample.env Sample.range Sample.afterFirst
                                    Sample.reqFirst Sample.model
               = Some 0) by (vm_compute; reflexivity).
  split.
  - destruct (resolveLocal Sample.env Sample.range Sample.empty Sample.req1 Sample.model)
      as [res|] eqn:Hres; [|vm_compute in Hres; discriminate].
    exists res. split; [reflexivity|].
    destruct (proj2 (proj2 (proj2
                (applyLocalCacheSimulation_prompt_tokens Sample.env Sample.range Sample.empty
                   (Some Sample.req1) Sample.model Sample.usage0)))
                Sample.req1 res eq_refl Hres) as (H1 & H2 & _).
    split; [exact H1 | exact H2].
  - destruct (resolveLocal Sample.env Sample.range Sample.afterFirst Sample.reqFirst
                Sample.model) as [res|] eqn:Hres; [|discriminate Hn].
    injection Hn as Hn.
    exists res. split; [reflexivity|]. split; [exact Hn|].
    destruct (proj2 (proj2 (proj2
                (applyLocalCacheSimulation_prompt_tokens Sample.env Sample.range
                   Sample.afterFirst (Some Sample.reqFirst) Sample.model Sample.usage0)))
                Sample.reqFirst res eq_refl Hres) as (_ & _ & H3).
    exact (H3 Hn).
Defined.

(** A fully cached request keeps the upstream prompt tokens. *)
Example fully_cached_keeps_upstream :
  let r := StoreCacheBreakpoints Sample.env Sample.range Sample.empty 1000
             Sample.reqSystem Sample.model in
  nonCacheTokens <$> resolveLocal Sample.env Sample.range r Sample.reqSystem Sample.model
  = Some 0
  /\ fst (applyLocalCacheSimulation Sample.env Sample.range r (Some Sample.reqSystem)
            Sample.model Sample.usage0)
     = {| dto.PromptTokens := 100; dto.CompletionTokens := 7; dto.TotalTokens := 107;
          dto.PromptTokensDetails := {| dto.CachedTokens := 11; dto.CachedCreationTokens := 0 |};
          dto.ClaudeCacheCreation5mTokens := 0; dto.ClaudeCacheCreation1hTokens := 0 |}.
Proof. split; vm_compute; reflexivity. Qed.

(** C2 as the spec states it fails: with the store disabled, a request
    whose breakpoints clear the threshold is resolved as a full miss, its
    creation tokens are credited and the usage record is overwritten. *)
Lemma store_disabled_credits_creation :
  let out := fst (applyLocalCacheSimulation Sample.env Sample.range Sample.disabled
                    (Some Sample.req1) Sample.model Sample.usage0) in
  RedisEnabled Sample.disabled = false
  /\ (cacheCreateTokens <$> (tally <$> resolveLocal Sample.env Sample.range Sample.disabled
                                         Sample.req1 Sample.model)) = Some 27
  /\ CacheCreationTokens (CheckCacheHits Sample.env Sample.range Sample.disabled
                            Sample.req1 Sample.model 33) = 27
  /\ dto.CachedCreationTokens (dto.PromptTokensDetails out) = 27
  /\ dto.PromptTokens out = 6
  /\ out <> Sample.usage0.
Proof. repeat split; try (vm_compute; reflexivity). vm_compute. discriminate. Qed.

Lemma store_disabled_is_full_miss_witness :
  RedisEnabled Sample.disabled = false
  /\ (let result := CheckCacheHits Sample.env Sample.range Sample.disabled Sample.reqShort
                      Sample.model 4 in
      let out := fst (applyLocalCacheSimulation Sample.env Sample.range Sample.disabled
                        (Some Sample.reqShort) Sample.model Sample.usage0) in
      Forall (fun bp => TokenCount bp < GetMinCacheableTokens Sample.model)
             (ExtractCacheBreakpoints Sample.env Sample.reqShort Sample.model)
      /\ (Hit result = false /\ CacheReadTokens result = 0)
      /\ CacheCreationTokens result = 0
      /\ out = Sample.usage0)
  /\ (let out := fst (applyLocalCacheSimulation Sample.env Sample.range Sample.disabled
                        (Some Sample.req1) Sample.model Sample.usage0) in
      (forall text model, 0 <= CountTextToken Sample.env text model)
      /\ exactTotal Sample.env Sample.req1 Sample.model <= GoInt.max_int
      /\ Exists (fun bp => GetMinCacheableTokens Sample.model <= TokenCount bp)
                (ExtractCacheBreakpoints Sample.env Sample.req1 Sample.model)
      /\ exists res lastBp,
          resolveLocal Sample.env Sample.range Sample.disabled Sample.req1 Sample.model
          = Some res
          /\ last (ExtractCacheBreakpoints Sample.env Sample.req1 Sample.model) = Some lastBp
          /\ 0 < TokenCount lastBp
          /\ cacheCreateTokens (tally res) = TokenCount lastBp
          /\ dto.CachedCreationTokens (dto.PromptTokensDetails out) = TokenCount lastBp).
Proof.
  assert (Hd : RedisEnabled Sample.disabled = false) by reflexivity.
  assert (Hbelow : Forall (fun bp => TokenCount bp < GetMinCacheableTokens Sample.model)
                          (ExtractCacheBreakpoints Sample.env Sample.reqShort Sample.model))
    by (apply (bool_decide_unpack _); vm_compute; exact I).
  assert (Hnn : forall text model, 0 <= CountTextToken Sample.env text model)
    by (intros text model; simpl; lia).
  assert (Hfit : exactTotal Sample.env Sample.req1 Sample.model <= GoInt.max_int)
    by (vm_compute; discriminate).
  assert (Habove : Exists (fun bp => GetMinCacheableTokens Sample.model <= TokenCount bp)
                          (ExtractCacheBreakpoints Sample.env Sample.req1 Sample.model))
    by (apply (bool_decide_unpack _); vm_compute; exact I).
  split; [exact Hd|]. split.
  - pose proof (store_disabled_is_full_miss Sample.env Sample.range Sample.disabled
                  Sample.reqShort Sample.model Sample.usage0 4 Hd) as (H1 & _ & H3 & _).
    destruct (H3 Hbelow) as (Hc & _ & Hout).
    split; [exact Hbelow|]. split; [exact H1|]. split; [exact Hc | exact Hout].
  - split; [exact Hnn|]. split; [exact Hfit|]. split; [exact Habove|].
    destruct (resolveLocal Sample.env Sample.range Sample.disabled Sample.req1 Sample.model)
      as [res|] eqn:Hres; [|vm_compute in Hres; discriminate].
    pose proof (store_disabled_is_full_miss Sample.env Sample.range Sample.disabled
                  Sample.req1 Sample.model Sample.usage0 33 Hd) as (_ & _ & _ & H4).
    destruct (H4 Hnn Hfit Habove res Hres) as (lastBp & Hlast & Hpos & Hc & Hout).
    exists res, lastBp. split; [reflexivity|].
    split; [exact Hlast|]. split; [exact Hpos|]. split; [exact Hc | exact Hout].
Defined.



Lemma fuzzy_read_bound_witness :
  (forall text model, 0 <= CountTextToken Sample.env text model)
  /\ exactTotal Sample.env Sample.req1 Sample.model <= GoInt.max_int
  /\ Forall (fun bp => exactEntryFound Sample.env Sample.range (Sample.fuzzyOnly 7)
                         Sample.req1 Sample.model bp = false)
            (ExtractCacheBreakpoints Sample.env Sample.req1 Sample.model)
  /\ GetFuzzyEntry Sample.env (Sample.fuzzyOnly 7) Sample.model
       (CalculateSystemHash Sample.env Sample.range Sample.req1 Sample.model) = (7, true)
  /\ 0 <= 7
  /\ ExtractCacheBreakpoints Sample.env Sample.req1 Sample.model
     = Sample.bp1 :: [Sample.bp2]
  /\ exists res,
      resolveLocal Sample.env Sample.range (Sample.fuzzyOnly 7) Sample.req1 Sample.model
      = Some res
      /\ let out := fst (applyLocalCacheSimulation Sample.env Sample.range (Sample.fuzzyOnly 7)
                           (Some Sample.req1) Sample.model Sample.usage0) in
         cacheReadTokens (tally res) <= Z.min 7 (TokenCount Sample.bp1)
         /\ (out = Sample.usage0
             \/ dto.CachedTokens (dto.PromptTokensDetails out)
                <= Z.min 7 (TokenCount Sample.bp1)).
Proof.
  assert (Hnn : forall text model, 0 <= CountTextToken Sample.env text model)
    by (intros text model; simpl; lia).
  assert (Hfit : exactTotal Sample.env Sample.req1 Sample.model <= GoInt.max_int)
    by (vm_compute; discriminate).
  assert (Hbps : ExtractCacheBreakpoints Sample.env Sample.req1 Sample.model
                 = Sample.bp1 :: [Sample.bp2]) by (vm_compute; reflexivity).
  assert (Hno : Forall (fun bp => exactEntryFound Sample.env Sample.range (Sample.fuzzyOnly 7)
                                    Sample.req1 Sample.model bp = false)
                       (ExtractCacheBreakpoints Sample.env Sample.req1 Sample.model)).
  { rewrite Hbps. repeat constructor; vm_compute; reflexivity. }
  assert (Hf : GetFuzzyEntry Sample.env (Sample.fuzzyOnly 7) Sample.model
                 (CalculateSystemHash Sample.env Sample.range Sample.req1 Sample.model)
               = (7, true)) by (vm_compute; reflexivity).
  assert (H7 : 0 <= 7) by lia.
  split; [exact Hnn|]. split; [exact Hfit|]. split; [exact Hno|]. split; [exact Hf|].
  split; [exact H7|]. split; [exact Hbps|].
  destruct (resolveLocal Sample.env Sample.range (Sample.fuzzyOnly 7) Sample.req1 Sample.model)
    as [res|] eqn:Hres; [|vm_compute in Hres; discriminate].
  exists res. split; [reflexivity|].
  exact (fuzzy_read_bound Sample.env Sample.range (Sample.fuzzyOnly 7) Sample.req1
           Sample.model Sample.usage0 res 7 Sample.bp1 [Sample.bp2]
           Hnn Hfit Hres Hno Hf H7 Hbps).
Defined.

(** The fuzzy hit on the concrete store: 7 tokens read, the rest of the
    first breakpoint (4) and the second one (16) created. *)
Example fuzzy_hit_tally :
  tally <$> resolveLocal Sample.env Sample.range (Sample.fuzzyOnly 7) Sample.req1 Sample.model
  = Some {| cacheReadTokens := 7; cacheCreateTokens := 20; cacheCreate5m := 4;
            cacheCreate1h := 16; lastCacheTokens := 27; exactHit := false |}.
Proof. vm_compute. reflexivity. Qed.

(** C1 (no double counting), at the inputs where the code breaks it.

    (a) The reconciler counts creation twice after a fuzzy hit that reads
    nothing.  [Sample.reqImage] is served on an empty store: its first
    breakpoint stands at 0 tokens, nothing is read or created, and the
    goroutine that the call starts stores a fuzzy entry of 0 tokens for the
    system prompt.  [Sample.reqAfterImage], with the same system prompt, one
    breakpoint at 11 tokens and a local total of 11, then finds that entry:
    the fuzzy phase reads 0 tokens and creates 11, and the miss phase, whose
    test is [cacheReadTokens == 0], creates the same 11 again.  Read,
    creation and fresh input are 0, 22 and 0, and 22 creation tokens are
    written to the usage record.  [CheckCacheHits], which has no fuzzy
    phase, creates 11 on the same store and request.

    (b) [CheckCacheHits] takes the last breakpoint off the input tokens even
    when it is below the threshold and credited to no bucket: on
    [Sample.reqShort], 4 tokens with one breakpoint at 4, read, creation and
    input are all 0 for a total of 4, where the reconciler keeps the 4
    tokens as fresh input. *)
Theorem accounting_counts_creation_twice :
  let E := Sample.envOmit in
  let first := applyLocalCacheSimulation E Sample.range Sample.empty (Some Sample.reqImage)
                 Sample.model Sample.usage0 in
  let again := applyLocalCacheSimulation E Sample.range Sample.afterImage
                 (Some Sample.reqAfterImage) Sample.model Sample.usage0 in
  let check := CheckCacheHits E Sample.range Sample.afterImage Sample.reqAfterImage
                 Sample.model 11 in
  let short := CheckCacheHits Sample.env Sample.range Sample.empty Sample.reqShort
                 Sample.model 4 in
  (map TokenCount (ExtractCacheBreakpoints E Sample.reqImage Sample.model) = [0]
   /\ fst first = Sample.usage0
   /\ snd first
      = [GoStoreFuzzyEntry Sample.model
           (CalculateSystemHash E Sample.range Sample.reqImage Sample.model) 0 "5m"]
   /\ Sample.afterImage = fold_left (runTask E Sample.range 1000) (snd first) Sample.empty
   /\ GetFuzzyEntry E Sample.afterImage Sample.model
        (CalculateSystemHash E Sample.range Sample.reqAfterImage Sample.model) = (0, true)
   /\ (exists res,
         resolveLocal E Sample.range Sample.afterImage Sample.reqAfterImage Sample.model
         = Some res
         /\ localTotalTokens res = 11
         /\ map TokenCount (resBreakpoints res) = [11]
         /\ (cacheReadTokens (tally res), cacheCreateTokens (tally res), nonCacheTokens res)
            = (0, 22, 0)
         /\ cacheReadTokens (tally res) + cacheCreateTokens (tally res) + nonCacheTokens res
            <> localTotalTokens res)
   /\ dto.CachedCreationTokens (dto.PromptTokensDetails (fst again)) = 22
   /\ dto.ClaudeCacheCreation5mTokens (fst again) = 22
   /\ (CacheReadTokens check, CacheCreationTokens check, InputTokens check) = (0, 11, 0))
  /\ (totalTokens (walkRequest Sample.env Sample.reqShort Sample.model) = 4
      /\ map TokenCount (ExtractCacheBreakpoints Sample.env Sample.reqShort Sample.model) = [4]
      /\ (CacheReadTokens short, CacheCreationTokens short, InputTokens short) = (0, 0, 0)
      /\ CacheReadTokens short + CacheCreationTokens short + InputTokens short <> 4
      /\ exists res,
           resolveLocal Sample.env Sample.range Sample.empty Sample.reqShort Sample.model
           = Some res
           /\ (cacheReadTokens (tally res), cacheCreateTokens (tally res), nonCacheTokens res)
              = (0, 0, 4)).
Proof.
  cbv zeta. split.
  - split; [vm_compute; reflexivity|]. split; [vm_compute; reflexivity|].
    split; [vm_compute; reflexivity|]. split; [reflexivity|].
    split; [vm_compute; reflexivity|]. split.
    + destruct (resolveLocal Sample.envOmit Sample.range Sample.afterImage
                  Sample.reqAfterImage Sample.model) as [res|] eqn:Hres;
        [|vm_compute in Hres; discriminate].
      exists res. split; [reflexivity|].
      vm_compute in Hres. injection Hres as <-.
      repeat split; try (vm_compute; reflexivity). vm_compute. discriminate.
    + repeat split; vm_compute; reflexivity.
  - split; [vm_compute; reflexivity|]. split; [vm_compute; reflexivity|].
    split; [vm_compute; reflexivity|]. split; [vm_compute; discriminate|].
    destruct (resolveLocal Sample.env Sample.range Sample.empty Sample.reqShort Sample.model)
      as [res|] eqn:Hres; [|vm_compute in Hres; discriminate].
    exists res. split; [reflexivity|].
    vm_compute in Hres. injection Hres as <-. reflexivity.
Qed.

(** An input total below the last breakpoint: [CheckCacheHits] floors the
    input tokens at zero and the three figures add up to the token count of
    the breakpoint. *)
Example input_total_below_last_breakpoint :
  let floored := CheckCacheHits Sample.env Sample.range Sample.empty Sample.req1
                   Sample.model 20 in
  (CacheReadTokens floored, CacheCreationTokens floored, InputTokens floored) = (0, 27, 0).
Proof. vm_compute. reflexivity. Qed.

(** The lemma on the first sample request, with a fuzzy entry of 7 tokens. *)
Lemma accounting_adds_up_sample :
  (forall text model, 0 <= CountTextToken Sample.env text model)
  /\ exactTotal Sample.env Sample.req1 Sample.model <= GoInt.max_int
  /\ (exists res,
        resolveLocal Sample.env Sample.range (Sample.fuzzyOnly 7) Sample.req1 Sample.model
        = Some res
        /\ (forall f,
               GetFuzzyEntry Sample.env (Sample.fuzzyOnly 7) Sample.model
                 (CalculateSystemHash Sample.env Sample.range Sample.req1 Sample.model)
               = (f, true) -> 0 < f)
        /\ cacheReadTokens (tally res) + cacheCreateTokens (tally res) + nonCacheTokens res
           = localTotalTokens res)
  /\ (let result := CheckCacheHits Sample.env Sample.range (Sample.fuzzyOnly 7) Sample.req1
                      Sample.model 33 in
      0 <= 33 <= GoInt.max_int
      /\ last (ExtractCacheBreakpoints Sample.env Sample.req1 Sample.model) = Some Sample.bp2
      /\ GetMinCacheableTokens Sample.model <= TokenCount Sample.bp2 <= 33
      /\ CacheReadTokens result + CacheCreationTokens result + InputTokens result = 33).
Proof.
  assert (Hnn : forall text model, 0 <= CountTextToken Sample.env text model)
    by (intros text model; simpl; lia).
  assert (Hfit : exactTotal Sample.env Sample.req1 Sample.model <= GoInt.max_int)
    by (vm_compute; discriminate).
  assert (Hpos : forall f,
             GetFuzzyEntry Sample.env (Sample.fuzzyOnly 7) Sample.model
               (CalculateSystemHash Sample.env Sample.range Sample.req1 Sample.model)
             = (f, true) -> 0 < f).
  { intros f Hf. vm_compute in Hf. injection Hf as <-. lia. }
  assert (Htot : 0 <= 33 <= GoInt.max_int) by (split; vm_compute; discriminate).
  assert (Hlast : last (ExtractCacheBreakpoints Sample.env Sample.req1 Sample.model)
                  = Some Sample.bp2) by (vm_compute; reflexivity).
  assert (Hb : GetMinCacheableTokens Sample.model <= TokenCount Sample.bp2 <= 33)
    by (split; vm_compute; discriminate).
  pose proof (accounting_adds_up Sample.env Sample.range (Sample.fuzzyOnly 7)
                Sample.req1 Sample.model 33 Hnn Hfit) as (Ha & Hb').
  split; [exact Hnn|]. split; [exact Hfit|]. split.
  - destruct (resolveLocal Sample.env Sample.range (Sample.fuzzyOnly 7) Sample.req1
                Sample.model) as [res|] eqn:Hres; [|vm_compute in Hres; discriminate].
    exists res. split; [reflexivity|]. split; [exact Hpos|].
    exact (proj1 (Ha res eq_refl Hpos)).
  - split; [exact Htot|]. split; [exact Hlast|]. split; [exact Hb|].
    destruct (Hb' Htot) as (_ & _ & _ & _ & Hsum).
    apply Hsum. rewrite Hlast. exact Hb.
Defined.

(** A fuzzy entry of 0 tokens on the first sample request: 54 tokens are
    created for a cacheable total of 27. *)
Example fuzzy_zero_tally :
  tally <$> resolveLocal Sample.env Sample.range (Sample.fuzzyOnly 0) Sample.req1 Sample.model
  = Some {| cacheReadTokens := 0; cacheCreateTokens := 54; cacheCreate5m := 22;
            cacheCreate1h := 32; lastCacheTokens := 27; exactHit := false |}.
Proof. vm_compute. reflexivity. Qed.

(** ** The scenarios of a first request, its repeat and a fuzzy hit *)

(** First request, nothing stored: two breakpoints at 50 and 80 tokens, no
    read, 50 and 30 tokens created in the 5m bucket, a fuzzy entry scheduled
    for the first breakpoint, and two exact entries written afterwards. *)
Example scenario_first_request :
  map TokenCount (ExtractCacheBreakpoints Sample.env Sample.reqFirst Sample.model) = [50; 80]
  /\ tally <$> resolveLocal Sample.env Sample.range Sample.empty Sample.reqFirst Sample.model
     = Some {| cacheReadTokens := 0; cacheCreateTokens := 80; cacheCreate5m := 80;
               cacheCreate1h := 0; lastCacheTokens := 80; exactHit := false |}
  /\ scheduled <$> resolveLocal Sample.env Sample.range Sample.empty Sample.reqFirst Sample.model
     = Some [GoStoreFuzzyEntry Sample.model
               (CalculateSystemHash Sample.env Sample.range Sample.reqFirst Sample.model)
               50 "5m"]
  /\ size (RDB Sample.afterFirst) = 2%nat.
Proof. repeat split; vm_compute; reflexivity. Qed.

(** The same request again: the longest breakpoint is an exact hit, nothing
    is created, and the fresh input is what follows the 80 tokens. *)
Example scenario_repeat :
  CheckCacheHits Sample.env Sample.range Sample.afterFirst Sample.reqFirst Sample.model 80
  = {| Hit := true; CacheReadTokens := 80; CacheCreationTokens := 0; CacheCreation5m := 0;
       CacheCreation1h := 0; InputTokens := 0; BreakpointHits := [true; true] |}
  /\ tally <$> resolveLocal Sample.env Sample.range Sample.afterFirst Sample.reqFirst
                 Sample.model
     = Some {| cacheReadTokens := 80; cacheCreateTokens := 0; cacheCreate5m := 0;
               cacheCreate1h := 0; lastCacheTokens := 80; exactHit := true |}
  /\ nonCacheTokens <$> resolveLocal Sample.env Sample.range Sample.afterFirst Sample.reqFirst
                          Sample.model
     = Some (80 - 80).
Proof. repeat split; vm_compute; reflexivity. Qed.

(** The same system prompt with another message, only the fuzzy entry in
    the store: the read is bounded by the 50 tokens of the system prompt and
    the 25 tokens of the new message are a creation. *)
Example scenario_fuzzy_hit :
  map TokenCount (ExtractCacheBreakpoints Sample.env Sample.reqOther Sample.model) = [50; 75]
  /\ tally <$> resolveLocal Sample.env Sample.range Sample.fuzzyAfterFirst Sample.reqOther
                 Sample.model
     = Some {| cacheReadTokens := 50; cacheCreateTokens := 25; cacheCreate5m := 25;
               cacheCreate1h := 0; lastCacheTokens := 75; exactHit := false |}.
Proof. repeat split; vm_compute; reflexivity. Qed.

(** * The fingerprint store client *)

(** ** Keys *)

Lemma GetCacheKey_not_fuzzy model hash model' systemHash :
  GetCacheKey model hash <> GetFuzzyCacheKey model' systemHash.
Proof. unfold GetCacheKey, GetFuzzyCacheKey. simpl. discriminate. Qed.

Lemma noColon_app a b : noColon (a +:+ String ":" b) = false.
Proof.
  unfold noColon. induction a as [|c a IH]; simpl; [reflexivity|].
  rewrite IH. apply andb_false_r.
Qed.

Lemma app_colon_inj m1 : forall m2 h1 h2,
  noColon h1 = true -> noColon h2 = true ->
  m1 +:+ String ":" h1 = m2 +:+ String ":" h2 -> m1 = m2 /\ h1 = h2.
Proof.
  induction m1 as [|c m1 IH]; intros [|c2 m2] h1 h2 H1 H2; simpl; intros Heq.
  - injection Heq as ->. auto.
  - injection Heq as <- ->. rewrite noColon_app in H1. discriminate.
  - injection Heq as -> <-. rewrite noColon_app in H2. discriminate.
  - injection Heq as -> Heq. destruct (IH m2 h1 h2 H1 H2 Heq) as (-> & ->). auto.
Qed.

(** X1.  Two keys of the same kind are equal only for the same model and the
    same digest, as long as the digests hold no colon (a hexadecimal digest
    holds none). *)
Theorem cache_keys_injective model1 hash1 model2 hash2 :
  noColon hash1 = true -> noColon hash2 = true ->
  (GetCacheKey model1 hash1 = GetCacheKey model2 hash2 -> model1 = model2 /\ hash1 = hash2)
  /\ (GetFuzzyCacheKey model1 hash1 = GetFuzzyCacheKey model2 hash2 ->
      model1 = model2 /\ hash1 = hash2).
Proof.
  intros H1 H2. unfold GetCacheKey, GetFuzzyCacheKey. simpl. split; intros Heq.
  - injection Heq as Heq. apply app_colon_inj; assumption.
  - injection Heq as Heq. apply app_colon_inj; assumption.
Qed.

Lemma cache_keys_injective_witness :
  noColon "1f" = true /\ noColon "1f" = true
  /\ (GetCacheKey "m" "1f" = GetCacheKey "m" "1f" -> "m" = "m" /\ "1f" = "1f").
Proof.
  assert (H : noColon "1f" = true) by reflexivity.
  split; [exact H|]. split; [exact H|].
  exact (proj1 (cache_keys_injective "m" "1f" "m" "1f" H H)).
Defined.

(** A colon in the digest is what the condition excludes. *)
Example cache_key_colon_collision : GetCacheKey "a:b" "c" = GetCacheKey "a" "b:c".
Proof. reflexivity. Qed.

(** ** Reads after writes *)

Lemma RedisSet_lookup_ne r key key' value expiry :
  key <> key' -> RDB (RedisSet r key value expiry) !! key' = RDB r !! key'.
Proof. intros Hne. unfold RedisSet. simpl. apply lookup_insert_ne. exact Hne. Qed.

Lemma RedisSet_enabled r key value expiry :
  RedisEnabled (RedisSet r key value expiry) = RedisEnabled r.
Proof. reflexivity. Qed.

Lemma StoreCacheEntry_enabled (E : Externals) r now entry :
  RedisEnabled (fst (StoreCacheEntry E r now entry)) = RedisEnabled r.
Proof.
  unfold StoreCacheEntry. destruct (negb (RedisEnabled r)); [reflexivity|].
  destruct (json_Marshal_CacheEntry E _); reflexivity.
Qed.

Lemma StoreFuzzyEntry_enabled (E : Externals) range r model systemHash tokenCount ttl :
  RedisEnabled (StoreFuzzyEntry E range r model systemHash tokenCount ttl) = RedisEnabled r.
Proof. unfold StoreFuzzyEntry. destruct (_ || _); reflexivity. Qed.

Lemma StoreCacheBreakpoints_enabled (E : Externals) range r now req model :
  RedisEnabled (StoreCacheBreakpoints E range r now req model) = RedisEnabled r.
Proof.
  unfold StoreCacheBreakpoints. generalize (ExtractCacheBreakpoints E req model).
  intros bps. revert r. induction bps as [|bp bps IH]; intros r; simpl; [reflexivity|].
  rewrite IH. unfold storeBreakpointStep.
  destruct (TokenCount bp <? _); [reflexivity|]. apply StoreCacheEntry_enabled.
Qed.

(** What [StoreCacheEntry] changes in the store: at most the item at the
    key of the entry. *)
Lemma StoreCacheEntry_other (E : Externals) r now entry key :
  key <> GetCacheKey (Model entry) (Hash entry) ->
  RDB (fst (StoreCacheEntry E r now entry)) !! key = RDB r !! key.
Proof.
  intros Hne. unfold StoreCacheEntry. destruct (negb (RedisEnabled r)); [reflexivity|].
  destruct (json_Marshal_CacheEntry E _); [|reflexivity].
  simpl. apply lookup_insert_ne. congruence.
Qed.

Lemma StoreCacheBreakpoints_fuzzy_key (E : Externals) range r now req model key :
  (forall m h, key <> GetCacheKey m h) ->
  RDB (StoreCacheBreakpoints E range r now req model) !! key = RDB r !! key.
Proof.
  intros Hkey. unfold StoreCacheBreakpoints. generalize (ExtractCacheBreakpoints E req model).
  intros bps. revert r. induction bps as [|bp bps IH]; intros r; simpl; [reflexivity|].
  rewrite IH. unfold storeBreakpointStep.
  destruct (TokenCount bp <? _); [reflexivity|]. apply StoreCacheEntry_other, Hkey.
Qed.

Lemma GetCacheEntry_ext (E : Externals) r r' model hash :
  RedisEnabled r' = RedisEnabled r ->
  RDB r' !! GetCacheKey model hash = RDB r !! GetCacheKey model hash ->
  GetCacheEntry E r' model hash = GetCacheEntry E r model hash.
Proof. intros He Hk. unfold GetCacheEntry, RedisGet. rewrite He, Hk. reflexivity. Qed.

Lemma GetFuzzyEntry_ext (E : Externals) r r' model systemHash :
  RedisEnabled r' = RedisEnabled r ->
  RDB r' !! GetFuzzyCacheKey model systemHash = RDB r !! GetFuzzyCacheKey model systemHash ->
  GetFuzzyEntry E r' model systemHash = GetFuzzyEntry E r model systemHash.
Proof. intros He Hk. unfold GetFuzzyEntry, RedisGet. rewrite He, Hk. reflexivity. Qed.

(** X2.  The exact entries and the fuzzy entries live under two key prefixes:
    a write of one kind changes no read of the other kind. *)
Theorem exact_and_fuzzy_entries_are_separate (E : Externals) (range : MapOrder) (r : Redis) :
  (forall model systemHash tokenCount ttl model' hash,
      GetCacheEntry E (StoreFuzzyEntry E range r model systemHash tokenCount ttl) model' hash
      = GetCacheEntry E r model' hash)
  /\ (forall now entry model systemHash,
         GetFuzzyEntry E (fst (StoreCacheEntry E r now entry)) model systemHash
         = GetFuzzyEntry E r model systemHash)
  /\ (forall now req model model' systemHash,
         GetFuzzyEntry E (StoreCacheBreakpoints E range r now req model) model' systemHash
         = GetFuzzyEntry E r model' systemHash).
Proof.
  split; [|split].
  - intros model systemHash tokenCount ttl model' hash.
    apply GetCacheEntry_ext; [apply StoreFuzzyEntry_enabled|].
    unfold StoreFuzzyEntry. destruct (_ || _); [reflexivity|].
    apply RedisSet_lookup_ne. intros Heq. symmetry in Heq.
    exact (GetCacheKey_not_fuzzy _ _ _ _ Heq).
  - intros now entry model systemHash.
    apply GetFuzzyEntry_ext; [apply StoreCacheEntry_enabled|].
    apply StoreCacheEntry_other. intros Heq. symmetry in Heq.
    exact (GetCacheKey_not_fuzzy _ _ _ _ Heq).
  - intros now req model model' systemHash.
    apply GetFuzzyEntry_ext; [apply StoreCacheBreakpoints_enabled|].
    apply StoreCacheBreakpoints_fuzzy_key. intros m h Heq. symmetry in Heq.
    exact (GetCacheKey_not_fuzzy _ _ _ _ Heq).
Qed.

Lemma StoreCacheEntry_eq (E : Externals) r now entry :
  StoreCacheEntry E r now entry
  = if negb (RedisEnabled r) then (r, NoError)
    else match json_Marshal_CacheEntry E (stamped now entry) with
         | None => (r, SomeError)
         | Some data =>
             (RedisSet r (GetCacheKey (Model entry) (Hash entry)) data
                (if String.eqb (EntryTTL entry) "1h" then TTL1h else TTL5m), NoError)
         end.
Proof. reflexivity. Qed.

(** X3.  On an enabled store, an entry that has been stored is read back under
    its model and digest with the two instants that [StoreCacheEntry] stamps
    on it, provided the encoder accepts it and the decoder returns it from
    the encoded text; when the encoder fails the store is left as it was and
    the error is returned; a read under another key is not affected. *)
Theorem StoreCacheEntry_then_GetCacheEntry (E : Externals) (r : Redis) (now : Z)
        (entry : CacheEntry) :
  RedisEnabled r = true ->
  let r' := fst (StoreCacheEntry E r now entry) in
  (forall data,
      json_Marshal_CacheEntry E (stamped now entry) = Some data ->
      data <> "" ->
      json_Unmarshal_CacheEntry E data = Some (stamped now entry) ->
      snd (StoreCacheEntry E r now entry) = NoError
      /\ GetCacheEntry E r' (Model entry) (Hash entry) = (Some (stamped now entry), NoError))
  /\ (json_Marshal_CacheEntry E (stamped now entry) = None ->
      StoreCacheEntry E r now entry = (r, SomeError))
  /\ (forall model hash,
         GetCacheKey model hash <> GetCacheKey (Model entry) (Hash entry) ->
         GetCacheEntry E r' model hash = GetCacheEntry E r model hash).
Proof.
  intros Hen r'. split; [|split].
  - intros data Hm Hne Hu. subst r'. rewrite StoreCacheEntry_eq, Hen, Hm.
    cbn [negb fst snd]. split; [reflexivity|].
    unfold GetCacheEntry, RedisGet. cbn [RedisEnabled RedisSet negb RDB]. rewrite Hen.
    cbn [negb]. rewrite lookup_insert_eq. cbn [fmap option_fmap option_map item_value].
    apply String.eqb_neq in Hne. rewrite Hne, Hu. reflexivity.
  - intros Hm. rewrite StoreCacheEntry_eq, Hen, Hm. reflexivity.
  - intros model hash Hne. subst r'.
    apply GetCacheEntry_ext; [apply StoreCacheEntry_enabled|].
    apply StoreCacheEntry_other. exact Hne.
Qed.

Lemma fuzzyPayload_nonempty (E : Externals) range tokenCount ttl :
  String.eqb (fuzzyPayload E range tokenCount ttl) "" = false.
Proof. reflexivity. Qed.

Lemma StoreFuzzyEntry_eq (E : Externals) range r model systemHash tokenCount ttl :
  StoreFuzzyEntry E range r model systemHash tokenCount ttl
  = if negb (RedisEnabled r) || String.eqb systemHash "" then r
    else RedisSet r (GetFuzzyCacheKey model systemHash) (fuzzyPayload E range tokenCount ttl)
           (if String.eqb ttl "1h" then TTL1h else TTL5m).
Proof. reflexivity. Qed.

(** X4.  On an enabled store, a fuzzy entry that has been stored is found under
    its model and system digest with the count that was stored, provided the
    decoder reads that count in the stored text; an empty system digest is
    never stored and never found. *)
Theorem StoreFuzzyEntry_then_GetFuzzyEntry (E : Externals) (range : MapOrder) (r : Redis)
        (model systemHash : string) (tokenCount : Z) (ttl : string) :
  RedisEnabled r = true ->
  (systemHash <> "" ->
   json_Unmarshal_tokens E (fuzzyPayload E range tokenCount ttl) = Some (Some tokenCount) ->
   GetFuzzyEntry E (StoreFuzzyEntry E range r model systemHash tokenCount ttl)
     model systemHash = (tokenCount, true))
  /\ StoreFuzzyEntry E range r model "" tokenCount ttl = r
  /\ GetFuzzyEntry E r model "" = (0, false).
Proof.
  intros Hen. split; [|split].
  - intros Hh Hu. apply String.eqb_neq in Hh.
    rewrite StoreFuzzyEntry_eq, Hen, Hh. cbn [negb orb].
    unfold GetFuzzyEntry, RedisGet. rewrite RedisSet_enabled, Hen, Hh. cbn [negb orb].
    rewrite RedisSet_lookup. cbn [fmap option_fmap option_map item_value].
    rewrite fuzzyPayload_nonempty, Hu. reflexivity.
  - unfold StoreFuzzyEntry. rewrite Hen. reflexivity.
  - unfold GetFuzzyEntry. rewrite Hen. reflexivity.
Qed.

(** ** A disabled store *)

(** X5.  With the store disabled every write is skipped silently: the store is
    unchanged after [StoreCacheEntry] (which reports no error), after
    [StoreFuzzyEntry] and after [StoreCacheBreakpoints]. *)
Theorem disabled_store_is_never_written (E : Externals) (range : MapOrder) (r : Redis)
        (now : Z) :
  RedisEnabled r = false ->
  (forall entry, StoreCacheEntry E r now entry = (r, NoError))
  /\ (forall task, runTask E range now r task = r).
Proof.
  intros Hd.
  assert (Hentry : forall entry, StoreCacheEntry E r now entry = (r, NoError)).
  { intros entry. unfold StoreCacheEntry. rewrite Hd. reflexivity. }
  split; [exact Hentry|].
  intros [model systemHash tokenCount ttl | req model]; simpl.
  - unfold StoreFuzzyEntry. rewrite Hd. reflexivity.
  - unfold StoreCacheBreakpoints. generalize (ExtractCacheBreakpoints E req model).
    intros bps. induction bps as [|bp bps IH]; simpl; [reflexivity|].
    unfold storeBreakpointStep at 2. rewrite Hentry.
    destruct (TokenCount bp <? _); exact IH.
Qed.

(** * Breakpoint extraction and prefix building *)

Section Origin.

Variable E : Externals.
Hypothesis tokens_nonneg : forall text model, 0 <= CountTextToken E text model.

(** Where the breakpoints of one scan come from. *)
Lemma scanLoop_origin {A : Type} (loc : string) (tok : A -> Z) (mark : A -> string)
      (l : list A) :
  (forall x, 0 <= tok x) ->
  forall i w,
    0 <= cacheableTokens w <= totalTokens w ->
    totalTokens w + sumZ (map tok l) <= GoInt.max_int ->
    exists new,
      breakpoints (scanLoop loc tok mark i l w) = breakpoints w ++ new
      /\ Forall (fun bp => exists k x,
                     l !! k = Some x
                     /\ Index bp = Z.of_nat (i + k)
                     /\ Location bp = loc
                     /\ TTL bp = mark x
                     /\ mark x <> ""
                     /\ TokenCount bp
                        = cacheableTokens w + sumZ (map tok (take (S k) l))) new.
Proof.
  intros Htok. induction l as [|x rest IH]; intros i w Hw Hfit; simpl in *.
  - exists []. rewrite app_nil_r. split; [reflexivity | constructor].
  - pose proof (Htok x) as Hx.
    assert (Hrest : 0 <= sumZ (map tok rest)).
    { apply sumZ_nonneg, Forall_forall. intros y Hy.
      apply list_elem_of_In, in_map_iff in Hy as (z & <- & _). apply Htok. }
    rewrite (add_exact (cacheableTokens w) (tok x)),
      (add_exact (totalTokens w) (tok x)) by int_range.
    set (w1 := {| breakpoints := _ |}).
    destruct (IH (S i) w1) as (new & Hb & Hall); [simpl; lia | simpl; lia |].
    assert (Hall' : Forall (fun bp => exists k y,
                       (x :: rest) !! k = Some y
                       /\ Index bp = Z.of_nat (i + k)
                       /\ Location bp = loc
                       /\ TTL bp = mark y
                       /\ mark y <> ""
                       /\ TokenCount bp
                          = cacheableTokens w
                            + sumZ (map tok (take (S k) (x :: rest)))) new).
    { eapply Forall_impl; [exact Hall|]. simpl.
      intros bp (k & y & Hk & Hi & Hl & Ht & Hm & Hc).
      exists (S k), y. simpl. repeat split; try assumption; [|].
      - rewrite Hi. f_equal. lia.
      - rewrite Hc. simpl. lia. }
    simpl in Hb. destruct (negb (String.eqb (mark x) "")) eqn:Hm.
    + eexists (_ :: new). split; [rewrite Hb, <- app_assoc; reflexivity|].
      constructor; [|exact Hall'].
      exists 0%nat, x. simpl. repeat split.
      * f_equal. lia.
      * intros Heq. rewrite Heq in Hm. discriminate.
      * lia.
    + exists new. split; [exact Hb | exact Hall'].
Qed.

Lemma systemMark_annotated media :
  systemMark E media <> "" ->
  annotated media = true
  /\ extractCacheControlTTLFromRaw E (dto.CacheControl media) = systemMark E media.
Proof.
  unfold systemMark, annotated.
  destruct (0 <? String.length (dto.CacheControl media))%nat; [auto | congruence].
Qed.

(** Every candidate of the walk points at the marked block it was found
    at and carries the cacheable tokens up to and including that block. *)
Lemma walkRequest_origin req model :
  exactTotal E req model <= GoInt.max_int ->
  Forall (fun bp =>
            TTL bp <> ""
            /\ exists k : nat,
                Index bp = Z.of_nat k
                /\ ((Location bp = "system"
                     /\ exists media,
                         systemBlocks req !! k = Some media
                         /\ annotated media = true
                         /\ extractCacheControlTTLFromRaw E (dto.CacheControl media) = TTL bp
                         /\ TokenCount bp = sumZ (take (S k) (systemEstimates E req model)))
                    \/ (Location bp = "message"
                        /\ exists msg,
                            dto.Messages req !! k = Some msg
                            /\ extractCacheControlFromMessage E msg = TTL bp
                            /\ TokenCount bp
                               = sumZ (systemEstimates E req model)
                                 + sumZ (take (S k) (messageEstimates E req model)))))
         (breakpoints (walkRequest E req model)).
Proof.
  intros Hfit. unfold walkRequest, exactTotal in *.
  pose proof (toolEstimates_nonneg E tokens_nonneg req model) as Htn.
  pose proof (systemEstimates_nonneg E tokens_nonneg req model) as Hsn.
  pose proof (messageEstimates_nonneg E tokens_nonneg req model) as Hmn.
  set (w0 := {| breakpoints := [] |}).
  destruct (walkTools_spec E tokens_nonneg req model w0) as (H1t & H1to & H1c & H1b);
    [simpl; lia | simpl; lia |].
  simpl in H1t, H1to, H1c, H1b.
  set (w1 := walkTools E req model w0) in *.
  destruct (walkSystem_spec E tokens_nonneg req model w1)
    as (H2t & H2c & H2to & _); [lia | lia |].
  assert (Hsys : exists new,
             breakpoints (walkSystem E req model w1) = new
             /\ Forall (fun bp => exists k media,
                          systemBlocks req !! k = Some media
                          /\ Index bp = Z.of_nat k
                          /\ Location bp = "system"
                          /\ TTL bp = systemMark E media
                          /\ systemMark E media <> ""
                          /\ TokenCount bp
                             = sumZ (take (S k) (systemEstimates E req model))) new).
  { unfold walkSystem, systemBlocks, systemEstimates in *.
    destruct (dto.System req) as [[s|l]|].
    - exists []. simpl. rewrite H1b. split; [reflexivity | constructor].
    - rewrite systemLoop_scan.
      destruct (scanLoop_origin "system"
                  (fun media => estimateContentTokens E (json_Marshal_Media E media) model)
                  (systemMark E) l
                  (fun x => estimateContentTokens_nonneg E tokens_nonneg _ model) 0%nat w1)
        as (new & Hb & Hall); [lia | lia |].
      exists new. rewrite Hb, H1b. split; [reflexivity|].
      eapply Forall_impl; [exact Hall|]. simpl.
      intros bp (k & x & Hk & Hi & Hl & Ht & Hm & Hc).
      exists k, x. repeat split; try assumption.
      rewrite Hc, H1c. rewrite <- firstn_map. simpl. lia.
    - exists []. simpl. rewrite H1b. split; [reflexivity | constructor]. }
  destruct Hsys as (newS & HbS & HallS).
  set (w2 := walkSystem E req model w1) in *.
  rewrite messageLoop_scan.
  destruct (scanLoop_origin "message"
              (fun msg => estimateContentTokens E (json_Marshal_Message E msg) model)
              (extractCacheControlFromMessage E) (dto.Messages req)
              (fun x => estimateContentTokens_nonneg E tokens_nonneg _ model) 0%nat w2)
    as (new & Hb & Hall).
  { rewrite H2c, H2t, H1c, H1t. lia. }
  { unfold messageEstimates in Hfit. rewrite H2t, H1t. lia. }
  rewrite Hb, HbS. apply Forall_app. split.
  - eapply Forall_impl; [exact HallS|]. simpl.
    intros bp (k & media & Hk & Hi & Hl & Ht & Hm & Hc).
    destruct (systemMark_annotated media Hm) as (Ha & Hx).
    split; [congruence|]. exists k. split; [exact Hi|]. left. split; [exact Hl|].
    exists media. repeat split; try assumption. congruence.
  - eapply Forall_impl; [exact Hall|]. simpl.
    intros bp (k & msg & Hk & Hi & Hl & Ht & Hm & Hc).
    split; [congruence|]. exists k. split; [exact Hi|]. right. split; [exact Hl|].
    exists msg. repeat split; try assumption; [congruence|].
    rewrite Hc, H2c, H1c. unfold messageEstimates. rewrite <- firstn_map. simpl. lia.
Qed.

End Origin.

(** X6.  For a request whose token estimates are non-negative and whose exact
    total fits Go's [int], every breakpoint that the extractor returns points
    at a block that exists and carries an ephemeral annotation: a block of
    the structured system prompt, or a message whose first annotated block is
    ephemeral.  Its TTL class is the one of that annotation, and its token
    count is the sum of the estimates of the system blocks and messages up to
    and including that block; the tools are not part of it. *)
Theorem breakpoints_point_at_marked_blocks (E : Externals) req model :
  (forall text model, 0 <= CountTextToken E text model) ->
  exactTotal E req model <= GoInt.max_int ->
  Forall (fun bp =>
            TTL bp <> ""
            /\ exists k : nat,
                Index bp = Z.of_nat k
                /\ ((Location bp = "system"
                     /\ exists media,
                         systemBlocks req !! k = Some media
                         /\ annotated media = true
                         /\ extractCacheControlTTLFromRaw E (dto.CacheControl media) = TTL bp
                         /\ TokenCount bp = sumZ (take (S k) (systemEstimates E req model)))
                    \/ (Location bp = "message"
                        /\ exists msg,
                            dto.Messages req !! k = Some msg
                            /\ extractCacheControlFromMessage E msg = TTL bp
                            /\ TokenCount bp
                               = sumZ (systemEstimates E req model)
                                 + sumZ (take (S k) (messageEstimates E req model)))))
         (ExtractCacheBreakpoints E req model).
Proof.
  intros Hnn Hfit. rewrite Extract_take. apply Forall_take.
  apply walkRequest_origin; assumption.
Qed.

(** X7.  For a request whose token estimates are non-negative and whose exact
    total fits Go's [int], the two totals that the extractor returns are the
    sum of the estimates of all tools, system blocks and messages, and the
    sum of the estimates of the tools; at most four breakpoints come with
    them. *)
Theorem ExtractCacheBreakpointsWithTotal_totals (E : Externals) req model :
  (forall text model, 0 <= CountTextToken E text model) ->
  exactTotal E req model <= GoInt.max_int ->
  exists bps,
    ExtractCacheBreakpointsWithTotal E req model
    = (bps,
       sumZ (toolEstimates E req model) + sumZ (systemEstimates E req model)
       + sumZ (messageEstimates E req model),
       sumZ (toolEstimates E req model))
    /\ (length bps <= MaxBreakpoints)%nat
    /\ 0 <= sumZ (toolEstimates E req model)
    /\ 0 <= sumZ (systemEstimates E req model) + sumZ (messageEstimates E req model).
Proof.
  intros Hnn Hfit.
  destruct (walkRequest_spec E Hnn req model Hfit) as (Ht & Hto & _ & Hton & _).
  pose proof (systemEstimates_nonneg E Hnn req model).
  pose proof (messageEstimates_nonneg E Hnn req model).
  exists (ExtractCacheBreakpoints E req model).
  rewrite ExtractWithTotal_eq, Ht, Hto. unfold exactTotal.
  split; [reflexivity|]. split; [|split; [|lia]].
  - rewrite Extract_take, length_take. lia.
  - rewrite <- Hto. exact Hton.
Qed.

(** ** Requests without annotation *)

Lemma systemLoop_unannotated (E : Externals) model l :
  Forall (fun media => dto.CacheControl media = "") l ->
  forall i w, breakpoints (systemLoop E model i l w) = breakpoints w.
Proof.
  induction 1 as [|media l Hm _ IH]; intros i w; simpl; [reflexivity|].
  rewrite IH. simpl. rewrite Hm. reflexivity.
Qed.

Lemma extractCacheControlFromBlocks_unannotated (E : Externals) l :
  Forall (fun media => dto.CacheControl media = "") l ->
  extractCacheControlFromBlocks E l = "".
Proof. induction 1 as [|media l Hm _ IH]; simpl; [reflexivity|]. rewrite Hm. exact IH. Qed.

Lemma messageLoop_unannotated (E : Externals) model l :
  Forall (fun msg => Forall (fun media => dto.CacheControl media = "")
                            (dto.ParseContent msg)) l ->
  forall i w, breakpoints (messageLoop E model i l w) = breakpoints w.
Proof.
  induction 1 as [|msg l Hm _ IH]; intros i w; simpl; [reflexivity|].
  rewrite IH. simpl. unfold extractCacheControlFromMessage.
  rewrite (extractCacheControlFromBlocks_unannotated E _ Hm).
  destruct (dto.IsStringContent msg); reflexivity.
Qed.

Lemma toolLoop_breakpoints (E : Externals) model tools : forall w,
  breakpoints (fold_left (toolStep E model) tools w) = breakpoints w.
Proof.
  induction tools as [|tool tools IH]; intros w; simpl; [reflexivity|].
  rewrite IH. reflexivity.
Qed.

Lemma unannotated_no_breakpoint (E : Externals) req model :
  unannotated req -> ExtractCacheBreakpoints E req model = [].
Proof.
  intros (Hs & Hm). rewrite Extract_take. unfold walkRequest.
  rewrite (messageLoop_unannotated E model _ Hm).
  unfold walkSystem, systemBlocks in *.
  destruct (dto.System req) as [[s|l]|]; simpl;
    [|rewrite (systemLoop_unannotated E model l Hs)|];
    unfold walkTools; destruct (dto.Tools req); simpl;
    rewrite ?toolLoop_breakpoints; reflexivity.
Qed.

(** X8.  A request in which no block carries a cache-control annotation has no
    breakpoint: the hit check reports a plain miss with all the input as
    fresh input, the reconciler returns the usage record as it received it
    and starts no goroutine, and nothing is written to the store. *)
Theorem unannotated_request_is_untouched (E : Externals) (range : MapOrder) (r : Redis)
        (now : Z) req model usage totalInputTokens :
  unannotated req ->
  ExtractCacheBreakpoints E req model = []
  /\ CheckCacheHits E range r req model totalInputTokens
     = {| Hit := false; CacheReadTokens := 0; CacheCreationTokens := 0;
          CacheCreation5m := 0; CacheCreation1h := 0;
          InputTokens := totalInputTokens; BreakpointHits := [] |}
  /\ applyLocalCacheSimulation E range r (Some req) model usage = (usage, [])
  /\ StoreCacheBreakpoints E range r now req model = r.
Proof.
  intros Hun. pose proof (unannotated_no_breakpoint E req model Hun) as Hbps.
  split; [exact Hbps|]. split; [|split].
  - unfold CheckCacheHits. rewrite Hbps. reflexivity.
  - unfold applyLocalCacheSimulation. rewrite resolveLocal_eq. cbv zeta. rewrite Hbps.
    destruct (totalTokens _ =? 0); reflexivity.
  - unfold StoreCacheBreakpoints. rewrite Hbps. reflexivity.
Qed.

(** ** Prefixes *)

Lemma StronglySorted_lookup {A : Type} (R : A -> A -> Prop) (l : list A) :
  StronglySorted R l ->
  forall i j a b, l !! i = Some a -> l !! j = Some b -> (i < j)%nat -> R a b.
Proof.
  induction 1 as [|x l Hs IH Hall]; intros i j a b Hi Hj Hlt; [discriminate|].
  destruct j as [|j]; [lia|]. simpl in Hj. destruct i as [|i]; simpl in Hi.
  - injection Hi as <-. rewrite Forall_forall in Hall. apply Hall.
    eapply list_elem_of_lookup_2. exact Hj.
  - eapply IH; [exact Hi | exact Hj | lia].
Qed.

Lemma BuildPrefix_system (E : Externals) req bp k :
  Location bp = "system" -> Index bp = Z.of_nat k ->
  (k < length (systemBlocks req))%nat ->
  Z.of_nat (length (systemBlocks req)) <= GoInt.max_int ->
  BuildPrefixUpToBreakpoint E req bp
  = {| Tools := wholeTools E req;
       System := map (json_Marshal_Media E) (take (S k) (systemBlocks req));
       Messages := [] |}.
Proof.
  intros Hl Hi Hk Hfit. unfold BuildPrefixUpToBreakpoint, wholeTools, systemBlocks in *.
  rewrite Hl, Hi. cbn [String.eqb Ascii.eqb Bool.eqb negb]. simpl String.eqb.
  f_equal.
  - destruct (dto.Tools req) as [tools|]; [|reflexivity].
    rewrite Nat2Z.id, firstn_all. reflexivity.
  - destruct (dto.System req) as [[s|l]|]; simpl in Hk; try lia.
    rewrite add_exact by int_range.
    replace (Z.to_nat (Z.of_nat k + 1)) with (S k) by lia. reflexivity.
Qed.

Lemma BuildPrefix_message (E : Externals) req bp k :
  Location bp = "message" -> Index bp = Z.of_nat k ->
  BuildPrefixUpToBreakpoint E req bp
  = {| Tools := wholeTools E req;
       System := wholeSystem E req;
       Messages := map (json_Marshal_Message E) (take (S k) (dto.Messages req)) |}.
Proof.
  intros Hl Hi. unfold BuildPrefixUpToBreakpoint, wholeTools, wholeSystem.
  rewrite Hl, Hi. simpl String.eqb. cbn [negb].
  replace (Z.to_nat (Z.of_nat k + 1)) with (S k) by lia.
  f_equal.
  - destruct (dto.Tools req) as [tools|]; [|reflexivity].
    rewrite Nat2Z.id, firstn_all. reflexivity.
  - destruct (dto.System req) as [[s|l]|]; try reflexivity.
    rewrite Nat2Z.id, firstn_all. reflexivity.
Qed.

(** The prefix of every candidate of the walk. *)
Lemma walkRequest_prefix (E : Externals) req model :
  (forall text model, 0 <= CountTextToken E text model) ->
  exactTotal E req model <= GoInt.max_int ->
  Z.of_nat (length (systemBlocks req)) <= GoInt.max_int ->
  Forall (fun bp =>
            exists k : nat,
              Index bp = Z.of_nat k
              /\ ((Location bp = "system"
                   /\ (k < length (systemBlocks req))%nat
                   /\ BuildPrefixUpToBreakpoint E req bp
                      = {| Tools := wholeTools E req;
                           System := map (json_Marshal_Media E)
                                         (take (S k) (systemBlocks req));
                           Messages := [] |})
                  \/ (Location bp = "message"
                      /\ (k < length (dto.Messages req))%nat
                      /\ BuildPrefixUpToBreakpoint E req bp
                         = {| Tools := wholeTools E req;
                              System := wholeSystem E req;
                              Messages := map (json_Marshal_Message E)
                                              (take (S k) (dto.Messages req)) |})))
         (breakpoints (walkRequest E req model)).
Proof.
  intros Hnn Hfit Hlen.
  eapply Forall_impl; [exact (walkRequest_origin E Hnn req model Hfit)|]. simpl.
  intros bp (_ & k & Hi & [(Hl & media & Hk & _) | (Hl & msg & Hk & _)]);
    exists k; (split; [exact Hi|]).
  - apply lookup_lt_Some in Hk. left. split; [exact Hl|]. split; [exact Hk|].
    apply BuildPrefix_system; assumption.
  - apply lookup_lt_Some in Hk. right. split; [exact Hl|]. split; [exact Hk|].
    apply BuildPrefix_message; assumption.
Qed.

(** X9.  The prefix that is fingerprinted for a breakpoint of the extractor
    (token estimates non-negative, exact total and number of system blocks
    within Go's [int]): all the tools in every case; for a breakpoint of the
    system prompt the system blocks up to and including its block and no
    message; for a breakpoint of a message the whole system prompt and the
    messages up to and including its message. *)
Theorem prefix_of_a_breakpoint (E : Externals) req model :
  (forall text model, 0 <= CountTextToken E text model) ->
  exactTotal E req model <= GoInt.max_int ->
  Z.of_nat (length (systemBlocks req)) <= GoInt.max_int ->
  Forall (fun bp =>
            exists k : nat,
              Index bp = Z.of_nat k
              /\ ((Location bp = "system"
                   /\ (k < length (systemBlocks req))%nat
                   /\ BuildPrefixUpToBreakpoint E req bp
                      = {| Tools := wholeTools E req;
                           System := map (json_Marshal_Media E)
                                         (take (S k) (systemBlocks req));
                           Messages := [] |})
                  \/ (Location bp = "message"
                      /\ (k < length (dto.Messages req))%nat
                      /\ BuildPrefixUpToBreakpoint E req bp
                         = {| Tools := wholeTools E req;
                              System := wholeSystem E req;
                              Messages := map (json_Marshal_Message E)
                                              (take (S k) (dto.Messages req)) |})))
         (ExtractCacheBreakpoints E req model).
Proof.
  intros Hnn Hfit Hlen. rewrite Extract_take. apply Forall_take.
  apply walkRequest_prefix; assumption.
Qed.

Lemma map_take_prefix {A B : Type} (f : A -> B) (l : list A) (n m : nat) :
  (n <= m)%nat -> map f (take n l) `prefix_of` map f (take m l).
Proof.
  intros Hle. exists (map f (drop n (take m l))).
  rewrite <- map_app. f_equal.
  rewrite <- (take_drop n (take m l)) at 1. rewrite take_take.
  replace (n `min` m)%nat with n by lia. reflexivity.
Qed.

Lemma map_take_prefix_all {A B : Type} (f : A -> B) (l : list A) (n : nat) :
  map f (take n l) `prefix_of` map f l.
Proof.
  exists (map f (drop n l)). rewrite <- map_app, take_drop. reflexivity.
Qed.

(** X10.  The prefixes of the breakpoints of one request grow with the
    breakpoints (token estimates non-negative, exact total and number of
    system blocks within Go's [int]): an earlier breakpoint has the same
    tools and, component by component, an initial segment of the system
    blocks and of the messages of a later one, and it is strictly shorter. *)
Theorem prefixes_grow_with_breakpoints (E : Externals) req model (i j : nat) bi bj :
  (forall text model, 0 <= CountTextToken E text model) ->
  exactTotal E req model <= GoInt.max_int ->
  Z.of_nat (length (systemBlocks req)) <= GoInt.max_int ->
  ExtractCacheBreakpoints E req model !! i = Some bi ->
  ExtractCacheBreakpoints E req model !! j = Some bj ->
  (i < j)%nat ->
  let pi := BuildPrefixUpToBreakpoint E req bi in
  let pj := BuildPrefixUpToBreakpoint E req bj in
  Tools pi = Tools pj
  /\ System pi `prefix_of` System pj
  /\ Messages pi `prefix_of` Messages pj
  /\ (length (System pi) + length (Messages pi)
      < length (System pj) + length (Messages pj))%nat.
Proof.
  intros Hnn Hfit Hlen Hi Hj Hlt pi pj. subst pi pj.
  rewrite Extract_take in Hi, Hj.
  apply lookup_take_Some in Hi as (Hi & _). apply lookup_take_Some in Hj as (Hj & _).
  pose proof (walkRequest_prefix E req model Hnn Hfit Hlen) as Hall.
  rewrite Forall_forall in Hall.
  destruct (walkRequest_spec E Hnn req model Hfit) as (_ & _ & _ & _ & _ & _ & Hsorted).
  pose proof (StronglySorted_lookup _ _ Hsorted i j bi bj Hi Hj Hlt) as Hdoc.
  destruct (Hall bi (list_elem_of_lookup_2 _ _ _ Hi)) as (ki & Hki & Hbi).
  destruct (Hall bj (list_elem_of_lookup_2 _ _ _ Hj)) as (kj & Hkj & Hbj).
  assert (Hsys : forall k, (k < length (systemBlocks req))%nat ->
            wholeSystem E req = map (json_Marshal_Media E) (systemBlocks req)).
  { intros k. unfold wholeSystem, systemBlocks.
    destruct (dto.System req) as [[s|l]|]; simpl; (reflexivity || lia). }
  destruct Hbi as [(Hli & Hbi & ->) | (Hli & Hbi & ->)];
    destruct Hbj as [(Hlj & Hbj & ->) | (Hlj & Hbj & ->)]; cbn [Tools System Messages];
    destruct Hdoc as [(Ha & Hb) | (Hloc & Hidx)]; try congruence;
    rewrite ?Hki, ?Hkj in *; rewrite ?length_map, ?length_take.
  - split; [reflexivity|]. split; [apply map_take_prefix; lia|].
    split; [reflexivity|]. cbn [length]. lia.
  - split; [reflexivity|]. rewrite (Hsys ki Hbi).
    split; [apply map_take_prefix_all|]. split; [apply prefix_nil|].
    rewrite length_map. cbn [length]. lia.
  - split; [reflexivity|]. split; [reflexivity|].
    split; [apply map_take_prefix; lia|]. lia.
Qed.

(** * The hit check and the reconciler *)

(** ** The longest stored prefix *)

Lemma scanExact_longest (E : Externals) range r req model minTokens bps k :
  forall j b,
    (j < k)%nat ->
    match scanExact E range r req model minTokens bps k with
    | Some i => (i < j)%nat
    | None => True
    end ->
    bps !! j = Some b ->
    TokenCount b < minTokens \/ exactEntryFound E range r req model b = false.
Proof.
  induction k as [|k IH]; intros j b Hj Hi Hb; [lia|].
  simpl in Hi. destruct (decide (j = k)) as [->|Hne].
  - rewrite Hb in Hi. destruct (TokenCount b <? minTokens) eqn:Hlt.
    + left. apply Z.ltb_lt. exact Hlt.
    + destruct (exactEntryFound E range r req model b); [lia | right; reflexivity].
  - apply (IH j b); [lia | | exact Hb].
    destruct (bps !! k) as [bk|]; [|exact Hi].
    destruct (TokenCount bk <? minTokens); [exact Hi|].
    destruct (exactEntryFound E range r req model bk); [|exact Hi].
    destruct (scanExact E range r req model minTokens bps k) as [i|] eqn:Hs; [|exact I].
    apply scanExact_Some in Hs as (Hik & _). lia.
Qed.

Lemma hit_flags (i n : nat) :
  (i < n)%nat ->
  markShorter i (<[i := true]> (replicate n false))
  = replicate (S i) true ++ replicate (n - S i) false.
Proof.
  intros Hi. apply list_eq. intros j.
  destruct (decide (j < i)%nat) as [Hlt|Hge].
  - rewrite markShorter_below by (rewrite ?length_insert, ?length_replicate; lia).
    rewrite lookup_app_l by (rewrite length_replicate; lia).
    symmetry. apply lookup_replicate_2. lia.
  - rewrite markShorter_above by lia. destruct (decide (j = i)) as [->|Hne].
    + rewrite list_lookup_insert_eq by (rewrite length_replicate; lia).
      rewrite lookup_app_l by (rewrite length_replicate; lia).
      symmetry. apply lookup_replicate_2. lia.
    + rewrite list_lookup_insert_ne by congruence.
      rewrite lookup_app_r by (rewrite length_replicate; lia).
      rewrite length_replicate.
      destruct (decide (j < n)%nat) as [Hjn|Hjn].
      * transitivity (Some false);
          [apply lookup_replicate_2; lia | symmetry; apply lookup_replicate_2; lia].
      * transitivity (@None bool);
          [apply lookup_replicate_None; lia | symmetry; apply lookup_replicate_None; lia].
Qed.

(** X11.  The result of the hit check: the flags are a run of [true] followed by
    a run of [false], one flag per breakpoint; [Hit] says whether the first
    run is not empty; without a hit nothing is read; with a hit the read
    tokens are the token count of the last flagged breakpoint, which reaches
    the minimum threshold and has a stored entry, and no longer breakpoint
    has both. *)
Theorem CheckCacheHits_result_shape (E : Externals) (range : MapOrder) (r : Redis)
        req model totalInputTokens :
  let bps := ExtractCacheBreakpoints E req model in
  let minTokens := GetMinCacheableTokens model in
  let result := CheckCacheHits E range r req model totalInputTokens in
  exists k : nat,
    (k <= length bps)%nat
    /\ BreakpointHits result = replicate k true ++ replicate (length bps - k) false
    /\ Hit result = (0 <? k)%nat
    /\ (k = 0%nat -> CacheReadTokens result = 0)
    /\ (forall i, k = S i ->
        exists bp, bps !! i = Some bp
                   /\ CacheReadTokens result = TokenCount bp
                   /\ minTokens <= TokenCount bp
                   /\ exactEntryFound E range r req model bp = true)
    /\ (forall j b, (k <= j)%nat -> bps !! j = Some b ->
        TokenCount b < minTokens \/ exactEntryFound E range r req model b = false).
Proof.
  intros bps minTokens result.
  pose proof (CheckCacheHits_flags E range r req model totalInputTokens) as Hflags.
  pose proof (CheckCacheHits_eq E range r req model totalInputTokens) as Heq.
  cbv zeta in Hflags, Heq. fold bps minTokens result in Hflags, Heq.
  pose proof (scanExact_longest E range r req model minTokens bps (length bps)) as Hlong.
  destruct (scanExact E range r req model minTokens bps (length bps)) as [i|] eqn:Hscan.
  - pose proof Hscan as Hs. apply scanExact_Some in Hs as (Hi & bp & Hbp & Hmin & Hfound).
    assert (Hlen : (length bps =? 0)%nat = false) by (apply Nat.eqb_neq; lia).
    rewrite Hlen, Hbp in Heq. cbn [fmap option_fmap option_map default] in Heq.
    match type of Heq with
    | _ = remainingInput (fst (fold_left ?f ?l (?res, ?z))) _ _ =>
        pose proof (creationStep_frame minTokens l res z) as Hf
    end.
    cbv zeta in Hf. destruct Hf as (_ & Hh & Hr & _).
    match type of Heq with
    | _ = remainingInput ?x ?b ?t =>
        destruct (remainingInput_frame x b t) as (_ & Hh' & Hr' & _)
    end.
    rewrite <- Heq in Hh', Hr'. rewrite Hh in Hh'. rewrite Hr in Hr'. simpl in Hh', Hr'.
    exists (S i). split; [lia|]. split; [rewrite Hflags; apply hit_flags; exact Hi|].
    split; [exact Hh'|]. split; [discriminate|]. split.
    + intros i' [= <-]. exists bp. auto.
    + intros j b Hj Hb. apply (Hlong j b); [|lia|exact Hb].
      apply lookup_lt_Some in Hb. exact Hb.
  - exists 0%nat. split; [lia|]. rewrite Nat.sub_0_r. split; [exact Hflags|].
    assert (Hmiss : Hit result = false /\ CacheReadTokens result = 0).
    { rewrite Heq. destruct (length bps =? 0)%nat; [split; reflexivity|].
      match goal with
      | |- context [remainingInput (fst (fold_left ?f ?l (?res, ?z))) ?b ?t] =>
          pose proof (creationStep_frame minTokens l res z) as Hf;
          destruct (remainingInput_frame (fst (fold_left f l (res, z))) b t)
            as (_ & -> & -> & _)
      end.
      cbv zeta in Hf. destruct Hf as (_ & -> & -> & _). split; reflexivity. }
    destruct Hmiss as (Hh & Hr). split; [exact Hh|]. split; [intros _; exact Hr|].
    split; [discriminate|].
    intros j b _ Hb. apply (Hlong j b); [|exact I|exact Hb].
    apply lookup_lt_Some in Hb. exact Hb.
Qed.

(** ** The two resolvers side by side *)

Lemma exactStep_frame minTokens l : forall t,
  cacheReadTokens (fold_left (exactStep minTokens) l t) = cacheReadTokens t
  /\ exactHit (fold_left (exactStep minTokens) l t) = exactHit t.
Proof.
  induction l as [|bp l IH]; intros t; simpl; [auto|].
  destruct (IH (exactStep minTokens t bp)) as (-> & ->).
  unfold exactStep. destruct (minTokens <=? TokenCount bp); auto.
Qed.



(** ** A request served again *)

Lemma exactEntryFound_readable (E : Externals) range r req model bp :
  exactEntryFound E range r req model bp
  = RedisEnabled r
    && readable E (RDB r !! GetCacheKey model
                     (CalculatePrefixHash E range (BuildPrefixUpToBreakpoint E req bp) model)).
Proof.
  unfold exactEntryFound, GetCacheEntry, RedisGet, readable.
  destruct (RedisEnabled r); [|reflexivity]. cbn [negb andb].
  destruct (RDB r !! _) as [it|]; [|reflexivity].
  cbn [fmap option_fmap option_map].
  destruct (String.eqb (item_value it) ""); [reflexivity|].
  destruct (json_Unmarshal_CacheEntry E (item_value it)); reflexivity.
Qed.

Lemma StoreCacheEntry_readable (E : Externals) r now entry key :
  RedisEnabled r = true ->
  decodes E (stamped now entry) = true ->
  readable E (RDB r !! key) = true \/ key = GetCacheKey (Model entry) (Hash entry) ->
  readable E (RDB (fst (StoreCacheEntry E r now entry)) !! key) = true.
Proof.
  intros Hen Hdec Hkey. rewrite StoreCacheEntry_eq, Hen. cbn [negb].
  unfold decodes in Hdec.
  destruct (json_Marshal_CacheEntry E (stamped now entry)) as [data|]; [|discriminate].
  cbn [fst RedisSet RDB].
  destruct (decide (key = GetCacheKey (Model entry) (Hash entry))) as [->|Hne].
  - rewrite lookup_insert_eq. exact Hdec.
  - rewrite lookup_insert_ne by congruence. destruct Hkey; [assumption | contradiction].
Qed.

Lemma storeBreakpointStep_enabled (E : Externals) range req model now minTokens r bp :
  RedisEnabled (storeBreakpointStep E range req model now minTokens r bp) = RedisEnabled r.
Proof.
  unfold storeBreakpointStep. destruct (TokenCount bp <? minTokens); [reflexivity|].
  apply StoreCacheEntry_enabled.
Qed.

Lemma storeBreakpointStep_readable (E : Externals) range req model now minTokens r bp key :
  RedisEnabled r = true ->
  decodes E (stamped now (entryFor E range req model bp)) = true ->
  readable E (RDB r !! key) = true
  \/ (minTokens <= TokenCount bp
      /\ key = GetCacheKey model
                 (CalculatePrefixHash E range (BuildPrefixUpToBreakpoint E req bp) model)) ->
  readable E (RDB (storeBreakpointStep E range req model now minTokens r bp) !! key) = true.
Proof.
  intros Hen Hdec Hkey. unfold storeBreakpointStep.
  destruct (TokenCount bp <? minTokens) eqn:Hlt.
  - apply Z.ltb_lt in Hlt. destruct Hkey as [Hk | (Hge & _)]; [exact Hk | lia].
  - apply (StoreCacheEntry_readable E r now (entryFor E range req model bp) key Hen Hdec).
    destruct Hkey as [Hk | (_ & Hk)]; [left; exact Hk | right; exact Hk].
Qed.

Lemma storeBreakpoints_readable (E : Externals) range req model now minTokens bps :
  Forall (fun bp => decodes E (stamped now (entryFor E range req model bp)) = true) bps ->
  forall r,
    RedisEnabled r = true ->
    let r' := fold_left (storeBreakpointStep E range req model now minTokens) bps r in
    RedisEnabled r' = true
    /\ (forall key, readable E (RDB r !! key) = true -> readable E (RDB r' !! key) = true)
    /\ (forall bp, bp ∈ bps -> minTokens <= TokenCount bp ->
        readable E (RDB r' !! GetCacheKey model
                      (CalculatePrefixHash E range (BuildPrefixUpToBreakpoint E req bp) model))
        = true).
Proof.
  induction 1 as [|bp bps Hdec _ IH]; intros r Hen; simpl.
  - split; [exact Hen|]. split; [auto|]. intros bp Hin. inversion Hin.
  - set (r1 := storeBreakpointStep E range req model now minTokens r bp).
    assert (Hen1 : RedisEnabled r1 = true)
      by (unfold r1; rewrite storeBreakpointStep_enabled; exact Hen).
    destruct (IH r1 Hen1) as (Hen' & Hkeep & Hnew).
    split; [exact Hen'|]. split.
    + intros key Hk. apply Hkeep. unfold r1.
      apply storeBreakpointStep_readable; auto.
    + intros bp' Hin Hge. apply elem_of_cons in Hin as [-> | Hin].
      * apply Hkeep. unfold r1. apply storeBreakpointStep_readable; auto.
      * apply Hnew; assumption.
Qed.

(** The exact scan on a store in which the last breakpoint has an entry. *)
Lemma scanExact_last (E : Externals) range r req model minTokens bps lastBp :
  last bps = Some lastBp ->
  minTokens <= TokenCount lastBp ->
  exactEntryFound E range r req model lastBp = true ->
  scanExact E range r req model minTokens bps (length bps) = Some (pred (length bps))
  /\ bps !! pred (length bps) = Some lastBp
  /\ (0 < length bps)%nat.
Proof.
  intros Hlast Hge Hfound. rewrite last_lookup in Hlast.
  destruct bps as [|b bps]; [discriminate|].
  cbn [length pred] in *. split; [|split; [exact Hlast | lia]].
  cbn [scanExact]. rewrite Hlast.
  destruct (TokenCount lastBp <? minTokens) eqn:Hlt; [apply Z.ltb_lt in Hlt; lia|].
  rewrite Hfound. reflexivity.
Qed.

Lemma last_above_threshold (E : Externals) req model minTokens :
  (forall text model, 0 <= CountTextToken E text model) ->
  exactTotal E req model <= GoInt.max_int ->
  Exists (fun bp => minTokens <= TokenCount bp) (ExtractCacheBreakpoints E req model) ->
  exists lastBp,
    last (ExtractCacheBreakpoints E req model) = Some lastBp
    /\ minTokens <= TokenCount lastBp.
Proof.
  intros Hnn Hfit Hex.
  destruct (Extract_spec E req model Hnn Hfit) as (_ & _ & _ & Hs & _).
  apply Exists_exists in Hex as (bp & Hin & Hge).
  destruct (last (ExtractCacheBreakpoints E req model)) as [lastBp|] eqn:Hlast.
  - exists lastBp. split; [reflexivity|].
    destruct (sorted_last _ _ _ _ Hs Hin Hlast) as [-> | Hle]; [exact Hge|].
    unfold le_TokenCount in Hle. lia.
  - apply last_None in Hlast. rewrite Hlast in Hin. inversion Hin.
Qed.

(** What both resolvers return when the last breakpoint has an entry. *)
Lemma exact_hit_at_last (E : Externals) range r req model totalInputTokens lastBp :
  let bps := ExtractCacheBreakpoints E req model in
  last bps = Some lastBp ->
  GetMinCacheableTokens model <= TokenCount lastBp ->
  exactEntryFound E range r req model lastBp = true ->
  let result := CheckCacheHits E range r req model totalInputTokens in
  Hit result = true
  /\ CacheReadTokens result = TokenCount lastBp
  /\ CacheCreationTokens result = 0
  /\ BreakpointHits result = replicate (length bps) true
  /\ finalTally E range r req model (GetMinCacheableTokens model) bps
     = {| cacheReadTokens := TokenCount lastBp; cacheCreateTokens := 0;
          cacheCreate5m := 0; cacheCreate1h := 0;
          lastCacheTokens := TokenCount lastBp; exactHit := true |}
  /\ snd (phaseMiss E range req model (GetMinCacheableTokens model) bps
            (phaseFuzzy E range r req model (GetMinCacheableTokens model) bps
               (phaseExact E range r req model (GetMinCacheableTokens model) bps tallyZero)))
     = [].
Proof.
  intros bps Hlast Hge Hfound result.
  destruct (scanExact_last E range r req model _ bps lastBp Hlast Hge Hfound)
    as (Hscan & Hbp & Hlen).
  assert (Hdrop : drop (S (pred (length bps))) bps = []) by (apply drop_ge; lia).
  assert (Hmin : 0 < GetMinCacheableTokens model) by (rewrite GetMinCacheableTokens_eq; lia).
  assert (Hflags : BreakpointHits result = replicate (length bps) true).
  { pose proof (CheckCacheHits_flags E range r req model totalInputTokens) as Hf.
    cbv zeta in Hf. fold bps result in Hf. rewrite Hscan in Hf. rewrite Hf.
    rewrite hit_flags by lia.
    replace (S (pred (length bps))) with (length bps) by lia.
    rewrite Nat.sub_diag. apply app_nil_r. }
  pose proof (CheckCacheHits_eq E range r req model totalInputTokens) as Heq.
  cbv zeta in Heq. fold bps result in Heq.
  assert (Hne : (length bps =? 0)%nat = false) by (apply Nat.eqb_neq; lia).
  rewrite Hne, Hscan, Hbp, Hdrop in Heq.
  change (default 0 (TokenCount <$> Some lastBp)) with (TokenCount lastBp) in Heq.
  cbn [fold_left fst] in Heq.
  match type of Heq with
  | _ = remainingInput ?x ?b ?t =>
      destruct (remainingInput_frame x b t) as (_ & Hh & Hr & Hc)
  end.
  rewrite <- Heq in Hh, Hr, Hc. cbn in Hh, Hr, Hc.
  split; [exact Hh|]. split; [exact Hr|]. split; [exact Hc|]. split; [exact Hflags|].
  unfold finalTally, phaseExact. rewrite Hscan, Hbp, Hdrop. cbn [fold_left].
  unfold phaseFuzzy. cbn [exactHit negb andb].
  unfold phaseMiss. cbn [cacheReadTokens].
  destruct (TokenCount lastBp =? 0) eqn:Hz; [apply Z.eqb_eq in Hz; lia|].
  split; reflexivity.
Qed.

Lemma resolveLocal_at_last (E : Externals) range r req model lastBp res :
  (forall text model, 0 <= CountTextToken E text model) ->
  exactTotal E req model <= GoInt.max_int ->
  last (ExtractCacheBreakpoints E req model) = Some lastBp ->
  GetMinCacheableTokens model <= TokenCount lastBp ->
  exactEntryFound E range r req model lastBp = true ->
  resolveLocal E range r req model = Some res ->
  exactHit (tally res) = true
  /\ cacheReadTokens (tally res) = TokenCount lastBp
  /\ cacheCreateTokens (tally res) = 0
  /\ scheduled res = []
  /\ nonCacheTokens res = localTotalTokens res - TokenCount lastBp.
Proof.
  intros Hnn Hfit Hlast Hge Hfound Hres.
  destruct (exact_hit_at_last E range r req model 0 lastBp Hlast Hge Hfound)
    as (_ & _ & _ & _ & Ht & Hs).
  destruct (nonCacheTokens_exact E range r req model res Hnn Hfit Hres) as (_ & _ & _ & Hn).
  destruct (resolveLocal_fields E range r req model res Hres) as (_ & _ & _ & Htally & _).
  rewrite Ht in Htally.
  assert (Hsch : scheduled res = []).
  { revert Hres. rewrite resolveLocal_eq. cbv zeta.
    destruct (totalTokens _ =? 0); [discriminate|]. intros [= <-]. exact Hs. }
  rewrite Hn, Htally. cbn. auto.
Qed.

(** ** A request served again by a later execution *)

(** The places of the breakpoints do not depend on the token estimates. *)
Lemma scanLoop_places {A : Type} (loc : string) (tok1 tok2 : A -> Z) (mark : A -> string)
      (l : list A) : forall i w1 w2,
  map place (breakpoints w1) = map place (breakpoints w2) ->
  globalBlockIndex w1 = globalBlockIndex w2 ->
  map place (breakpoints (scanLoop loc tok1 mark i l w1))
  = map place (breakpoints (scanLoop loc tok2 mark i l w2))
  /\ globalBlockIndex (scanLoop loc tok1 mark i l w1)
     = globalBlockIndex (scanLoop loc tok2 mark i l w2).
Proof.
  induction l as [|x rest IH]; intros i w1 w2 Hb Hg; [split; assumption|].
  cbn [scanLoop]. apply IH; cbn [breakpoints globalBlockIndex].
  - destruct (negb (String.eqb (mark x) "")); [|exact Hb].
    rewrite !map_app, Hb. cbn [map place Location Index BlockIndex TTL].
    rewrite Hg. reflexivity.
  - rewrite Hg. reflexivity.
Qed.

Lemma toolLoop_places (E1 E2 : Externals) model tools : forall w1 w2,
  map place (breakpoints w1) = map place (breakpoints w2) ->
  globalBlockIndex w1 = globalBlockIndex w2 ->
  map place (breakpoints (fold_left (toolStep E1 model) tools w1))
  = map place (breakpoints (fold_left (toolStep E2 model) tools w2))
  /\ globalBlockIndex (fold_left (toolStep E1 model) tools w1)
     = globalBlockIndex (fold_left (toolStep E2 model) tools w2).
Proof.
  induction tools as [|tool tools IH]; intros w1 w2 Hb Hg; [split; assumption|].
  cbn [fold_left]. apply IH; cbn [toolStep breakpoints globalBlockIndex];
    [exact Hb | rewrite Hg; reflexivity].
Qed.

Lemma walkRequest_places (E : Externals) decode req model :
  map place (breakpoints (walkRequest (withDecoder E decode) req model))
  = map place (breakpoints (walkRequest E req model)).
Proof.
  unfold walkRequest. rewrite !messageLoop_scan.
  apply scanLoop_places.
  - unfold walkSystem. destruct (dto.System req) as [[s|systemMedia]|].
    + cbn [breakpoints]. unfold walkTools.
      destruct (dto.Tools req); [|reflexivity]. apply toolLoop_places; reflexivity.
    + rewrite !systemLoop_scan. apply scanLoop_places; unfold walkTools;
        (destruct (dto.Tools req); [|reflexivity]); apply toolLoop_places; reflexivity.
    + unfold walkTools. destruct (dto.Tools req); [|reflexivity].
      apply toolLoop_places; reflexivity.
  - unfold walkSystem. destruct (dto.System req) as [[s|systemMedia]|].
    + cbn [globalBlockIndex]. f_equal. unfold walkTools.
      destruct (dto.Tools req); [|reflexivity]. apply toolLoop_places; reflexivity.
    + rewrite !systemLoop_scan. apply scanLoop_places; unfold walkTools;
        (destruct (dto.Tools req); [|reflexivity]); apply toolLoop_places; reflexivity.
    + unfold walkTools. destruct (dto.Tools req); [|reflexivity].
      apply toolLoop_places; reflexivity.
Qed.

Lemma Extract_places (E : Externals) decode req model :
  map place (ExtractCacheBreakpoints (withDecoder E decode) req model)
  = map place (ExtractCacheBreakpoints E req model).
Proof.
  rewrite !Extract_take, <- !firstn_map, walkRequest_places. reflexivity.
Qed.

(** The last breakpoints of two executions stand at the same place. *)
Lemma last_place (E : Externals) decode1 decode2 req model b1 b2 :
  last (ExtractCacheBreakpoints (withDecoder E decode1) req model) = Some b1 ->
  last (ExtractCacheBreakpoints (withDecoder E decode2) req model) = Some b2 ->
  place b1 = place b2
  /\ length (ExtractCacheBreakpoints (withDecoder E decode1) req model)
     = length (ExtractCacheBreakpoints (withDecoder E decode2) req model).
Proof.
  intros H1 H2.
  pose proof (Extract_places E decode1 req model) as P1.
  pose proof (Extract_places E decode2 req model) as P2.
  rewrite <- P2 in P1. split.
  - apply (f_equal last) in P1. rewrite !fmap_last, H1, H2 in P1.
    change (Some (place b1) = Some (place b2)) in P1. apply (inj Some) in P1. exact P1.
  - apply (f_equal length) in P1. rewrite !length_map in P1. exact P1.
Qed.

(** The fingerprint of a prefix rests on the place of its breakpoint and on
    the encoders, which all executions share. *)
Lemma fingerprint_place (E : Externals) decode1 decode2 range req model b1 b2 :
  place b1 = place b2 ->
  CalculatePrefixHash (withDecoder E decode1) range
    (BuildPrefixUpToBreakpoint (withDecoder E decode1) req b1) model
  = CalculatePrefixHash (withDecoder E decode2) range
      (BuildPrefixUpToBreakpoint (withDecoder E decode2) req b2) model.
Proof.
  intros Hp. unfold place in Hp. injection Hp as Hl Hi _ _.
  unfold BuildPrefixUpToBreakpoint. rewrite Hl, Hi. reflexivity.
Qed.

(** What the store of the breakpoints by one execution leaves for the last
    breakpoint of another one. *)
Lemma written_entry_is_found (E : Externals) decode2 decode3 range req model now lastBp :
  let E2 := withDecoder E decode2 in
  let E3 := withDecoder E decode3 in
  (forall text model, 0 <= CountTextToken E text model) ->
  exactTotal E2 req model <= GoInt.max_int ->
  Forall (fun bp => decodes E2 (stamped now (entryFor E2 range req model bp)) = true)
         (ExtractCacheBreakpoints E2 req model) ->
  Exists (fun bp => GetMinCacheableTokens model <= TokenCount bp)
         (ExtractCacheBreakpoints E2 req model) ->
  last (ExtractCacheBreakpoints E3 req model) = Some lastBp ->
  forall r,
    RedisEnabled r = true ->
    let r' := StoreCacheBreakpoints E2 range r now req model in
    RedisEnabled r' = true
    /\ (forall key, readable E (RDB r !! key) = true -> readable E (RDB r' !! key) = true)
    /\ readable E (RDB r' !! GetCacheKey model
                     (CalculatePrefixHash E3 range (BuildPrefixUpToBreakpoint E3 req lastBp)
                        model)) = true.
Proof.
  intros E2 E3 Hnn Hfit Hdec Hex Hlast r Hen r'.
  destruct (last_above_threshold E2 req model _ Hnn Hfit Hex) as (written & Hw & Hge).
  destruct (last_place E decode2 decode3 req model written lastBp Hw Hlast) as (Hp & _).
  destruct (storeBreakpoints_readable E2 range req model now (GetMinCacheableTokens model)
              (ExtractCacheBreakpoints E2 req model) Hdec r Hen) as (Hen' & Hkeep & Hnew).
  split; [exact Hen'|]. split; [exact Hkeep|].
  unfold E3. rewrite <- (fingerprint_place E decode2 decode3 range req model written lastBp Hp).
  apply (Hnew written); [|exact Hge].
  apply last_Some in Hw as (l' & Hl). rewrite Hl.
  apply elem_of_app. right. apply list_elem_of_singleton. reflexivity.
Qed.

(** X13.  After [ProcessPromptCache] has served a request and its goroutine has
    stored the breakpoints, serving the same request again, before the
    entries expire, is an exact hit on its last breakpoint: every flag is
    set, the read tokens are the token count of the last breakpoint as the
    repeat estimates it, and nothing is created.  The first call, its
    goroutine, which extracts the breakpoints again, and the repeat are three
    executions, each with its own enumeration of the decoded objects
    ([decode1], [decode2], [decode3]) and so with its own token estimates;
    the fingerprints do not depend on them.  The store is enabled, the token
    estimates are non-negative and fit Go's [int], the entries that the
    goroutine writes survive their encoding, and at least one breakpoint
    reaches the minimum threshold both as the goroutine and as the repeat
    estimate it. *)
Theorem stored_request_is_an_exact_hit (E : Externals) (range : MapOrder) (r : Redis)
        (now : Z) req model totalInputTokens
        (decode1 decode2 decode3 : string -> option JSON) :
  let E1 := withDecoder E decode1 in
  let E2 := withDecoder E decode2 in
  let E3 := withDecoder E decode3 in
  (forall text model, 0 <= CountTextToken E text model) ->
  exactTotal E2 req model <= GoInt.max_int ->
  exactTotal E3 req model <= GoInt.max_int ->
  RedisEnabled r = true ->
  let written := ExtractCacheBreakpoints E2 req model in
  let bps := ExtractCacheBreakpoints E3 req model in
  Forall (fun bp => decodes E2 (stamped now (entryFor E2 range req model bp)) = true)
         written ->
  Exists (fun bp => GetMinCacheableTokens model <= TokenCount bp) written ->
  Exists (fun bp => GetMinCacheableTokens model <= TokenCount bp) bps ->
  let tasks := snd (ProcessPromptCache E1 range r req model totalInputTokens) in
  let r' := fold_left (runTask E2 range now) tasks r in
  let result := fst (ProcessPromptCache E3 range r' req model totalInputTokens) in
  exists lastBp,
    last bps = Some lastBp
    /\ Hit result = true
    /\ CacheReadTokens result = TokenCount lastBp
    /\ CacheCreationTokens result = 0
    /\ BreakpointHits result = replicate (length bps) true.
Proof.
  intros E1 E2 E3 Hnn Hfit2 Hfit3 Hen written bps Hdec Hex2 Hex3 tasks r' result.
  subst E1 E2 E3.
  set (E3 := withDecoder E decode3) in *.
  destruct (last_above_threshold E3 req model _ Hnn Hfit3 Hex3) as (lastBp & Hlast & Hge).
  exists lastBp. split; [exact Hlast|].
  destruct (written_entry_is_found E decode2 decode3 range req model now lastBp
              Hnn Hfit2 Hdec Hex2 Hlast r Hen) as (Hen' & _ & Hk).
  assert (Hfound : exactEntryFound E3 range r' req model lastBp = true).
  { rewrite exactEntryFound_readable. subst r' tasks.
    cbn [ProcessPromptCache snd fold_left runTask]. rewrite Hen'. exact Hk. }
  destruct (exact_hit_at_last E3 range r' req model totalInputTokens lastBp Hlast Hge Hfound)
    as (Hh & Hr & Hc & Hf & _).
  subst result. cbn [ProcessPromptCache fst]. auto.
Qed.

(** The goroutines that the reconciler starts: fuzzy stores and the store
    of the breakpoints of its own request. *)
Lemma applyLocal_tasks (E : Externals) range r req model usage t :
  t ∈ snd (applyLocalCacheSimulation E range r (Some req) model usage) ->
  (exists m h n ttl, t = GoStoreFuzzyEntry m h n ttl) \/ t = GoStoreCacheBreakpoints req model.
Proof.
  unfold applyLocalCacheSimulation. rewrite resolveLocal_eq. cbv zeta.
  destruct (totalTokens _ =? 0); [intros Hin; inversion Hin|].
  cbn [tally scheduled].
  assert (Hmiss : forall t0 bps x,
             x ∈ snd (phaseMiss E range req model (GetMinCacheableTokens model) bps t0) ->
             exists m h n ttl, x = GoStoreFuzzyEntry m h n ttl).
  { intros t0 bps x. unfold phaseMiss.
    destruct (_ && _); [|intros Hin; inversion Hin].
    destruct (fold_left _ _ _) as [t' prev'].
    destruct bps as [|bp0 rest]; [intros Hin; inversion Hin|].
    cbn [snd]. intros Hin. apply list_elem_of_singleton in Hin. subst x. eauto. }
  destruct (_ && _).
  - cbn [snd]. intros Hin. left. eapply Hmiss. exact Hin.
  - cbn [snd]. intros Hin. apply elem_of_app in Hin as [Hin | Hin].
    + left. eapply Hmiss. exact Hin.
    + right. apply list_elem_of_singleton in Hin. exact Hin.
Qed.

(** X14.  After a call of the reconciler that started the store of the
    breakpoints, and once its goroutines have run, in whatever order, the
    same request, served before the entries expire, is an exact hit on its
    last breakpoint: the read tokens are the token count of that breakpoint
    as the repeat estimates it, nothing is created, no fuzzy entry is
    scheduled, and the fresh input is what follows the breakpoint.  The
    first call, its goroutines, of which the store of the breakpoints
    extracts them again, and the repeat are three executions, each with its
    own enumeration of the decoded objects ([decode1], [decode2],
    [decode3]) and so with its own token estimates.  The store is enabled,
    the token estimates are non-negative and fit Go's [int], the entries
    that the goroutine writes survive their encoding, and at least one
    breakpoint reaches the minimum threshold both as the goroutine and as
    the repeat estimate it. *)
Theorem goroutines_make_the_repeat_an_exact_hit (E : Externals) (range : MapOrder)
        (r : Redis) (now : Z) req model usage (ts : list Task)
        (decode1 decode2 decode3 : string -> option JSON) :
  let E1 := withDecoder E decode1 in
  let E2 := withDecoder E decode2 in
  let E3 := withDecoder E decode3 in
  (forall text model, 0 <= CountTextToken E text model) ->
  exactTotal E2 req model <= GoInt.max_int ->
  exactTotal E3 req model <= GoInt.max_int ->
  RedisEnabled r = true ->
  let written := ExtractCacheBreakpoints E2 req model in
  let bps := ExtractCacheBreakpoints E3 req model in
  Forall (fun bp => decodes E2 (stamped now (entryFor E2 range req model bp)) = true)
         written ->
  Exists (fun bp => GetMinCacheableTokens model <= TokenCount bp) written ->
  Exists (fun bp => GetMinCacheableTokens model <= TokenCount bp) bps ->
  ts ≡ₚ snd (applyLocalCacheSimulation E1 range r (Some req) model usage) ->
  GoStoreCacheBreakpoints req model ∈ ts ->
  let r' := fold_left (runTask E2 range now) ts r in
  forall res,
    resolveLocal E3 range r' req model = Some res ->
    exists lastBp,
      last bps = Some lastBp
      /\ exactHit (tally res) = true
      /\ cacheReadTokens (tally res) = TokenCount lastBp
      /\ cacheCreateTokens (tally res) = 0
      /\ scheduled res = []
      /\ nonCacheTokens res = localTotalTokens res - TokenCount lastBp.
Proof.
  intros E1 E2 E3 Hnn Hfit2 Hfit3 Hen written bps Hdec Hex2 Hex3 Hperm Hin r' res Hres.
  subst E1 E2 E3.
  set (E3 := withDecoder E decode3) in *.
  destruct (last_above_threshold E3 req model _ Hnn Hfit3 Hex3) as (lastBp & Hlast & Hge).
  exists lastBp. split; [exact Hlast|].
  set (key := GetCacheKey model
                (CalculatePrefixHash E3 range (BuildPrefixUpToBreakpoint E3 req lastBp) model)).
  assert (Hshape : forall t, t ∈ ts ->
            (exists m h n ttl, t = GoStoreFuzzyEntry m h n ttl)
            \/ t = GoStoreCacheBreakpoints req model).
  { intros t Ht. rewrite Hperm in Ht. eapply applyLocal_tasks. exact Ht. }
  assert (Hfold : forall ts r0,
            RedisEnabled r0 = true ->
            (forall t, t ∈ ts ->
               (exists m h n ttl, t = GoStoreFuzzyEntry m h n ttl)
               \/ t = GoStoreCacheBreakpoints req model) ->
            readable E (RDB r0 !! key) = true \/ GoStoreCacheBreakpoints req model ∈ ts ->
            RedisEnabled (fold_left (runTask (withDecoder E decode2) range now) ts r0) = true
            /\ readable E (RDB (fold_left (runTask (withDecoder E decode2) range now) ts r0) !! key) = true).
  { clear ts Hperm Hin r' Hres Hshape.
    induction ts as [|t ts IH]; intros r0 Hen0 Hshape Hor.
    - simpl. split; [exact Hen0|]. destruct Hor as [Hk | Hin]; [exact Hk | inversion Hin].
    - cbn [fold_left].
      assert (Hstep : RedisEnabled (runTask (withDecoder E decode2) range now r0 t) = true
                      /\ (readable E (RDB r0 !! key) = true
                          \/ t = GoStoreCacheBreakpoints req model ->
                          readable E (RDB (runTask (withDecoder E decode2) range now r0 t) !! key) = true)).
      { destruct (Hshape t ltac:(left)) as [(m & h & n & ttl & ->) | ->]; cbn [runTask].
        - split; [rewrite StoreFuzzyEntry_enabled; exact Hen0|].
          intros [Hk | Heq]; [|discriminate].
          rewrite StoreFuzzyEntry_eq. destruct (_ || _); [exact Hk|].
          rewrite RedisSet_lookup_ne; [exact Hk|].
          intros Heq. symmetry in Heq. exact (GetCacheKey_not_fuzzy _ _ _ _ Heq).
        - destruct (written_entry_is_found E decode2 decode3 range req model now lastBp
                      Hnn Hfit2 Hdec Hex2 Hlast r0 Hen0) as (Hen' & _ & Hk).
          split; [exact Hen'|]. intros _. exact Hk. }
      destruct Hstep as (Hen1 & Hk1).
      apply IH; [exact Hen1 | intros t' Ht'; apply Hshape; right; exact Ht' |].
      destruct Hor as [Hk | Hin'].
      + left. apply Hk1. left. exact Hk.
      + apply elem_of_cons in Hin' as [<- | Hin'].
        * left. apply Hk1. right. reflexivity.
        * right. exact Hin'. }
  destruct (Hfold ts r Hen Hshape (or_intror Hin)) as (Hen' & Hk).
  fold r' in Hen', Hk.
  assert (Hfound : exactEntryFound E3 range r' req model lastBp = true).
  { rewrite exactEntryFound_readable, Hen'. exact Hk. }
  exact (resolveLocal_at_last E3 range r' req model lastBp res Hnn Hfit3 Hlast Hge Hfound Hres).
Qed.

(** ** A fuzzy hit *)

Lemma fuzzyStep_fold_last minTokens l : forall t b,
  StronglySorted le_TokenCount l ->
  Forall (fun bp => minTokens <= TokenCount bp /\ lastCacheTokens t <= TokenCount bp) l ->
  last l = Some b ->
  lastCacheTokens (fold_left (fuzzyStep minTokens) l t) = TokenCount b.
Proof.
  induction l as [|bp l IH]; intros t b Hs Hall Hlast; [discriminate|].
  inversion Hs as [|? ? Hs' Hle]; subst. inversion Hall as [|? ? (Hge & Hlt) Hall']; subst.
  cbn [fold_left].
  assert (Hstep : lastCacheTokens (fuzzyStep minTokens t bp) = TokenCount bp).
  { unfold fuzzyStep. apply Z.leb_le in Hge. rewrite Hge, andb_true_r.
    destruct (lastCacheTokens t <? TokenCount bp) eqn:H; [reflexivity|].
    apply Z.ltb_ge in H. lia. }
  destruct l as [|bp' l'].
  - cbn [fold_left]. injection Hlast as <-. exact Hstep.
  - apply IH; [exact Hs'| |exact Hlast].
    rewrite Hstep. rewrite Forall_forall in *. intros x Hx. split.
    + apply (Hall' x Hx).
    + apply (Hle x Hx).
Qed.

(** X15.  When no breakpoint of the request has an exact entry, a fuzzy entry
    with a positive count is found and the first breakpoint reaches the
    minimum threshold (token estimates non-negative and within Go's [int]),
    the reconciler credits as read the smaller of the stored count and the
    token count of the first breakpoint, and as creation all the rest up to
    the last breakpoint; it schedules no new fuzzy entry. *)
Theorem fuzzy_hit_figures (E : Externals) (range : MapOrder) (r : Redis)
        req model res f bp0 rest :
  (forall text model, 0 <= CountTextToken E text model) ->
  exactTotal E req model <= GoInt.max_int ->
  resolveLocal E range r req model = Some res ->
  Forall (fun bp => exactEntryFound E range r req model bp = false)
         (ExtractCacheBreakpoints E req model) ->
  GetFuzzyEntry E r model (CalculateSystemHash E range req model) = (f, true) ->
  0 < f ->
  ExtractCacheBreakpoints E req model = bp0 :: rest ->
  GetMinCacheableTokens model <= TokenCount bp0 ->
  exists lastBp,
    last (bp0 :: rest) = Some lastBp
    /\ exactHit (tally res) = false
    /\ cacheReadTokens (tally res) = Z.min f (TokenCount bp0)
    /\ cacheCreateTokens (tally res) = TokenCount lastBp - Z.min f (TokenCount bp0)
    /\ cacheCreate5m (tally res) + cacheCreate1h (tally res) = cacheCreateTokens (tally res)
    /\ scheduled res = []
    /\ nonCacheTokens res = localTotalTokens res - TokenCount lastBp.
Proof.
  intros Hnn Hfit Hres Hno Hf Hpos Hbps Hge0.
  destruct (Extract_spec E req model Hnn Hfit) as (_ & Htools & Hmax & Hs & Hall).
  destruct (nonCacheTokens_exact E range r req model res Hnn Hfit Hres) as (_ & _ & _ & Hn).
  set (C := totalTokens (walkRequest E req model) - toolsTokens (walkRequest E req model))
    in *.
  set (minTokens := GetMinCacheableTokens model) in *.
  assert (Hmin : 0 < minTokens) by (unfold minTokens; rewrite GetMinCacheableTokens_eq; lia).
  destruct (last (bp0 :: rest)) as [lastBp|] eqn:Hlast;
    [|apply last_None in Hlast; discriminate].
  exists lastBp. split; [reflexivity|].
  set (rd := if TokenCount bp0 <? f then TokenCount bp0 else f).
  assert (Hrd : rd = Z.min f (TokenCount bp0)).
  { unfold rd. destruct (TokenCount bp0 <? f) eqn:H;
      [apply Z.ltb_lt in H | apply Z.ltb_ge in H]; lia. }
  set (t0 := {| cacheReadTokens := rd; cacheCreateTokens := 0; cacheCreate5m := 0;
                cacheCreate1h := 0; lastCacheTokens := rd; exactHit := false |}).
  set (t2 := fold_left (fuzzyStep minTokens) (bp0 :: rest) t0).
  rewrite Hbps in Hs, Hall, Hno.
  assert (H0 : 0 <= TokenCount bp0 <= C) by (inversion Hall; subst; assumption).
  assert (Hb0 : Balanced C t0) by (unfold Balanced, t0; cbn; lia).
  destruct (fuzzyStep_fold minTokens C (bp0 :: rest) ltac:(lia) t0 Hb0 Hall)
    as (Hb2 & Hr2 & Hh2).
  fold t2 in Hb2, Hr2, Hh2. cbn [t0 cacheReadTokens exactHit] in Hr2, Hh2.
  assert (Hl2 : lastCacheTokens t2 = TokenCount lastBp).
  { apply fuzzyStep_fold_last; [exact Hs| |exact Hlast].
    inversion Hs as [|? ? _ Hle]; subst.
    constructor; [cbn; lia|].
    rewrite Forall_forall in *. intros x Hx. specialize (Hle x Hx).
    unfold le_TokenCount in Hle. cbn. lia. }
  assert (Hfin : resolveLocal E range r req model
                 = Some res -> tally res = t2 /\ scheduled res = []).
  { rewrite resolveLocal_eq. cbv zeta. rewrite Hbps.
    destruct (totalTokens _ =? 0); [discriminate|]. intros [= <-]. cbn [tally scheduled].
    fold minTokens.
    assert (He : phaseExact E range r req model minTokens (bp0 :: rest) tallyZero = tallyZero).
    { unfold phaseExact. rewrite scanExact_None_of_no_entry by exact Hno. reflexivity. }
    rewrite He.
    assert (Hfz : phaseFuzzy E range r req model minTokens (bp0 :: rest) tallyZero = t2).
    { unfold phaseFuzzy. cbn [exactHit tallyZero negb length Nat.ltb Nat.leb andb].
      rewrite Hf. apply Z.leb_le in Hge0. fold minTokens in Hge0. rewrite Hge0.
      reflexivity. }
    rewrite Hfz. unfold phaseMiss. rewrite Hr2.
    destruct (rd =? 0) eqn:Hz; [apply Z.eqb_eq in Hz; lia|].
    split; reflexivity. }
  destruct (Hfin Hres) as (Ht & Hsch).
  rewrite Hn, Ht, Hl2, Hr2, Hh2. destruct Hb2 as (_ & _ & _ & H51 & Hsum & _).
  rewrite Hr2, Hl2 in Hsum.
  split; [reflexivity|]. split; [exact Hrd|]. split; [lia|]. split; [exact H51|].
  split; [exact Hsch | reflexivity].
Qed.

(** ** Requests without system prompt *)

Lemma phaseMiss_exactHit (E : Externals) range req model minTokens bps t :
  exactHit (fst (phaseMiss E range req model minTokens bps t)) = exactHit t.
Proof.
  unfold phaseMiss.
  destruct ((cacheReadTokens t =? 0) && (0 <? length bps)%nat); [|reflexivity].
  pose proof (missStep_read minTokens bps t 0) as (_ & Hh).
  destruct (fold_left _ _ _) as [t' prev']. simpl in Hh.
  destruct bps; exact Hh.
Qed.

(** X16.  A request without system prompt takes no part in fuzzy matching: its
    system digest is empty, it reads cache tokens only on an exact hit, and
    the fuzzy entry that its miss schedules is never written. *)
Theorem no_system_prompt_no_fuzzy_matching (E : Externals) (range : MapOrder) (r : Redis)
        (now : Z) req model :
  dto.System req = None ->
  CalculateSystemHash E range req model = ""
  /\ forall res,
      resolveLocal E range r req model = Some res ->
      (exactHit (tally res) = false -> cacheReadTokens (tally res) = 0)
      /\ forall r0 task, task ∈ scheduled res -> runTask E range now r0 task = r0.
Proof.
  intros Hsys.
  assert (Hh : CalculateSystemHash E range req model = "")
    by (unfold CalculateSystemHash; rewrite Hsys; reflexivity).
  split; [exact Hh|]. intros res. rewrite resolveLocal_eq. cbv zeta.
  destruct (totalTokens _ =? 0); [discriminate|]. intros [= <-]. cbn [tally scheduled].
  set (minTokens := GetMinCacheableTokens model).
  set (bps := ExtractCacheBreakpoints E req model).
  set (t1 := phaseExact E range r req model minTokens bps tallyZero).
  assert (Hfz : phaseFuzzy E range r req model minTokens bps t1 = t1).
  { unfold phaseFuzzy. rewrite Hh.
    assert (Hg : GetFuzzyEntry E r model "" = (0, false)).
    { unfold GetFuzzyEntry. cbn [String.eqb]. rewrite orb_true_r. reflexivity. }
    rewrite Hg. destruct (negb (exactHit t1) && (0 <? length bps)%nat); reflexivity. }
  rewrite Hfz. split.
  - rewrite phaseMiss_exactHit, phaseMiss_read. subst t1. unfold phaseExact.
    destruct (scanExact E range r req model minTokens bps (length bps)) as [i|];
      [|reflexivity].
    destruct (bps !! i) as [bp|]; [|reflexivity].
    match goal with
    | |- context [fold_left (exactStep minTokens) ?l ?t0] =>
        destruct (exactStep_frame minTokens l t0) as (_ & ->)
    end.
    discriminate.
  - intros r0 task. unfold phaseMiss.
    destruct (_ && _); [|intros Hin; inversion Hin].
    destruct (fold_left _ _ _) as [t' prev'].
    destruct bps as [|bp0 rest]; [intros Hin; inversion Hin|].
    cbn [snd]. intros Hin. apply list_elem_of_singleton in Hin. subst task.
    rewrite Hh. cbn [runTask]. rewrite StoreFuzzyEntry_eq. cbn [String.eqb].
    rewrite orb_true_r. reflexivity.
Qed.

(** ** The goroutines of the reconciler *)

(** X17.  The goroutines that a call of the reconciler starts once it has
    resolved the request.  A fuzzy entry for the first breakpoint, whatever
    its size, exactly when the call credits no read token and the request has
    a breakpoint; then the store of the breakpoints, exactly when the call
    credits a read or a creation, which is when it rewrites the usage
    record. *)
Theorem reconciler_goroutines (E : Externals) (range : MapOrder) (r : Redis)
        req model usage res :
  resolveLocal E range r req model = Some res ->
  let t := tally res in
  scheduled res
  = (if cacheReadTokens t =? 0
     then match ExtractCacheBreakpoints E req model with
          | bp0 :: _ =>
              [GoStoreFuzzyEntry model (CalculateSystemHash E range req model)
                 (TokenCount bp0) (TTL bp0)]
          | [] => []
          end
     else [])
  /\ snd (applyLocalCacheSimulation E range r (Some req) model usage)
     = scheduled res
       ++ (if (cacheReadTokens t =? 0) && (cacheCreateTokens t =? 0) then []
           else [GoStoreCacheBreakpoints req model]).
Proof.
  intros Hres t. split.
  - subst t. revert Hres. rewrite resolveLocal_eq. cbv zeta.
    destruct (totalTokens _ =? 0); [discriminate|]. intros [= <-]. cbn [tally scheduled].
    rewrite phaseMiss_read. unfold phaseMiss.
    destruct (cacheReadTokens _ =? 0); [|reflexivity]. cbn [andb].
    destruct (ExtractCacheBreakpoints E req model) as [|bp0 rest]; [reflexivity|].
    cbn [length Nat.ltb Nat.leb]. destruct (fold_left _ _ _). reflexivity.
  - unfold applyLocalCacheSimulation. rewrite Hres. fold t.
    destruct ((cacheReadTokens t =? 0) && (cacheCreateTokens t =? 0));
      [rewrite app_nil_r|]; reflexivity.
Qed.

(** ** The enumeration order of maps *)

Section Order.

Variable E : Externals.
Variables range1 range2 : MapOrder.
Hypothesis valid1 : ValidOrder range1.
Hypothesis valid2 : ValidOrder range2.

Lemma CalculatePrefixHash_order prefix model :
  CalculatePrefixHash E range1 prefix model = CalculatePrefixHash E range2 prefix model.
Proof.
  unfold CalculatePrefixHash. f_equal. apply json_Marshal_map_order; assumption.
Qed.

Lemma CalculateSystemHash_order req model :
  CalculateSystemHash E range1 req model = CalculateSystemHash E range2 req model.
Proof.
  unfold CalculateSystemHash. destruct (dto.System req); [|reflexivity].
  f_equal. apply json_Marshal_map_order; assumption.
Qed.

Lemma exactEntryFound_order r req model bp :
  exactEntryFound E range1 r req model bp = exactEntryFound E range2 r req model bp.
Proof. unfold exactEntryFound. rewrite CalculatePrefixHash_order. reflexivity. Qed.

Lemma scanExact_order r req model minTokens bps k :
  scanExact E range1 r req model minTokens bps k
  = scanExact E range2 r req model minTokens bps k.
Proof.
  induction k as [|k IH]; simpl; [reflexivity|].
  rewrite IH. destruct (bps !! k); [|reflexivity].
  rewrite exactEntryFound_order. reflexivity.
Qed.

Lemma CheckCacheHits_order r req model totalInputTokens :
  CheckCacheHits E range1 r req model totalInputTokens
  = CheckCacheHits E range2 r req model totalInputTokens.
Proof. unfold CheckCacheHits. rewrite scanExact_order. reflexivity. Qed.

Lemma StoreFuzzyEntry_order r model systemHash tokenCount ttl :
  StoreFuzzyEntry E range1 r model systemHash tokenCount ttl
  = StoreFuzzyEntry E range2 r model systemHash tokenCount ttl.
Proof.
  rewrite !StoreFuzzyEntry_eq. unfold fuzzyPayload.
  rewrite (json_Marshal_map_order E range1 range2) by assumption. reflexivity.
Qed.

Lemma StoreCacheBreakpoints_order r now req model :
  StoreCacheBreakpoints E range1 r now req model
  = StoreCacheBreakpoints E range2 r now req model.
Proof.
  unfold StoreCacheBreakpoints. generalize (ExtractCacheBreakpoints E req model).
  intros bps. revert r. induction bps as [|bp bps IH]; intros r; simpl; [reflexivity|].
  rewrite IH. f_equal. unfold storeBreakpointStep.
  rewrite CalculatePrefixHash_order. reflexivity.
Qed.

Lemma resolveLocal_order r req model :
  resolveLocal E range1 r req model = resolveLocal E range2 r req model.
Proof.
  rewrite !resolveLocal_eq. cbv zeta.
  assert (He : forall bps t,
            phaseExact E range1 r req model (GetMinCacheableTokens model) bps t
            = phaseExact E range2 r req model (GetMinCacheableTokens model) bps t).
  { intros bps t. unfold phaseExact. rewrite scanExact_order. reflexivity. }
  assert (Hf : forall bps t,
            phaseFuzzy E range1 r req model (GetMinCacheableTokens model) bps t
            = phaseFuzzy E range2 r req model (GetMinCacheableTokens model) bps t).
  { intros bps t. unfold phaseFuzzy. rewrite CalculateSystemHash_order. reflexivity. }
  assert (Hm : forall bps t,
            phaseMiss E range1 req model (GetMinCacheableTokens model) bps t
            = phaseMiss E range2 req model (GetMinCacheableTokens model) bps t).
  { intros bps t. unfold phaseMiss. rewrite CalculateSystemHash_order. reflexivity. }
  rewrite He, Hf, Hm. reflexivity.
Qed.

End Order.

(** X18.  The results of the engine do not depend on the order in which the
    runtime enumerates the maps that it encodes: the hit check, the
    reconciler with the goroutines it starts, and what these goroutines
    write are the same under any two enumerations. *)
Theorem engine_ignores_map_order (E : Externals) (range1 range2 : MapOrder) (r : Redis) :
  ValidOrder range1 -> ValidOrder range2 ->
  (forall req model totalInputTokens,
      CheckCacheHits E range1 r req model totalInputTokens
      = CheckCacheHits E range2 r req model totalInputTokens)
  /\ (forall req model usage,
         applyLocalCacheSimulation E range1 r req model usage
         = applyLocalCacheSimulation E range2 r req model usage)
  /\ (forall now task, runTask E range1 now r task = runTask E range2 now r task).
Proof.
  intros H1 H2. split; [|split].
  - intros req model total. apply CheckCacheHits_order; assumption.
  - intros [req|] model usage; [|reflexivity]. unfold applyLocalCacheSimulation.
    rewrite (resolveLocal_order E range1 range2 H1 H2). reflexivity.
  - intros now [model systemHash tokenCount ttl | req model]; cbn [runTask].
    + apply StoreFuzzyEntry_order; assumption.
    + apply StoreCacheBreakpoints_order; assumption.
Qed.

(** ** What the store of the breakpoints writes *)

Lemma StoreCacheEntry_footprint (E : Externals) r now entry :
  let r' := fst (StoreCacheEntry E r now entry) in
  (forall key, is_Some (RDB r !! key) -> is_Some (RDB r' !! key))
  /\ (forall key, RDB r' !! key <> RDB r !! key ->
                  key = GetCacheKey (Model entry) (Hash entry))
  /\ (size (RDB r') <= S (size (RDB r)))%nat.
Proof.
  cbv zeta. rewrite StoreCacheEntry_eq.
  destruct (negb (RedisEnabled r)); [cbn [fst]; split; [auto|split; [congruence | lia]]|].
  destruct (json_Marshal_CacheEntry E _) as [data|];
    [|cbn [fst]; split; [auto|split; [congruence | lia]]].
  cbn [fst RedisSet RDB]. split; [|split].
  - intros key Hk. destruct (decide (key = GetCacheKey (Model entry) (Hash entry))) as [->|Hne].
    + rewrite lookup_insert_eq. eauto.
    + rewrite lookup_insert_ne by congruence. exact Hk.
  - intros key Hk. destruct (decide (key = GetCacheKey (Model entry) (Hash entry)));
      [assumption|].
    rewrite lookup_insert_ne in Hk by congruence. congruence.
  - rewrite map_size_insert. destruct (RDB r !! _); unfold id; lia.
Qed.

(** X19.  [StoreCacheBreakpoints] writes only under the exact keys of the
    breakpoints of the request that reach the minimum threshold, removes no
    item, adds at most four, and leaves the store as it was when no
    breakpoint reaches the threshold. *)
Theorem StoreCacheBreakpoints_footprint (E : Externals) (range : MapOrder) (r : Redis)
        (now : Z) req model :
  let bps := ExtractCacheBreakpoints E req model in
  let r' := StoreCacheBreakpoints E range r now req model in
  RedisEnabled r' = RedisEnabled r
  /\ (forall key, is_Some (RDB r !! key) -> is_Some (RDB r' !! key))
  /\ (forall key,
         RDB r' !! key <> RDB r !! key ->
         exists bp,
           bp ∈ bps
           /\ GetMinCacheableTokens model <= TokenCount bp
           /\ key = GetCacheKey model
                      (CalculatePrefixHash E range (BuildPrefixUpToBreakpoint E req bp) model))
  /\ (size (RDB r') <= size (RDB r) + MaxBreakpoints)%nat
  /\ (Forall (fun bp => TokenCount bp < GetMinCacheableTokens model) bps -> r' = r).
Proof.
  intros bps r'. split; [apply StoreCacheBreakpoints_enabled|].
  assert (Hlen : (length bps <= MaxBreakpoints)%nat).
  { unfold bps. rewrite Extract_take, length_take. lia. }
  subst r'. unfold StoreCacheBreakpoints. fold bps.
  set (minTokens := GetMinCacheableTokens model).
  assert (Hgen : forall l r0,
            let r1 := fold_left (storeBreakpointStep E range req model now minTokens) l r0 in
            (forall key, is_Some (RDB r0 !! key) -> is_Some (RDB r1 !! key))
            /\ (forall key,
                   RDB r1 !! key <> RDB r0 !! key ->
                   exists bp,
                     bp ∈ l /\ minTokens <= TokenCount bp
                     /\ key = GetCacheKey model
                                (CalculatePrefixHash E range
                                   (BuildPrefixUpToBreakpoint E req bp) model))
            /\ (size (RDB r1) <= size (RDB r0) + length l)%nat
            /\ (Forall (fun bp => TokenCount bp < minTokens) l -> r1 = r0)).
  { induction l as [|bp l IH]; intros r0; cbn [fold_left].
    - split; [auto|]. split; [congruence|]. split; [simpl; lia | reflexivity].
    - set (r1 := storeBreakpointStep E range req model now minTokens r0 bp).
      destruct (IH r1) as (Hkeep & Hnew & Hsize & Hsame).
      assert (Hstep : (forall key, is_Some (RDB r0 !! key) -> is_Some (RDB r1 !! key))
                      /\ (forall key, RDB r1 !! key <> RDB r0 !! key ->
                                      minTokens <= TokenCount bp
                                      /\ key = GetCacheKey model
                                                 (CalculatePrefixHash E range
                                                    (BuildPrefixUpToBreakpoint E req bp) model))
                      /\ (size (RDB r1) <= S (size (RDB r0)))%nat
                      /\ (TokenCount bp < minTokens -> r1 = r0)).
      { subst r1. unfold storeBreakpointStep.
        destruct (TokenCount bp <? minTokens) eqn:Hlt.
        - split; [auto|]. split; [congruence|]. split; [lia | reflexivity].
        - apply Z.ltb_ge in Hlt.
          match goal with
          | |- context [StoreCacheEntry E r0 now ?e] =>
              destruct (StoreCacheEntry_footprint E r0 now e) as (H1 & H2 & H3)
          end.
          split; [exact H1|]. split; [|split; [exact H3 | lia]].
          intros key Hk. split; [exact Hlt | exact (H2 key Hk)]. }
      destruct Hstep as (Hk1 & Hn1 & Hs1 & He1).
      split; [auto|]. split; [|split].
      + intros key Hk. destruct (decide (RDB r1 !! key = RDB r0 !! key)) as [Heq|Hne].
        * destruct (Hnew key ltac:(congruence)) as (b & Hin & Hge & Hkey).
          exists b. split; [right; exact Hin | auto].
        * destruct (Hn1 key Hne) as (Hge & Hkey). exists bp. split; [left | auto].
      + cbn [length]. lia.
      + intros Hall. inversion Hall; subst. rewrite Hsame by assumption. auto. }
  destruct (Hgen bps r) as (H1 & H2 & H3 & H4).
  split; [exact H1|]. split; [exact H2|]. split; [lia | exact H4].
Qed.

(** * Text reduction *)

Lemma extractTextFromMap_eq obj :
  extractTextFromMap obj
  = String.concat "" (map (fieldText obj) textFields) +:+ nestedText obj.
Proof. reflexivity. Qed.

Lemma fieldText_withoutSchema obj name :
  isSchemaKey name = false ->
  fieldText (withoutSchema obj) name = fieldText obj name.
Proof.
  intros Hname. induction obj as [|[key v] obj IH]; [reflexivity|].
  unfold withoutSchema in *. cbn [List.filter fst].
  destruct (isSchemaKey key) eqn:Hkey; cbn [negb fieldText].
  - rewrite IH. destruct (String.eqb key name) eqn:Heq; [|reflexivity].
    apply String.eqb_eq in Heq. congruence.
  - rewrite IH. reflexivity.
Qed.

Lemma nestedText_withoutSchema obj : nestedText (withoutSchema obj) = nestedText obj.
Proof.
  induction obj as [|[key v] obj IH]; [reflexivity|].
  unfold withoutSchema in *. cbn [List.filter fst].
  destruct (isSchemaKey key) eqn:Hkey; cbn [negb nestedText].
  - rewrite IH, Hkey. destruct v; reflexivity.
  - rewrite IH. reflexivity.
Qed.

(** X20.  What sits under the keys [input_schema], [properties] and [required]
    of an object never reaches the reduced text: the object without these
    members has the same text, and two encodings that decode to objects
    equal up to these members have the same token estimate. *)
Theorem schema_members_carry_no_text (E : Externals) (obj : list (string * JSON)) :
  extractTextFromMap (withoutSchema obj) = extractTextFromMap obj
  /\ forall data data' model,
      json_Unmarshal E data = Some (JObject obj) ->
      json_Unmarshal E data' = Some (JObject (withoutSchema obj)) ->
      estimateContentTokens E data' model = estimateContentTokens E data model.
Proof.
  assert (Heq : extractTextFromMap (withoutSchema obj) = extractTextFromMap obj).
  { rewrite !extractTextFromMap_eq, nestedText_withoutSchema. f_equal. f_equal.
    unfold textFields. cbn [map].
    rewrite !fieldText_withoutSchema by reflexivity. reflexivity. }
  split; [exact Heq|].
  intros data data' model Hd Hd'. unfold estimateContentTokens, extractTextContent.
  rewrite Hd, Hd', Heq. reflexivity.
Qed.

(** * Initialisation and eligible models *)

Lemma Split_nonempty s sep : strings.Split s sep <> [].
Proof.
  destruct s as [|c s]; cbn [strings.Split]; [discriminate|].
  destruct (Ascii.eqb c sep); [discriminate|].
  destruct (strings.Split s sep); discriminate.
Qed.

(** The pieces hold no separator and joining them gives the string back. *)
Lemma Split_join s sep :
  String.concat (String sep EmptyString) (strings.Split s sep) = s
  /\ Forall (fun piece => noByte sep piece = true) (strings.Split s sep).
Proof.
  induction s as [|c s (IHj & IHp)]; cbn [strings.Split].
  - split; [reflexivity | repeat constructor].
  - pose proof (Split_nonempty s sep) as Hne.
    destruct (Ascii.eqb c sep) eqn:Hc.
    + apply Ascii.eqb_eq in Hc. subst c. split; [|constructor; [reflexivity | exact IHp]].
      destruct (strings.Split s sep) as [|piece pieces]; [contradiction|].
      cbn [String.concat]. cbn [String.concat] in IHj. rewrite IHj. reflexivity.
    + destruct (strings.Split s sep) as [|piece pieces]; [contradiction|].
      inversion IHp as [|? ? Hp Hps]; subst. split.
      * destruct pieces; reflexivity.
      * constructor; [|exact Hps]. cbn [noByte]. rewrite Hc, Hp. reflexivity.
Qed.

Lemma Split_app a sep b :
  strings.Split (a +:+ String sep b) sep = strings.Split a sep ++ strings.Split b sep.
Proof.
  induction a as [|c a IH].
  - change ("" +:+ String sep b) with (String sep b). cbn [strings.Split].
    rewrite Ascii.eqb_refl. reflexivity.
  - change (String c a +:+ String sep b) with (String c (a +:+ String sep b)).
    cbn [strings.Split]. rewrite IH. destruct (Ascii.eqb c sep); [reflexivity|].
    pose proof (Split_nonempty a sep) as Hne.
    destruct (strings.Split a sep); [contradiction | reflexivity].
Qed.

(** X21.  What [InitPCache] leaves in the configuration.  The simulation is
    enabled after the call exactly when it was enabled before or
    PCACHE_ENABLED is the string [true]: the call never disables it.  An
    unset or empty PCACHE_TARGET_MODELS keeps the targets; any other value
    replaces them by the trimmed pieces of the value between its commas, of
    which there is at least one. *)
Theorem InitPCache_configuration (Getenv TrimSpace : string -> string) (cfg : Config) :
  let cfg' := InitPCache Getenv TrimSpace cfg in
  let models := Getenv "PCACHE_TARGET_MODELS" in
  (PCacheEnabled cfg' = true
   <-> PCacheEnabled cfg = true \/ Getenv "PCACHE_ENABLED" = "true")
  /\ (models = "" -> PCacheTargetModels cfg' = PCacheTargetModels cfg)
  /\ (models <> "" ->
      exists pieces,
        PCacheTargetModels cfg' = map TrimSpace pieces
        /\ pieces <> []
        /\ String.concat "," pieces = models
        /\ Forall (fun piece => noByte "," piece = true) pieces).
Proof.
  intros cfg' models. subst cfg'. unfold InitPCache. cbn [PCacheEnabled PCacheTargetModels].
  fold models. split; [|split].
  - destruct (String.eqb (Getenv "PCACHE_ENABLED") "true") eqn:He.
    + apply String.eqb_eq in He. tauto.
    + apply String.eqb_neq in He. tauto.
  - intros ->. reflexivity.
  - intros Hne. apply String.eqb_neq in Hne. rewrite Hne. cbn [negb].
    exists (strings.Split models ","). split; [reflexivity|].
    split; [apply Split_nonempty|]. apply Split_join.
Qed.

Lemma Contains_empty s : strings.Contains s "" = true.
Proof. destruct s; reflexivity. Qed.

(** X22.  An empty item in PCACHE_TARGET_MODELS (a leading, trailing or doubled
    comma) makes every model a target once PCACHE_ENABLED is [true]: the
    empty target is contained in every model name.  [strings.TrimSpace]
    leaves the empty string empty. *)
Theorem empty_target_matches_every_model (Getenv TrimSpace mapLower : string -> string)
        (cfg : Config) (a b : string) :
  TrimSpace "" = "" ->
  Getenv "PCACHE_ENABLED" = "true" ->
  Getenv "PCACHE_TARGET_MODELS" = "," +:+ b
  \/ Getenv "PCACHE_TARGET_MODELS" = a +:+ ","
  \/ Getenv "PCACHE_TARGET_MODELS" = a +:+ ",," +:+ b ->
  forall model, IsPCacheTargetModel mapLower (InitPCache Getenv TrimSpace cfg) model = true.
Proof.
  intros Htrim Hen Hmodels model.
  assert (Hin : In "" (strings.Split (Getenv "PCACHE_TARGET_MODELS") ",")
                /\ Getenv "PCACHE_TARGET_MODELS" <> "").
  { destruct Hmodels as [-> | [-> | ->]].
    - split; [left; reflexivity | discriminate].
    - split; [|destruct a; discriminate].
      change (a +:+ ",") with (a +:+ String "," ""). rewrite Split_app.
      apply in_or_app. right. left. reflexivity.
    - split; [|destruct a; discriminate].
      change (a +:+ ",," +:+ b) with (a +:+ String "," ("," +:+ b)). rewrite Split_app.
      apply in_or_app. right. left. reflexivity. }
  destruct Hin as (Hin & Hne).
  unfold IsPCacheTargetModel, InitPCache. cbn [PCacheEnabled PCacheTargetModels].
  rewrite Hen. cbn [String.eqb Ascii.eqb Bool.eqb negb].
  apply String.eqb_neq in Hne. rewrite Hne. cbn [negb].
  apply existsb_exists. exists (TrimSpace ""). split.
  - apply in_map. exact Hin.
  - rewrite Htrim. change (strings.ToLowerString mapLower "") with "".
    apply Contains_empty.
Qed.

(** ** Eligible models *)

Lemma append_cons c a b : String c a +:+ b = String c (a +:+ b).
Proof. reflexivity. Qed.

Lemma append_nil_l b : "" +:+ b = b.
Proof. reflexivity. Qed.

Lemma prefix_append a s : String.prefix a s = true <-> exists rest, s = a +:+ rest.
Proof.
  revert s. induction a as [|c a IH]; intros s.
  - split; [intros _; exists s; reflexivity | intros _; destruct s; reflexivity].
  - destruct s as [|d s]; cbn [String.prefix].
    + split; [discriminate | intros (rest & Hr); discriminate].
    + destruct (ascii_dec c d) as [->|Hne].
      * rewrite IH. split; intros (rest & Hr); exists rest.
        -- rewrite append_cons, Hr. reflexivity.
        -- rewrite append_cons in Hr. injection Hr as Hr. exact Hr.
      * split; [discriminate|]. intros (rest & Hr). rewrite append_cons in Hr.
        injection Hr as Hc _. congruence.
Qed.

(** [strings.Contains]: the substring stands somewhere in the string. *)
Lemma Contains_append s substr :
  strings.Contains s substr = true <-> exists before after, s = before +:+ substr +:+ after.
Proof.
  induction s as [|c s IH].
  - cbn [strings.Contains]. destruct (String.prefix substr "") eqn:Hp.
    + apply prefix_append in Hp as (rest & Hr). split; [|reflexivity].
      intros _. exists "", rest. exact Hr.
    + split; [discriminate|]. intros (before & after & Hs).
      destruct before; [|discriminate]. rewrite append_nil_l in Hs.
      assert (String.prefix substr "" = true) by (apply prefix_append; eauto).
      congruence.
  - cbn [strings.Contains]. destruct (String.prefix substr (String c s)) eqn:Hp.
    + apply prefix_append in Hp as (rest & Hr). split; [|reflexivity].
      intros _. exists "", rest. exact Hr.
    + rewrite IH. split.
      * intros (before & after & ->). exists (String c before), after. reflexivity.
      * intros (before & after & Hs). destruct before as [|d before].
        -- rewrite append_nil_l in Hs.
           assert (String.prefix substr (String c s) = true)
             by (apply prefix_append; eauto).
           congruence.
        -- rewrite append_cons in Hs. injection Hs as _ Hs. eauto.
Qed.

Lemma ToLower_append a b :
  strings.ToLower (a +:+ b) = strings.ToLower a +:+ strings.ToLower b.
Proof.
  induction a as [|c a IH]; [reflexivity|].
  rewrite append_cons. cbn [strings.ToLower]. rewrite IH. reflexivity.
Qed.

(** A lower-cased string splits where the string does. *)
Lemma ToLower_split s : forall x y,
  strings.ToLower s = x +:+ y ->
  exists a b, s = a +:+ b /\ strings.ToLower a = x /\ strings.ToLower b = y.
Proof.
  induction s as [|c s IH]; intros x y Hs.
  - destruct x; [|discriminate]. rewrite append_nil_l in Hs. exists "", "". auto.
  - destruct x as [|d x].
    + rewrite append_nil_l in Hs. exists "", (String c s). auto.
    + cbn [strings.ToLower] in Hs. rewrite append_cons in Hs. injection Hs as Hc Hs.
      destruct (IH x y Hs) as (a & b & -> & Ha & Hb).
      exists (String c a), b. cbn [strings.ToLower]. rewrite Ha, Hc. auto.
Qed.

Lemma ToLowerString_ascii mapLower s :
  strings.isASCII s = true -> strings.ToLowerString mapLower s = strings.ToLower s.
Proof. intros H. unfold strings.ToLowerString. rewrite H. reflexivity. Qed.

(** X23.  No model is a target while the simulation is disabled.  Once it is
    enabled, a model whose name is made of ASCII bytes is a target exactly
    when its name contains, up to the case of the letters [A] to [Z], the
    lower-cased form of one of the configured targets; so two such names
    that differ in the case of their letters only are targets together.
    (The lower-casing of a name with other bytes follows Unicode's case
    tables, which are not unfolded here.) *)
Theorem IsPCacheTargetModel_ignores_case (mapLower : string -> string) (cfg : Config)
        (model : string) :
  (PCacheEnabled cfg = false -> IsPCacheTargetModel mapLower cfg model = false)
  /\ (strings.isASCII model = true ->
      (IsPCacheTargetModel mapLower cfg model = true
       <-> PCacheEnabled cfg = true
           /\ exists target before found after,
                In target (PCacheTargetModels cfg)
                /\ model = before +:+ found +:+ after
                /\ strings.ToLower found = strings.ToLowerString mapLower target)
      /\ forall model',
           strings.isASCII model' = true ->
           strings.ToLower model' = strings.ToLower model ->
           IsPCacheTargetModel mapLower cfg model' = IsPCacheTargetModel mapLower cfg model).
Proof.
  split; [|intros Hascii; split].
  - intros Hoff. unfold IsPCacheTargetModel. rewrite Hoff. reflexivity.
  - unfold IsPCacheTargetModel. rewrite (ToLowerString_ascii mapLower model Hascii).
    destruct (PCacheEnabled cfg); cbn [negb].
    + rewrite existsb_exists. split.
      * intros (target & Hin & Hc). split; [reflexivity|].
        apply Contains_append in Hc as (x & z & Hs).
        apply ToLower_split in Hs as (before & rest & -> & _ & Hrest).
        apply ToLower_split in Hrest as (found & after & -> & Hfound & _).
        exists target, before, found, after. auto.
      * intros (_ & target & before & found & after & Hin & -> & Hfound).
        exists target. split; [exact Hin|].
        apply Contains_append. exists (strings.ToLower before), (strings.ToLower after).
        rewrite !ToLower_append, Hfound. reflexivity.
    + split; [discriminate | intros (H & _); discriminate].
  - intros model' Hascii' Hsame. unfold IsPCacheTargetModel.
    rewrite (ToLowerString_ascii mapLower model Hascii),
            (ToLowerString_ascii mapLower model' Hascii'), Hsame.
    reflexivity.
Qed.

(** * The settings of the Claude models *)

(** ** Default maximum tokens *)

(** X24.  [GetClaudeSettings] panics exactly when the map of default maximum
    tokens is nil.  Otherwise the settings it returns keep every entry of the
    map, have an entry under [default] (8192 when there was none) and a
    non-nil map of injection points; the headers settings are untouched;
    getting the settings again changes nothing; and [GetDefaultMaxTokens] on
    them returns the entry of the model when it has one, the default entry
    otherwise. *)
Theorem GetClaudeSettings_default_max_tokens {float64 : Type}
        (c : model_setting.ClaudeSettings float64) :
  (model_setting.GetClaudeSettings c = None <-> model_setting.DefaultMaxTokens c = None)
  /\ forall c',
      model_setting.GetClaudeSettings c = Some c' ->
      exists tokens tokens',
        model_setting.DefaultMaxTokens c = Some tokens
        /\ model_setting.DefaultMaxTokens c' = Some tokens'
        /\ (forall model maxTokens, tokens !! model = Some maxTokens ->
                                    tokens' !! model = Some maxTokens)
        /\ tokens' !! "default" = Some (default 8192 (tokens !! "default"))
        /\ (forall model,
               model_setting.GetDefaultMaxTokens c' model
               = match tokens !! model with
                 | Some maxTokens => maxTokens
                 | None => default 8192 (tokens !! "default")
                 end)
        /\ model_setting.CacheControlInjectionPoints c' <> None
        /\ model_setting.HeadersSettings c' = model_setting.HeadersSettings c
        /\ model_setting.GetClaudeSettings c' = Some c'.
Proof.
  unfold model_setting.GetClaudeSettings.
  destruct (model_setting.DefaultMaxTokens c) as [tokens|] eqn:Ht;
    [|split; [tauto | discriminate]].
  split; [split; discriminate|].
  intros c' [= <-].
  cbn [model_setting.DefaultMaxTokens model_setting.CacheControlInjectionPoints
       model_setting.HeadersSettings].
  set (tokens' := match tokens !! "default" with
                  | Some _ => tokens
                  | None => <["default" := 8192]> tokens
                  end).
  assert (Hkeep : forall model maxTokens, tokens !! model = Some maxTokens ->
                                          tokens' !! model = Some maxTokens).
  { intros model maxTokens Hm. subst tokens'.
    destruct (tokens !! "default") eqn:Hd; [exact Hm|].
    rewrite lookup_insert_ne; [exact Hm|]. intros <-. congruence. }
  assert (Hdef : tokens' !! "default" = Some (default 8192 (tokens !! "default"))).
  { subst tokens'. destruct (tokens !! "default") eqn:Hd; [exact Hd|].
    apply lookup_insert_eq. }
  exists tokens, tokens'. split; [reflexivity|]. split; [reflexivity|].
  split; [exact Hkeep|]. split; [exact Hdef|]. split; [|split; [|split]].
  - intros model. unfold model_setting.GetDefaultMaxTokens.
    cbn [model_setting.DefaultMaxTokens].
    change (default ∅ (Some tokens')) with tokens'.
    destruct (tokens !! model) as [maxTokens|] eqn:Hm.
    + rewrite (Hkeep model maxTokens Hm). reflexivity.
    + rewrite Hdef. subst tokens'.
      destruct (tokens !! "default") eqn:Hd; [rewrite Hm; reflexivity|].
      destruct (decide (model = "default")) as [->|Hne].
      * rewrite lookup_insert_eq. reflexivity.
      * rewrite lookup_insert_ne by congruence. rewrite Hm. reflexivity.
  - destruct (model_setting.CacheControlInjectionPoints c); discriminate.
  - reflexivity.
  - rewrite Hdef. f_equal.
    destruct (model_setting.CacheControlInjectionPoints c); reflexivity.
Qed.

(** ** Headers *)

Section Headers.

Variable CanonicalMIMEHeaderKey : string -> string.
Variable HeaderRange : gmap string (list string) -> list (string * list string).

Local Abbreviation Header := (gmap string (list string)).
Local Abbreviation Values := (model_setting.Values CanonicalMIMEHeaderKey).
Local Abbreviation Add := (model_setting.Add CanonicalMIMEHeaderKey).
Local Abbreviation writeHeader := (model_setting.writeHeader CanonicalMIMEHeaderKey).
Local Abbreviation WriteHeaders :=
  (model_setting.WriteHeaders CanonicalMIMEHeaderKey HeaderRange).

(** The set of the existing values, as a map to [true]. *)
Lemma existing_lookup (l : list string) (v : string) : forall m : gmap string bool,
  default false (fold_left (fun m v => <[v := true]> m) l m !! v)
  = bool_decide (v ∈ l) || default false (m !! v).
Proof.
  induction l as [|x l IH]; intros m; cbn [fold_left].
  - rewrite bool_decide_eq_false_2 by (intros H; inversion H). reflexivity.
  - rewrite IH. destruct (decide (v = x)) as [->|Hne].
    + rewrite lookup_insert_eq. cbn [default].
      rewrite (bool_decide_eq_true_2 (x ∈ x :: l)) by (left).
      rewrite orb_true_r. reflexivity.
    + rewrite lookup_insert_ne by congruence.
      destruct (decide (v ∈ l)) as [Hin|Hnin].
      * rewrite !bool_decide_eq_true_2; [reflexivity | right; exact Hin | exact Hin].
      * rewrite !bool_decide_eq_false_2; [reflexivity | | exact Hnin].
        intros Hin. apply elem_of_cons in Hin as [?|?]; contradiction.
Qed.

Lemma Values_Add h k v key :
  Values (Add h k v) key
  = if decide (CanonicalMIMEHeaderKey key = CanonicalMIMEHeaderKey k)
    then Values h k ++ [v] else Values h key.
Proof.
  unfold model_setting.Values, model_setting.Add.
  destruct (decide (CanonicalMIMEHeaderKey key = CanonicalMIMEHeaderKey k)) as [->|Hne].
  - rewrite lookup_insert_eq. reflexivity.
  - rewrite lookup_insert_ne by congruence. reflexivity.
Qed.

(** One iteration of the loop over the configured headers. *)
Lemma writeHeader_Values h k vs key :
  Values (writeHeader h (k, vs)) key
  = if decide (CanonicalMIMEHeaderKey key = CanonicalMIMEHeaderKey k)
    then Values h k ++ List.filter (fun v => negb (bool_decide (v ∈ Values h k))) vs
    else Values h key.
Proof.
  unfold model_setting.writeHeader.
  set (existing := Values h k).
  set (test := fun v : string =>
                 default false
                   (fold_left (fun (m : gmap string bool) v => <[v := true]> m) existing ∅
                    !! v)).
  assert (Htest : forall v, test v = bool_decide (v ∈ existing)).
  { intros v. unfold test. rewrite existing_lookup, lookup_empty. apply orb_false_r. }
  change (fold_left _ vs h)
    with (fold_left (fun h0 v => if negb (test v) then Add h0 k v else h0) vs h).
  assert (Hgen : forall acc,
            Values (fold_left (fun h0 v => if negb (test v) then Add h0 k v else h0) vs acc) key
            = if decide (CanonicalMIMEHeaderKey key = CanonicalMIMEHeaderKey k)
              then Values acc k ++ List.filter (fun v => negb (bool_decide (v ∈ existing))) vs
              else Values acc key).
  { induction vs as [|v vs IH]; intros acc; cbn [fold_left List.filter].
    - destruct (decide _) as [Heq|Hne]; [|reflexivity].
      rewrite app_nil_r. unfold model_setting.Values. rewrite Heq. reflexivity.
    - rewrite IH, <- Htest. destruct (test v); cbn [negb]; [reflexivity|].
      rewrite !Values_Add.
      destruct (decide (CanonicalMIMEHeaderKey key = CanonicalMIMEHeaderKey k));
        [|reflexivity].
      rewrite decide_True by reflexivity. rewrite <- app_assoc. reflexivity. }
  apply Hgen.
Qed.

Lemma writeHeader_present h k vs :
  Forall (fun v => v ∈ Values h k) vs -> writeHeader h (k, vs) = h.
Proof.
  intros Hall. unfold model_setting.writeHeader.
  set (existing := Values h k) in *.
  assert (Hgen : forall acc : Header,
            fold_left (fun h0 headerValue =>
                         if negb (default false
                                    (fold_left (fun (m : gmap string bool) v => <[v := true]> m)
                                               existing ∅ !! headerValue))
                         then Add h0 k headerValue else h0) vs acc = acc).
  { induction Hall as [|v vs Hv _ IH]; intros acc; cbn [fold_left]; [reflexivity|].
    rewrite existing_lookup, lookup_empty, orb_false_r.
    rewrite bool_decide_eq_true_2 by exact Hv. cbn [negb]. apply IH. }
  apply Hgen.
Qed.

Lemma writeHeader_prefix h kv key : Values h key `prefix_of` Values (writeHeader h kv) key.
Proof.
  destruct kv as [k vs]. rewrite writeHeader_Values.
  destruct (decide _) as [Heq|Hne]; [|reflexivity].
  unfold model_setting.Values at 1. rewrite Heq. apply prefix_app_r. reflexivity.
Qed.

Lemma fold_prefix l : forall h key,
  Values h key `prefix_of` Values (fold_left writeHeader l h) key.
Proof.
  induction l as [|kv l IH]; intros h key; cbn [fold_left]; [reflexivity|].
  etransitivity; [apply writeHeader_prefix | apply IH].
Qed.

Lemma fold_complete l : forall h k vs v,
  (k, vs) ∈ l -> v ∈ vs -> v ∈ Values (fold_left writeHeader l h) k.
Proof.
  induction l as [|kv l IH]; intros h k vs v Hin Hv; [inversion Hin|].
  cbn [fold_left]. apply elem_of_cons in Hin as [<- | Hin]; [|eapply IH; eassumption].
  destruct (fold_prefix l (writeHeader h (k, vs)) k) as (extra & ->).
  apply elem_of_app. left. rewrite writeHeader_Values, decide_True by reflexivity.
  destruct (decide (v ∈ Values h k)) as [Hex|Hnew].
  - apply elem_of_app. left. exact Hex.
  - apply elem_of_app. right. apply list_elem_of_In, filter_In.
    split; [apply list_elem_of_In; exact Hv|].
    rewrite bool_decide_eq_false_2 by exact Hnew. reflexivity.
Qed.

Lemma fold_sound l : forall h key v,
  v ∈ Values (fold_left writeHeader l h) key ->
  v ∈ Values h key
  \/ exists k vs, (k, vs) ∈ l
                  /\ CanonicalMIMEHeaderKey k = CanonicalMIMEHeaderKey key /\ v ∈ vs.
Proof.
  induction l as [|[k vs] l IH]; intros h key v Hv; cbn [fold_left] in Hv; [left; exact Hv|].
  destruct (IH _ _ _ Hv) as [Hin | (k' & vs' & Hin & Hk & Hv')].
  - rewrite writeHeader_Values in Hin. destruct (decide _) as [Heq|Hne]; [|left; exact Hin].
    apply elem_of_app in Hin as [Hin | Hin].
    + left. unfold model_setting.Values in *. rewrite Heq. exact Hin.
    + right. exists k, vs. split; [left|]. split; [congruence|].
      apply list_elem_of_In, filter_In in Hin as (Hin & _). apply list_elem_of_In. exact Hin.
  - right. exists k', vs'. split; [right; exact Hin | auto].
Qed.

Lemma fold_present l : forall h,
  (forall k vs v, (k, vs) ∈ l -> v ∈ vs -> v ∈ Values h k) ->
  fold_left writeHeader l h = h.
Proof.
  induction l as [|[k vs] l IH]; intros h Hall; cbn [fold_left]; [reflexivity|].
  rewrite writeHeader_present.
  - apply IH. intros k' vs' v Hin Hv. apply (Hall k' vs' v); [right; exact Hin | exact Hv].
  - apply Forall_forall. intros v Hv. apply (Hall k vs v); [left | exact Hv].
Qed.

(** X25.  Writing the configured headers of a model twice is writing them once,
    whatever the header held and in whatever order the runtime enumerates
    the configured keys. *)
Theorem WriteHeaders_idempotent {float64 : Type}
        (c : model_setting.ClaudeSettings float64)
        (originModel : string) (httpHeader : Header) :
  WriteHeaders c originModel (WriteHeaders c originModel httpHeader)
  = WriteHeaders c originModel httpHeader.
Proof.
  unfold model_setting.WriteHeaders.
  destruct (model_setting.HeadersSettings c !! originModel) as [headers|]; [|reflexivity].
  apply fold_present. intros k vs v Hin Hv. eapply fold_complete; eassumption.
Qed.

(** X26.  After [WriteHeaders] every value configured for the model is among the
    values of its header; the values that the header already held are kept,
    in their order and in front; nothing but configured values is added; and
    a model without configured headers leaves the header as it was. *)
Theorem WriteHeaders_adds_the_missing_values {float64 : Type}
        (c : model_setting.ClaudeSettings float64)
        (originModel : string) (httpHeader : Header) :
  (forall headers, HeaderRange headers ≡ₚ map_to_list headers) ->
  let after := WriteHeaders c originModel httpHeader in
  (forall headers headerKey headerValues headerValue,
      model_setting.HeadersSettings c !! originModel = Some headers ->
      headers !! headerKey = Some headerValues ->
      headerValue ∈ headerValues ->
      headerValue ∈ Values after headerKey)
  /\ (forall key, Values httpHeader key `prefix_of` Values after key)
  /\ (forall key value,
         value ∈ Values after key ->
         value ∈ Values httpHeader key
         \/ exists headers headerKey headerValues,
             model_setting.HeadersSettings c !! originModel = Some headers
             /\ headers !! headerKey = Some headerValues
             /\ CanonicalMIMEHeaderKey headerKey = CanonicalMIMEHeaderKey key
             /\ value ∈ headerValues)
  /\ (model_setting.HeadersSettings c !! originModel = None -> after = httpHeader).
Proof.
  intros Hvalid after. subst after. unfold model_setting.WriteHeaders.
  destruct (model_setting.HeadersSettings c !! originModel) as [headers|].
  - split; [|split; [|split]].
    + intros ? k vs v [= <-] Hk Hv. apply (fold_complete _ _ k vs v); [|exact Hv].
      rewrite Hvalid. apply elem_of_map_to_list. exact Hk.
    + intros key. apply fold_prefix.
    + intros key v Hv. destruct (fold_sound _ _ _ _ Hv) as [Hin | (k & vs & Hin & Hk & Hv')].
      * left. exact Hin.
      * right. exists headers, k, vs. split; [reflexivity|].
        rewrite Hvalid in Hin. apply elem_of_map_to_list in Hin. auto.
    + discriminate.
  - split; [discriminate|]. split; [reflexivity|]. split; [auto | reflexivity].
Qed.

End Headers.

(** * The further properties on the concrete environment *)

Lemma StoreCacheEntry_then_GetCacheEntry_witness :
  RedisEnabled Sample.empty = true
  /\ json_Marshal_CacheEntry Sample.env (stamped 1000 Sample.entry1)
     = Some (Sample.print (Sample.entryJSON (stamped 1000 Sample.entry1)))
  /\ GetCacheEntry Sample.env (fst (StoreCacheEntry Sample.env Sample.empty 1000 Sample.entry1))
       Sample.model "1f"
     = (Some {| Hash := "1f"; EntryTokenCount := 11; EntryTTL := "1h"; CreatedAt := 1000;
                ExpiresAt := 1000 + TTL1h; Model := Sample.model |}, NoError).
Proof.
  assert (Hen : RedisEnabled Sample.empty = true) by reflexivity.
  assert (Hm : json_Marshal_CacheEntry Sample.env (stamped 1000 Sample.entry1)
               = Some (Sample.print (Sample.entryJSON (stamped 1000 Sample.entry1))))
    by reflexivity.
  assert (Hne : Sample.print (Sample.entryJSON (stamped 1000 Sample.entry1)) <> "")
    by (vm_compute; discriminate).
  assert (Hu : json_Unmarshal_CacheEntry Sample.env
                 (Sample.print (Sample.entryJSON (stamped 1000 Sample.entry1)))
               = Some (stamped 1000 Sample.entry1)) by (vm_compute; reflexivity).
  split; [exact Hen|]. split; [exact Hm|].
  exact (proj2 (proj1 (StoreCacheEntry_then_GetCacheEntry Sample.env Sample.empty 1000
                         Sample.entry1 Hen) _ Hm Hne Hu)).
Defined.

Lemma StoreFuzzyEntry_then_GetFuzzyEntry_witness :
  RedisEnabled Sample.empty = true
  /\ "5c" <> ""
  /\ GetFuzzyEntry Sample.env
       (StoreFuzzyEntry Sample.env Sample.range Sample.empty Sample.model "5c" 50 "5m")
       Sample.model "5c" = (50, true).
Proof.
  assert (Hen : RedisEnabled Sample.empty = true) by reflexivity.
  assert (Hh : "5c" <> "") by discriminate.
  assert (Hu : json_Unmarshal_tokens Sample.env (fuzzyPayload Sample.env Sample.range 50 "5m")
               = Some (Some 50)) by (vm_compute; reflexivity).
  split; [exact Hen|]. split; [exact Hh|].
  exact (proj1 (StoreFuzzyEntry_then_GetFuzzyEntry Sample.env Sample.range Sample.empty
                  Sample.model "5c" 50 "5m" Hen) Hh Hu).
Defined.

Lemma disabled_store_is_never_written_witness :
  RedisEnabled Sample.disabled = false
  /\ runTask Sample.env Sample.range 1000 Sample.disabled
       (GoStoreCacheBreakpoints Sample.req1 Sample.model) = Sample.disabled.
Proof.
  assert (Hd : RedisEnabled Sample.disabled = false) by reflexivity.
  split; [exact Hd|].
  exact (proj2 (disabled_store_is_never_written Sample.env Sample.range Sample.disabled
                  1000 Hd) (GoStoreCacheBreakpoints Sample.req1 Sample.model)).
Defined.

Lemma breakpoints_point_at_marked_blocks_witness :
  (forall text model, 0 <= CountTextToken Sample.env text model)
  /\ exactTotal Sample.env Sample.req1 Sample.model <= GoInt.max_int
  /\ ExtractCacheBreakpoints Sample.env Sample.req1 Sample.model <> []
  /\ Forall (fun bp =>
               TTL bp <> ""
               /\ exists k : nat,
                   Index bp = Z.of_nat k
                   /\ ((Location bp = "system"
                        /\ exists media,
                            systemBlocks Sample.req1 !! k = Some media
                            /\ annotated media = true
                            /\ extractCacheControlTTLFromRaw Sample.env (dto.CacheControl media)
                               = TTL bp
                            /\ TokenCount bp
                               = sumZ (take (S k)
                                         (systemEstimates Sample.env Sample.req1 Sample.model)))
                       \/ (Location bp = "message"
                           /\ exists msg,
                               dto.Messages Sample.req1 !! k = Some msg
                               /\ extractCacheControlFromMessage Sample.env msg = TTL bp
                               /\ TokenCount bp
                                  = sumZ (systemEstimates Sample.env Sample.req1 Sample.model)
                                    + sumZ (take (S k)
                                              (messageEstimates Sample.env Sample.req1
                                                 Sample.model)))))
            (ExtractCacheBreakpoints Sample.env Sample.req1 Sample.model).
Proof.
  assert (Hfit : exactTotal Sample.env Sample.req1 Sample.model <= GoInt.max_int)
    by (vm_compute; discriminate).
  split; [exact Sample_tokens_nonneg|]. split; [exact Hfit|].
  split; [vm_compute; discriminate|].
  exact (breakpoints_point_at_marked_blocks Sample.env Sample.req1 Sample.model
           Sample_tokens_nonneg Hfit).
Defined.

Lemma ExtractCacheBreakpointsWithTotal_totals_witness :
  (forall text model, 0 <= CountTextToken Sample.env text model)
  /\ exactTotal Sample.env Sample.req1 Sample.model <= GoInt.max_int
  /\ exists bps,
      ExtractCacheBreakpointsWithTotal Sample.env Sample.req1 Sample.model
      = (bps,
         sumZ (toolEstimates Sample.env Sample.req1 Sample.model)
         + sumZ (systemEstimates Sample.env Sample.req1 Sample.model)
         + sumZ (messageEstimates Sample.env Sample.req1 Sample.model),
         sumZ (toolEstimates Sample.env Sample.req1 Sample.model))
      /\ (length bps <= MaxBreakpoints)%nat
      /\ 0 <= sumZ (toolEstimates Sample.env Sample.req1 Sample.model)
      /\ 0 <= sumZ (systemEstimates Sample.env Sample.req1 Sample.model)
              + sumZ (messageEstimates Sample.env Sample.req1 Sample.model).
Proof.
  assert (Hfit : exactTotal Sample.env Sample.req1 Sample.model <= GoInt.max_int)
    by (vm_compute; discriminate).
  split; [exact Sample_tokens_nonneg|]. split; [exact Hfit|].
  exact (ExtractCacheBreakpointsWithTotal_totals Sample.env Sample.req1 Sample.model
           Sample_tokens_nonneg Hfit).
Defined.

(** The totals of the sample request: 6 tokens of tools in 33. *)
Example sample_totals :
  ExtractCacheBreakpointsWithTotal Sample.env Sample.req1 Sample.model
  = ([Sample.bp1; Sample.bp2], 33, 6).
Proof. vm_compute. reflexivity. Qed.

Lemma unannotated_request_is_untouched_witness :
  unannotated Sample.reqPlain
  /\ applyLocalCacheSimulation Sample.env Sample.range Sample.seeded (Some Sample.reqPlain)
       Sample.model Sample.usage0 = (Sample.usage0, [])
  /\ StoreCacheBreakpoints Sample.env Sample.range Sample.seeded 1000 Sample.reqPlain
       Sample.model = Sample.seeded.
Proof.
  assert (Hun : unannotated Sample.reqPlain) by (split; repeat constructor).
  split; [exact Hun|].
  destruct (unannotated_request_is_untouched Sample.env Sample.range Sample.seeded 1000
              Sample.reqPlain Sample.model Sample.usage0 0 Hun) as (_ & _ & Ha & Hs).
  split; [exact Ha | exact Hs].
Defined.

Lemma prefix_of_a_breakpoint_witness :
  (forall text model, 0 <= CountTextToken Sample.env text model)
  /\ exactTotal Sample.env Sample.req1 Sample.model <= GoInt.max_int
  /\ Z.of_nat (length (systemBlocks Sample.req1)) <= GoInt.max_int
  /\ ExtractCacheBreakpoints Sample.env Sample.req1 Sample.model <> []
  /\ Forall (fun bp =>
               exists k : nat,
                 Index bp = Z.of_nat k
                 /\ ((Location bp = "system"
                      /\ (k < length (systemBlocks Sample.req1))%nat
                      /\ BuildPrefixUpToBreakpoint Sample.env Sample.req1 bp
                         = {| Tools := wholeTools Sample.env Sample.req1;
                              System := map (json_Marshal_Media Sample.env)
                                            (take (S k) (systemBlocks Sample.req1));
                              Messages := [] |})
                     \/ (Location bp = "message"
                         /\ (k < length (dto.Messages Sample.req1))%nat
                         /\ BuildPrefixUpToBreakpoint Sample.env Sample.req1 bp
                            = {| Tools := wholeTools Sample.env Sample.req1;
                                 System := wholeSystem Sample.env Sample.req1;
                                 Messages := map (json_Marshal_Message Sample.env)
                                                 (take (S k) (dto.Messages Sample.req1)) |})))
            (ExtractCacheBreakpoints Sample.env Sample.req1 Sample.model).
Proof.
  assert (Hfit : exactTotal Sample.env Sample.req1 Sample.model <= GoInt.max_int)
    by (vm_compute; discriminate).
  assert (Hlen : Z.of_nat (length (systemBlocks Sample.req1)) <= GoInt.max_int)
    by (vm_compute; discriminate).
  split; [exact Sample_tokens_nonneg|]. split; [exact Hfit|]. split; [exact Hlen|].
  split; [vm_compute; discriminate|].
  exact (prefix_of_a_breakpoint Sample.env Sample.req1 Sample.model
           Sample_tokens_nonneg Hfit Hlen).
Defined.

Lemma prefixes_grow_with_breakpoints_witness :
  (forall text model, 0 <= CountTextToken Sample.env text model)
  /\ exactTotal Sample.env Sample.req1 Sample.model <= GoInt.max_int
  /\ Z.of_nat (length (systemBlocks Sample.req1)) <= GoInt.max_int
  /\ ExtractCacheBreakpoints Sample.env Sample.req1 Sample.model !! 0%nat = Some Sample.bp1
  /\ ExtractCacheBreakpoints Sample.env Sample.req1 Sample.model !! 1%nat = Some Sample.bp2
  /\ (0 < 1)%nat
  /\ let pi := BuildPrefixUpToBreakpoint Sample.env Sample.req1 Sample.bp1 in
     let pj := BuildPrefixUpToBreakpoint Sample.env Sample.req1 Sample.bp2 in
     Tools pi = Tools pj
     /\ System pi `prefix_of` System pj
     /\ Messages pi `prefix_of` Messages pj
     /\ (length (System pi) + length (Messages pi)
         < length (System pj) + length (Messages pj))%nat.
Proof.
  assert (Hfit : exactTotal Sample.env Sample.req1 Sample.model <= GoInt.max_int)
    by (vm_compute; discriminate).
  assert (Hlen : Z.of_nat (length (systemBlocks Sample.req1)) <= GoInt.max_int)
    by (vm_compute; discriminate).
  assert (H0 : ExtractCacheBreakpoints Sample.env Sample.req1 Sample.model !! 0%nat
               = Some Sample.bp1) by (vm_compute; reflexivity).
  assert (H1 : ExtractCacheBreakpoints Sample.env Sample.req1 Sample.model !! 1%nat
               = Some Sample.bp2) by (vm_compute; reflexivity).
  assert (Hlt : (0 < 1)%nat) by lia.
  split; [exact Sample_tokens_nonneg|]. split; [exact Hfit|]. split; [exact Hlen|].
  split; [exact H0|]. split; [exact H1|]. split; [exact Hlt|].
  exact (prefixes_grow_with_breakpoints Sample.env Sample.req1 Sample.model 0 1
           Sample.bp1 Sample.bp2 Sample_tokens_nonneg Hfit Hlen H0 H1 Hlt).
Defined.


(** With a fuzzy entry and no exact hit the two resolvers part: the hit
    check knows nothing of fuzzy entries. *)
Example resolvers_part_on_a_fuzzy_hit :
  CacheReadTokens (CheckCacheHits Sample.env Sample.range (Sample.fuzzyOnly 7) Sample.req1
                     Sample.model 33) = 0
  /\ cacheReadTokens <$> (tally <$> resolveLocal Sample.env Sample.range (Sample.fuzzyOnly 7)
                                      Sample.req1 Sample.model) = Some 7.
Proof. split; vm_compute; reflexivity. Qed.

Lemma length_append a b :
  String.length (a +:+ b) = (String.length a + String.length b)%nat.
Proof.
  induction a as [|c a IH]; [reflexivity|].
  rewrite append_cons. cbn [String.length]. rewrite IH. reflexivity.
Qed.

Lemma Merge_tokens_nonneg : forall text model, 0 <= CountTextToken Sample.envMerge text model.
Proof.
  intros text model. cbn [CountTextToken Sample.envMerge].
  destruct (strings.Contains text "p q") eqn:Hc; [|lia].
  apply Contains_append in Hc as (before & after & ->).
  rewrite !length_append. cbn [String.length]. lia.
Qed.

(** The token estimates of one request in two executions, and what they do
    to the write and to the repeat.  The block of [Sample.reqNested] is
    estimated at 13 tokens under one enumeration of its decoded annotation
    and at 15 under the reverse one; the block of [Sample.reqNestedShort]
    at 4 and at 6, on either side of the threshold.  A goroutine that
    estimates it at 4 writes nothing, and a repeat that estimates it at 4
    does not look for the entry that a goroutine estimating it at 6 has
    written. *)
Example estimates_differ_between_executions :
  let E1 := withDecoder Sample.envMerge Sample.parse in
  let E2 := withDecoder Sample.envMerge Sample.parseReversed in
  let written E := StoreCacheBreakpoints E Sample.range Sample.empty 1000
                     Sample.reqNestedShort Sample.model in
  map TokenCount (ExtractCacheBreakpoints E1 Sample.reqNested Sample.model) = [13]
  /\ map TokenCount (ExtractCacheBreakpoints E2 Sample.reqNested Sample.model) = [15]
  /\ map TokenCount (ExtractCacheBreakpoints E1 Sample.reqNestedShort Sample.model) = [4]
  /\ map TokenCount (ExtractCacheBreakpoints E2 Sample.reqNestedShort Sample.model) = [6]
  /\ size (RDB (written E1)) = 0%nat
  /\ size (RDB (written E2)) = 1%nat
  /\ Hit (CheckCacheHits E2 Sample.range (written E1) Sample.reqNestedShort Sample.model 6)
     = false
  /\ Hit (CheckCacheHits E1 Sample.range (written E2) Sample.reqNestedShort Sample.model 4)
     = false
  /\ Hit (CheckCacheHits E2 Sample.range (written E2) Sample.reqNestedShort Sample.model 6)
     = true.
Proof. cbv zeta. repeat split; vm_compute; reflexivity. Qed.

Lemma stored_request_is_an_exact_hit_witness :
  let E1 := withDecoder Sample.envMerge Sample.parse in
  let E2 := withDecoder Sample.envMerge Sample.parseReversed in
  let E3 := withDecoder Sample.envMerge Sample.parse in
  (forall text model, 0 <= CountTextToken Sample.envMerge text model)
  /\ exactTotal E2 Sample.reqNested Sample.model <= GoInt.max_int
  /\ exactTotal E3 Sample.reqNested Sample.model <= GoInt.max_int
  /\ RedisEnabled Sample.empty = true
  /\ Forall (fun bp => decodes E2 (stamped 1000 (entryFor E2 Sample.range Sample.reqNested
                                                   Sample.model bp)) = true)
            (ExtractCacheBreakpoints E2 Sample.reqNested Sample.model)
  /\ Exists (fun bp => GetMinCacheableTokens Sample.model <= TokenCount bp)
            (ExtractCacheBreakpoints E2 Sample.reqNested Sample.model)
  /\ Exists (fun bp => GetMinCacheableTokens Sample.model <= TokenCount bp)
            (ExtractCacheBreakpoints E3 Sample.reqNested Sample.model)
  /\ let tasks := snd (ProcessPromptCache E1 Sample.range Sample.empty Sample.reqNested
                         Sample.model 19) in
     let r' := fold_left (runTask E2 Sample.range 1000) tasks Sample.empty in
     let result := fst (ProcessPromptCache E3 Sample.range r' Sample.reqNested
                          Sample.model 19) in
     exists lastBp,
       last (ExtractCacheBreakpoints E3 Sample.reqNested Sample.model) = Some lastBp
       /\ Hit result = true
       /\ CacheReadTokens result = TokenCount lastBp
       /\ CacheCreationTokens result = 0
       /\ BreakpointHits result
          = replicate (length (ExtractCacheBreakpoints E3 Sample.reqNested Sample.model)) true.
Proof.
  intros E1 E2 E3.
  assert (Hfit2 : exactTotal E2 Sample.reqNested Sample.model <= GoInt.max_int)
    by (vm_compute; discriminate).
  assert (Hfit3 : exactTotal E3 Sample.reqNested Sample.model <= GoInt.max_int)
    by (vm_compute; discriminate).
  assert (Hen : RedisEnabled Sample.empty = true) by reflexivity.
  assert (Hdec : Forall (fun bp => decodes E2 (stamped 1000 (entryFor E2 Sample.range
                                                             Sample.reqNested Sample.model bp))
                                   = true)
                        (ExtractCacheBreakpoints E2 Sample.reqNested Sample.model))
    by (apply (bool_decide_unpack _); vm_compute; exact I).
  assert (Hex2 : Exists (fun bp => GetMinCacheableTokens Sample.model <= TokenCount bp)
                        (ExtractCacheBreakpoints E2 Sample.reqNested Sample.model))
    by (apply (bool_decide_unpack _); vm_compute; exact I).
  assert (Hex3 : Exists (fun bp => GetMinCacheableTokens Sample.model <= TokenCount bp)
                        (ExtractCacheBreakpoints E3 Sample.reqNested Sample.model))
    by (apply (bool_decide_unpack _); vm_compute; exact I).
  split; [exact Merge_tokens_nonneg|]. split; [exact Hfit2|]. split; [exact Hfit3|].
  split; [exact Hen|]. split; [exact Hdec|]. split; [exact Hex2|]. split; [exact Hex3|].
  exact (stored_request_is_an_exact_hit Sample.envMerge Sample.range Sample.empty 1000
           Sample.reqNested Sample.model 19 Sample.parse Sample.parseReversed Sample.parse
           Merge_tokens_nonneg Hfit2 Hfit3 Hen Hdec Hex2 Hex3).
Defined.

Lemma goroutines_make_the_repeat_an_exact_hit_witness :
  let E1 := withDecoder Sample.envMerge Sample.parse in
  let E2 := withDecoder Sample.envMerge Sample.parseReversed in
  let E3 := withDecoder Sample.envMerge Sample.parse in
  let first := applyLocalCacheSimulation E1 Sample.range Sample.empty
                 (Some Sample.reqNested) Sample.model Sample.usage0 in
  let ts := reverse (snd first) in
  let r' := fold_left (runTask E2 Sample.range 1000) ts Sample.empty in
  (forall text model, 0 <= CountTextToken Sample.envMerge text model)
  /\ exactTotal E2 Sample.reqNested Sample.model <= GoInt.max_int
  /\ exactTotal E3 Sample.reqNested Sample.model <= GoInt.max_int
  /\ RedisEnabled Sample.empty = true
  /\ Forall (fun bp => decodes E2 (stamped 1000 (entryFor E2 Sample.range Sample.reqNested
                                                   Sample.model bp)) = true)
            (ExtractCacheBreakpoints E2 Sample.reqNested Sample.model)
  /\ Exists (fun bp => GetMinCacheableTokens Sample.model <= TokenCount bp)
            (ExtractCacheBreakpoints E2 Sample.reqNested Sample.model)
  /\ Exists (fun bp => GetMinCacheableTokens Sample.model <= TokenCount bp)
            (ExtractCacheBreakpoints E3 Sample.reqNested Sample.model)
  /\ ts ≡ₚ snd first
  /\ GoStoreCacheBreakpoints Sample.reqNested Sample.model ∈ ts
  /\ exists res lastBp,
      resolveLocal E3 Sample.range r' Sample.reqNested Sample.model = Some res
      /\ last (ExtractCacheBreakpoints E3 Sample.reqNested Sample.model) = Some lastBp
      /\ exactHit (tally res) = true
      /\ cacheReadTokens (tally res) = TokenCount lastBp
      /\ cacheCreateTokens (tally res) = 0
      /\ scheduled res = []
      /\ nonCacheTokens res = localTotalTokens res - TokenCount lastBp.
Proof.
  intros E1 E2 E3 first ts r'.
  assert (Hfit2 : exactTotal E2 Sample.reqNested Sample.model <= GoInt.max_int)
    by (vm_compute; discriminate).
  assert (Hfit3 : exactTotal E3 Sample.reqNested Sample.model <= GoInt.max_int)
    by (vm_compute; discriminate).
  assert (Hen : RedisEnabled Sample.empty = true) by reflexivity.
  assert (Hdec : Forall (fun bp => decodes E2 (stamped 1000 (entryFor E2 Sample.range
                                                             Sample.reqNested Sample.model bp))
                                   = true)
                        (ExtractCacheBreakpoints E2 Sample.reqNested Sample.model))
    by (apply (bool_decide_unpack _); vm_compute; exact I).
  assert (Hex2 : Exists (fun bp => GetMinCacheableTokens Sample.model <= TokenCount bp)
                        (ExtractCacheBreakpoints E2 Sample.reqNested Sample.model))
    by (apply (bool_decide_unpack _); vm_compute; exact I).
  assert (Hex3 : Exists (fun bp => GetMinCacheableTokens Sample.model <= TokenCount bp)
                        (ExtractCacheBreakpoints E3 Sample.reqNested Sample.model))
    by (apply (bool_decide_unpack _); vm_compute; exact I).
  assert (Hperm : ts ≡ₚ snd first) by apply reverse_Permutation.
  assert (Hin : GoStoreCacheBreakpoints Sample.reqNested Sample.model ∈ ts).
  { apply elem_of_reverse.
    assert (Htasks : snd first
                     = [GoStoreFuzzyEntry Sample.model
                          (CalculateSystemHash Sample.envMerge Sample.range Sample.reqNested Sample.model)
                          13 "5m";
                        GoStoreCacheBreakpoints Sample.reqNested Sample.model])
      by (vm_compute; reflexivity).
    rewrite Htasks. right. left. }
  split; [exact Merge_tokens_nonneg|]. split; [exact Hfit2|]. split; [exact Hfit3|].
  split; [exact Hen|]. split; [exact Hdec|]. split; [exact Hex2|]. split; [exact Hex3|].
  split; [exact Hperm|]. split; [exact Hin|].
  destruct (resolveLocal E3 Sample.range r' Sample.reqNested Sample.model)
    as [res|] eqn:Hres; [|vm_compute in Hres; discriminate].
  exists res.
  destruct (goroutines_make_the_repeat_an_exact_hit Sample.envMerge Sample.range Sample.empty
              1000 Sample.reqNested Sample.model Sample.usage0 ts
              Sample.parse Sample.parseReversed Sample.parse
              Merge_tokens_nonneg Hfit2 Hfit3 Hen Hdec Hex2 Hex3 Hperm Hin res Hres)
    as (lastBp & H).
  exists lastBp. split; [reflexivity | exact H].
Defined.

Lemma fuzzy_hit_figures_witness :
  (forall text model, 0 <= CountTextToken Sample.env text model)
  /\ exactTotal Sample.env Sample.req1 Sample.model <= GoInt.max_int
  /\ Forall (fun bp => exactEntryFound Sample.env Sample.range (Sample.fuzzyOnly 7)
                         Sample.req1 Sample.model bp = false)
            (ExtractCacheBreakpoints Sample.env Sample.req1 Sample.model)
  /\ GetFuzzyEntry Sample.env (Sample.fuzzyOnly 7) Sample.model
       (CalculateSystemHash Sample.env Sample.range Sample.req1 Sample.model) = (7, true)
  /\ 0 < 7
  /\ ExtractCacheBreakpoints Sample.env Sample.req1 Sample.model = Sample.bp1 :: [Sample.bp2]
  /\ GetMinCacheableTokens Sample.model <= TokenCount Sample.bp1
  /\ exists res lastBp,
      resolveLocal Sample.env Sample.range (Sample.fuzzyOnly 7) Sample.req1 Sample.model
      = Some res
      /\ last (Sample.bp1 :: [Sample.bp2]) = Some lastBp
      /\ exactHit (tally res) = false
      /\ cacheReadTokens (tally res) = Z.min 7 (TokenCount Sample.bp1)
      /\ cacheCreateTokens (tally res) = TokenCount lastBp - Z.min 7 (TokenCount Sample.bp1)
      /\ cacheCreate5m (tally res) + cacheCreate1h (tally res) = cacheCreateTokens (tally res)
      /\ scheduled res = []
      /\ nonCacheTokens res = localTotalTokens res - TokenCount lastBp.
Proof.
  assert (Hfit : exactTotal Sample.env Sample.req1 Sample.model <= GoInt.max_int)
    by (vm_compute; discriminate).
  assert (Hbps : ExtractCacheBreakpoints Sample.env Sample.req1 Sample.model
                 = Sample.bp1 :: [Sample.bp2]) by (vm_compute; reflexivity).
  assert (Hno : Forall (fun bp => exactEntryFound Sample.env Sample.range (Sample.fuzzyOnly 7)
                                    Sample.req1 Sample.model bp = false)
                       (ExtractCacheBreakpoints Sample.env Sample.req1 Sample.model)).
  { rewrite Hbps. repeat constructor; vm_compute; reflexivity. }
  assert (Hf : GetFuzzyEntry Sample.env (Sample.fuzzyOnly 7) Sample.model
                 (CalculateSystemHash Sample.env Sample.range Sample.req1 Sample.model)
               = (7, true)) by (vm_compute; reflexivity).
  assert (H7 : 0 < 7) by lia.
  assert (Hge : GetMinCacheableTokens Sample.model <= TokenCount Sample.bp1)
    by (vm_compute; discriminate).
  split; [exact Sample_tokens_nonneg|]. split; [exact Hfit|]. split; [exact Hno|].
  split; [exact Hf|]. split; [exact H7|]. split; [exact Hbps|]. split; [exact Hge|].
  destruct (resolveLocal Sample.env Sample.range (Sample.fuzzyOnly 7) Sample.req1 Sample.model)
    as [res|] eqn:Hres; [|vm_compute in Hres; discriminate].
  exists res.
  destruct (fuzzy_hit_figures Sample.env Sample.range (Sample.fuzzyOnly 7) Sample.req1
              Sample.model res 7 Sample.bp1 [Sample.bp2] Sample_tokens_nonneg Hfit Hres Hno
              Hf H7 Hbps Hge) as (lastBp & H).
  exists lastBp. split; [reflexivity | exact H].
Defined.

Lemma no_system_prompt_no_fuzzy_matching_witness :
  dto.System Sample.reqNoSystem = None
  /\ CalculateSystemHash Sample.env Sample.range Sample.reqNoSystem Sample.model = ""
  /\ exists res,
      resolveLocal Sample.env Sample.range Sample.empty Sample.reqNoSystem Sample.model
      = Some res
      /\ scheduled res <> []
      /\ forall r0 task, task ∈ scheduled res ->
                         runTask Sample.env Sample.range 1000 r0 task = r0.
Proof.
  assert (Hsys : dto.System Sample.reqNoSystem = None) by reflexivity.
  assert (Hsch : scheduled <$> resolveLocal Sample.env Sample.range Sample.empty
                                 Sample.reqNoSystem Sample.model
                 = Some [GoStoreFuzzyEntry Sample.model "" 11 "5m"])
    by (vm_compute; reflexivity).
  destruct (no_system_prompt_no_fuzzy_matching Sample.env Sample.range Sample.empty 1000
              Sample.reqNoSystem Sample.model Hsys) as (Hh & Hall).
  split; [exact Hsys|]. split; [exact Hh|].
  destruct (resolveLocal Sample.env Sample.range Sample.empty Sample.reqNoSystem Sample.model)
    as [res|] eqn:Hres; [|discriminate Hsch].
  injection Hsch as Hsch.
  exists res. split; [reflexivity|]. split; [rewrite Hsch; discriminate|].
  exact (proj2 (Hall res eq_refl)).
Defined.

Lemma reconciler_goroutines_witness :
  exists res,
    resolveLocal Sample.env Sample.range Sample.empty Sample.reqShort Sample.model = Some res
    /\ let t := tally res in
       scheduled res
       = (if cacheReadTokens t =? 0
          then match ExtractCacheBreakpoints Sample.env Sample.reqShort Sample.model with
               | bp0 :: _ =>
                   [GoStoreFuzzyEntry Sample.model
                      (CalculateSystemHash Sample.env Sample.range Sample.reqShort
                         Sample.model)
                      (TokenCount bp0) (TTL bp0)]
               | [] => []
               end
          else [])
       /\ snd (applyLocalCacheSimulation Sample.env Sample.range Sample.empty
                 (Some Sample.reqShort) Sample.model Sample.usage0)
          = scheduled res
            ++ (if (cacheReadTokens t =? 0) && (cacheCreateTokens t =? 0) then []
                else [GoStoreCacheBreakpoints Sample.reqShort Sample.model]).
Proof.
  destruct (resolveLocal Sample.env Sample.range Sample.empty Sample.reqShort Sample.model)
    as [res|] eqn:Hres; [|vm_compute in Hres; discriminate].
  exists res. split; [reflexivity|].
  exact (reconciler_goroutines Sample.env Sample.range Sample.empty Sample.reqShort
           Sample.model Sample.usage0 res Hres).
Defined.

(** A breakpoint below the threshold is credited nowhere, and a fuzzy
    entry is scheduled for it all the same. *)
Example fuzzy_entry_below_threshold :
  applyLocalCacheSimulation Sample.env Sample.range Sample.empty (Some Sample.reqShort)
    Sample.model Sample.usage0
  = (Sample.usage0,
     [GoStoreFuzzyEntry Sample.model
        (CalculateSystemHash Sample.env Sample.range Sample.reqShort Sample.model) 4 "5m"]).
Proof. vm_compute. reflexivity. Qed.

Lemma engine_ignores_map_order_witness :
  ValidOrder Sample.range
  /\ ValidOrder Sample.reversed
  /\ CheckCacheHits Sample.env Sample.range Sample.seeded Sample.req1 Sample.model 33
     = CheckCacheHits Sample.env Sample.reversed Sample.seeded Sample.req1 Sample.model 33.
Proof.
  assert (H1 : ValidOrder Sample.range) by (intros m; reflexivity).
  assert (H2 : ValidOrder Sample.reversed)
    by (intros m; unfold Sample.reversed; apply reverse_Permutation).
  split; [exact H1|]. split; [exact H2|].
  exact (proj1 (engine_ignores_map_order Sample.env Sample.range Sample.reversed
                  Sample.seeded H1 H2) Sample.req1 Sample.model 33).
Defined.

Lemma schema_members_carry_no_text_witness :
  json_Unmarshal Sample.env (Sample.print (JObject Sample.toolObject))
  = Some (JObject Sample.toolObject)
  /\ json_Unmarshal Sample.env (Sample.print (JObject (withoutSchema Sample.toolObject)))
     = Some (JObject (withoutSchema Sample.toolObject))
  /\ estimateContentTokens Sample.env
       (Sample.print (JObject (withoutSchema Sample.toolObject))) Sample.model
     = estimateContentTokens Sample.env (Sample.print (JObject Sample.toolObject)) Sample.model.
Proof.
  assert (H1 : json_Unmarshal Sample.env (Sample.print (JObject Sample.toolObject))
               = Some (JObject Sample.toolObject)) by (vm_compute; reflexivity).
  assert (H2 : json_Unmarshal Sample.env
                 (Sample.print (JObject (withoutSchema Sample.toolObject)))
               = Some (JObject (withoutSchema Sample.toolObject)))
    by (vm_compute; reflexivity).
  split; [exact H1|]. split; [exact H2|].
  exact (proj2 (schema_members_carry_no_text Sample.env Sample.toolObject) _ _ Sample.model
           H1 H2).
Defined.

(** A text field outside the schema is counted, the one inside is not. *)
Example schema_text_is_not_counted :
  extractTextFromMap Sample.toolObject = "abc t ".
Proof. vm_compute. reflexivity. Qed.

Lemma empty_target_matches_every_model_witness :
  Sample.trimSpace "" = ""
  /\ Sample.getenv "PCACHE_ENABLED" = "true"
  /\ Sample.getenv "PCACHE_TARGET_MODELS" = "claude-opus-4-5" +:+ ","
  /\ IsPCacheTargetModel Sample.mapLower
       (InitPCache Sample.getenv Sample.trimSpace defaultConfig) "gpt-4o" = true.
Proof.
  assert (Ht : Sample.trimSpace "" = "") by reflexivity.
  assert (He : Sample.getenv "PCACHE_ENABLED" = "true") by reflexivity.
  assert (Hm : Sample.getenv "PCACHE_TARGET_MODELS" = "claude-opus-4-5" +:+ ",")
    by reflexivity.
  split; [exact Ht|]. split; [exact He|]. split; [exact Hm|].
  exact (empty_target_matches_every_model Sample.getenv Sample.trimSpace Sample.mapLower
           defaultConfig "claude-opus-4-5" "" Ht He (or_intror (or_introl Hm)) "gpt-4o").
Defined.

Lemma IsPCacheTargetModel_ignores_case_witness :
  let cfg := {| PCacheEnabled := true; PCacheTargetModels := PCacheTargetModels defaultConfig |} in
  strings.isASCII "Claude-Opus-4-5-20251101" = true
  /\ In "claude-opus-4-5" (PCacheTargetModels cfg)
  /\ strings.ToLower "Claude-Opus-4-5" = strings.ToLowerString Sample.mapLower "claude-opus-4-5"
  /\ IsPCacheTargetModel Sample.mapLower cfg "Claude-Opus-4-5-20251101" = true
  /\ IsPCacheTargetModel Sample.mapLower defaultConfig "Claude-Opus-4-5-20251101" = false.
Proof.
  intros cfg.
  assert (Hascii : strings.isASCII "Claude-Opus-4-5-20251101" = true) by reflexivity.
  assert (Hin : In "claude-opus-4-5" (PCacheTargetModels cfg)) by (right; left; reflexivity).
  assert (Hlow : strings.ToLower "Claude-Opus-4-5"
                 = strings.ToLowerString Sample.mapLower "claude-opus-4-5") by reflexivity.
  split; [exact Hascii|]. split; [exact Hin|]. split; [exact Hlow|].
  pose proof (IsPCacheTargetModel_ignores_case Sample.mapLower cfg
                "Claude-Opus-4-5-20251101") as (_ & Hon).
  pose proof (IsPCacheTargetModel_ignores_case Sample.mapLower defaultConfig
                "Claude-Opus-4-5-20251101") as (Hoff & _).
  split; [|exact (Hoff eq_refl)].
  apply (proj1 (Hon Hascii)). split; [reflexivity|].
  exists "claude-opus-4-5", "", "Claude-Opus-4-5", "-20251101".
  split; [exact Hin|]. split; [reflexivity | exact Hlow].
Defined.

(** Without the trailing comma the other model is no target. *)
Example target_without_trailing_comma :
  IsPCacheTargetModel Sample.mapLower
    {| PCacheEnabled := true; PCacheTargetModels := map Sample.trimSpace
                                                         (strings.Split "claude-opus-4-5" ",") |}
    "gpt-4o" = false
  /\ strings.Split "claude-opus-4-5, claude-haiku ,," "," 
     = ["claude-opus-4-5"; " claude-haiku "; ""; ""].
Proof. split; vm_compute; reflexivity. Qed.

Lemma GetClaudeSettings_default_max_tokens_witness :
  exists c',
    model_setting.GetClaudeSettings Sample.settings = Some c'
    /\ model_setting.GetDefaultMaxTokens c' "claude-opus-4-5" = 4096
    /\ model_setting.GetDefaultMaxTokens c' Sample.model = 8192
    /\ model_setting.GetClaudeSettings c' = Some c'.
Proof.
  destruct (model_setting.GetClaudeSettings Sample.settings) as [c'|] eqn:Hc;
    [|vm_compute in Hc; discriminate].
  exists c'. split; [reflexivity|].
  destruct (proj2 (GetClaudeSettings_default_max_tokens Sample.settings) c' Hc)
    as (tokens & tokens' & Ht & _ & _ & _ & Hget & _ & _ & Hidem).
  injection Ht as <-.
  split; [rewrite Hget; vm_compute; reflexivity|].
  split; [rewrite Hget; vm_compute; reflexivity | exact Hidem].
Defined.

Lemma WriteHeaders_adds_the_missing_values_witness :
  (forall headers, Sample.headerRange headers ≡ₚ map_to_list headers)
  /\ "prompt-caching"
     ∈ model_setting.Values Sample.canonicalKey
         (model_setting.WriteHeaders Sample.canonicalKey Sample.headerRange Sample.settings
            Sample.model Sample.header0) "anthropic-beta".
Proof.
  assert (Hvalid : forall headers, Sample.headerRange headers ≡ₚ map_to_list headers)
    by (intros headers; reflexivity).
  split; [exact Hvalid|].
  refine (proj1 (WriteHeaders_adds_the_missing_values Sample.canonicalKey Sample.headerRange
                   Sample.settings Sample.model Sample.header0 Hvalid)
            {[ "anthropic-beta" := ["prompt-caching"; "tools"] ]} "anthropic-beta"
            ["prompt-caching"; "tools"] "prompt-caching" _ _ _).
  - vm_compute. reflexivity.
  - vm_compute. reflexivity.
  - left.
Defined.

(** The value that the header already held is not added again. *)
Example WriteHeaders_sample :
  model_setting.WriteHeaders Sample.canonicalKey Sample.headerRange Sample.settings
    Sample.model Sample.header0
  = {[ "Anthropic-Beta" := ["tools"; "prompt-caching"] ]}.
Proof. vm_compute. reflexivity. Qed.
